(** * jupyterlab/commands.py: compatibility resolution and build-state checks

    A shallow embedding of the version-overlap test, the per-extension
    compatibility check, the disabled-extension matcher, the package
    template builder and the build check of [jupyterlab/commands.py],
    followed by the properties established about them. *)

From Stdlib Require Import String Ascii List Bool NArith Lia Permutation.
From Stdlib Require Import DecimalString.
Import ListNotations.
Open Scope list_scope.
Open Scope string_scope.

(** ** Python values *)

(** The exceptions the modelled functions can raise. *)
Inductive exn : Type :=
| KeyError (key : string)
| ReError (pattern : string)
| AttributeError (attribute : string).

Inductive result (A : Type) : Type :=
| Ok (a : A)
| Raise (e : exn).
Arguments Ok {A} a.
Arguments Raise {A} e.

(** [s.startswith(prefix)] *)
Definition startswith (s pre : string) : bool := String.prefix pre s.

(** Truth value of a Python string: only the empty string is false. *)
Definition str_truthy (s : string) : bool :=
  match s with EmptyString => false | String _ _ => true end.

(** [x in l] for a list of strings. *)
Definition str_in (x : string) (l : list string) : bool :=
  existsb (String.eqb x) l.

(** A Python [dict] with string keys.  Iteration follows insertion order and
    assignment to an existing key keeps its position, so the model is an
    association list with at most one binding per key. *)
Module Dict.
Definition t (V : Type) : Type := list (string * V).

Definition keys {V} (d : t V) : list string := map fst d.

Definition items {V} (d : t V) : list (string * V) := d.

(** [k in d] *)
Definition mem {V} (k : string) (d : t V) : bool := str_in k (keys d).

Fixpoint get {V} (k : string) (d : t V) : option V :=
  match d with
  | [] => None
  | (k', v) :: rest => if String.eqb k k' then Some v else get k rest
  end.

(** [d[k]] *)
Definition lookup {V} (k : string) (d : t V) : result V :=
  match get k d with
  | Some v => Ok v
  | None => Raise (KeyError k)
  end.

(** [d[k] = v] *)
Fixpoint set {V} (k : string) (v : V) (d : t V) : t V :=
  match d with
  | [] => [(k, v)]
  | (k', v') :: rest =>
      if String.eqb k k' then (k', v) :: rest else (k', v') :: set k v rest
  end.

Fixpoint remove {V} (k : string) (d : t V) : t V :=
  match d with
  | [] => []
  | (k', v') :: rest =>
      if String.eqb k k' then rest else (k', v') :: remove k rest
  end.

(** [d.pop(k)], the popped value dropped. *)
Definition pop {V} (k : string) (d : t V) : result (t V) :=
  if mem k d then Ok (remove k d) else Raise (KeyError k).
End Dict.

(** ** The interface of [jupyterlab/semver.py]

    [commands.py] imports [Range], [gte], [lt], [lte] and [gt] from the semver
    module and reads the attributes [range], [set], [operator] and [semver]
    of what they return.  The overlap test is written against that
    interface. *)

(** A list with at least one element: a parsed range always holds at least
    one comparator set, and a comparator set at least one comparator. *)
Record nelist (A : Type) : Type := NeList { ne_first : A; ne_rest : list A }.
Arguments NeList {A} ne_first ne_rest.
Arguments ne_first {A} n.
Arguments ne_rest {A} n.

(** [l[-1]] *)
Definition ne_last {A} (l : nelist A) : A := last (ne_rest l) (ne_first l).

Record Comparator (V : Type) : Type :=
  { operator : string; semver : V }.
Arguments operator {V} c.
Arguments semver {V} c.

Record RangeOf (V : Type) : Type :=
  { range : string; set : nelist (nelist (Comparator V)) }.
Arguments range {V} r.
Arguments set {V} r.

Class SemverModule : Type :=
  { SemVer : Type;
    (** [a == b] on the [semver] attribute of two comparators *)
    semver_eq : SemVer -> SemVer -> bool;
    gte : SemVer -> SemVer -> bool -> bool;
    lt : SemVer -> SemVer -> bool -> bool;
    lte : SemVer -> SemVer -> bool -> bool;
    gt : SemVer -> SemVer -> bool -> bool;
    (** [Range(spec, loose)] *)
    Range : string -> bool -> RangeOf SemVer }.

(** ** Version overlap and extension compatibility *)

Section Overlap.
Context {semver_module : SemverModule}.

Definition noop (x y : SemVer) (z : bool) : bool := true.

(** [_test_overlap(spec1, spec2)]; [None] is Python's [None]. *)
Definition _test_overlap (spec1 spec2 : string) : option bool :=
  let r1 := Range spec1 true in
  let r2 := Range spec2 true in
  if negb (str_truthy (range r1)) || negb (str_truthy (range r2)) then None
  else
    let x1 := semver (ne_first (ne_first (set r1))) in
    let x2 := semver (ne_last (ne_first (set r1))) in
    let y1 := semver (ne_first (ne_first (set r2))) in
    let y2 := semver (ne_last (ne_first (set r2))) in
    let o1 := operator (ne_first (ne_first (set r1))) in
    let o2 := operator (ne_first (ne_first (set r2))) in
    if startswith o1 "<" || startswith o2 "<" then None
    else
      let lx := if semver_eq x1 x2 then lte else lt in
      let ly := if semver_eq y1 y2 then lte else lt in
      let gx := if semver_eq x1 x2 then gte else gt in
      let gy := if semver_eq x1 x2 then gte else gt in
      let lx := if semver_eq x1 x2 && startswith o1 ">" then noop else lx in
      let ly := if semver_eq y1 y2 && startswith o2 ">" then noop else ly in
      Some (gte x1 y1 true && ly x1 y2 true ||
            gy x2 y1 true && ly x2 y2 true ||
            gte y1 x1 true && lx y1 x2 true ||
            gx y2 x1 true && lx y2 x2 true).
End Overlap.

(** ** JSON documents

    [package.json] documents are modelled at their schema: the core template
    and the built snapshot both carry [dependencies] and a [jupyterlab] block
    with [version], [extensions], [mimeExtensions], [singletonPackages] and
    [linkedPackages].  The [version] key is the one the build check reads
    with a default; it is [None] when the document lacks it. *)

(** The two extension kinds, the keys ['extensions'] and ['mimeExtensions']
    of the [jupyterlab] block (['extension'] and ['mimeExtension'] in an
    extension's own metadata). *)
Inductive ext_type : Type := Extension | MimeExtension.

Module Pkg.
Record jlab : Type :=
  { version : option string;
    extensions : Dict.t string;
    mimeExtensions : Dict.t string;
    singletonPackages : list string;
    linkedPackages : Dict.t string }.

Record t : Type :=
  { dependencies : Dict.t string;
    jupyterlab : jlab }.

(** [jlab[ext_type]] *)
Definition field (ty : ext_type) (j : jlab) : Dict.t string :=
  match ty with
  | Extension => extensions j
  | MimeExtension => mimeExtensions j
  end.

Definition with_field (ty : ext_type) (d : Dict.t string) (j : jlab) : jlab :=
  match ty with
  | Extension =>
      {| version := version j; extensions := d;
         mimeExtensions := mimeExtensions j;
         singletonPackages := singletonPackages j;
         linkedPackages := linkedPackages j |}
  | MimeExtension =>
      {| version := version j; extensions := extensions j;
         mimeExtensions := d;
         singletonPackages := singletonPackages j;
         linkedPackages := linkedPackages j |}
  end.

Definition with_linkedPackages (d : Dict.t string) (j : jlab) : jlab :=
  {| version := version j; extensions := extensions j;
     mimeExtensions := mimeExtensions j;
     singletonPackages := singletonPackages j; linkedPackages := d |}.

Definition with_jupyterlab (j : jlab) (p : t) : t :=
  {| dependencies := dependencies p; jupyterlab := j |}.

Definition with_dependencies (d : Dict.t string) (p : t) : t :=
  {| dependencies := d; jupyterlab := jupyterlab p |}.
End Pkg.

(** A compatibility error [(key, core_deps[key], value)]. *)
Definition conflict : Type := (string * string * string)%type.

Section Compatibility.
Context {semver_module : SemverModule}.

(** The loop of [_validate_compatibility] over [deps.items()], [errors]
    being the list built so far. *)
Fixpoint validate_loop (core_deps : Dict.t string) (singletons : list string)
    (items : list (string * string)) (errors : list conflict)
  : result (list conflict) :=
  match items with
  | [] => Ok errors
  | (key, value) :: rest =>
      if str_in key singletons then
        match Dict.get key core_deps with
        | None => Raise (KeyError key)
        | Some pin =>
            match _test_overlap pin value with
            | Some false =>
                validate_loop core_deps singletons rest
                  (errors ++ [(key, pin, value)])%list
            | _ => validate_loop core_deps singletons rest errors
            end
        end
      else validate_loop core_deps singletons rest errors
  end.

Definition _validate_compatibility (extension : string)
    (deps : Dict.t string) (core_data : Pkg.t) : result (list conflict) :=
  let core_deps := Pkg.dependencies core_data in
  let singletons := Pkg.singletonPackages (Pkg.jupyterlab core_data) in
  validate_loop core_deps singletons (Dict.items deps) [].

(** [s.ljust(width)] *)
Definition ljust (s : string) (width : nat) : string :=
  s ++ String.concat EmptyString (repeat " " (width - String.length s)).

Definition newline : string := String (ascii_of_nat 10) EmptyString.

Definition dquote : string := String (ascii_of_nat 34) EmptyString.

(** [str(Range(spec, True))] is the [range] attribute. *)
Definition range_str (spec : string) : string := range (Range spec true).

Definition _format_compatibility_errors (name version : string)
    (errors : list conflict) : string :=
  let msgs :=
    map (fun '(pkg, jlab, ext) => (pkg, range_str jlab, range_str ext))
      errors in
  let l0 :=
    fold_left (fun l '(pkg, _, _) => Nat.max l (String.length pkg + 1))
      msgs 10%nat in
  let l1 :=
    fold_left (fun l '(_, jlab, _) => Nat.max l (String.length jlab + 1))
      msgs 10%nat in
  let msg :=
    newline ++ dquote ++ name ++ "@" ++ version ++ dquote ++
    " is not compatible with the current JupyterLab" in
  let msg := msg ++ newline ++ "Conflicting Dependencies:" ++ newline in
  let msg := msg ++ ljust "JupyterLab" l0 in
  let msg := msg ++ ljust "Extension" l1 in
  let msg := msg ++ "Package" ++ newline in
  fold_left
    (fun msg '(pkg, jlab, ext) =>
       msg ++ ljust jlab l0 ++ ljust ext l1 ++ pkg ++ newline)
    msgs msg.
End Compatibility.

(** ** Disabled extensions *)

(** Python's [re] module: [re.compile(pattern)] raises [re.error] on a
    malformed pattern; [p.match(name)] anchors at the start of [name]. *)
Class ReModule : Type :=
  { Pattern : Type;
    re_compile : string -> option Pattern;
    (** [p.match(name) is not None] *)
    re_match : Pattern -> string -> bool }.

Section Disabled.
Context {re_module : ReModule}.

Fixpoint _is_disabled (name : string) (disabled : list string)
  : result bool :=
  match disabled with
  | [] => Ok false
  | pattern :: rest =>
      if String.eqb name pattern then Ok true
      else
        match re_compile pattern with
        | None => Raise (ReError pattern)
        | Some p =>
            if re_match p name then Ok true else _is_disabled name rest
        end
  end.

(** A pattern disables a name when it equals it or, compiled, matches at
    its start. *)
Definition disables (pattern name : string) : Prop :=
  name = pattern \/
  exists p, re_compile pattern = Some p /\ re_match p name = true.
End Disabled.

(** ** The application handler *)

Module Ext.
(** The value of an extension's ['extension'] or ['mimeExtension'] key:
    [True], [False] or the path of the entry module. *)
Inductive entry : Type :=
| Flag (b : bool)
| ModulePath (s : string).

Record jlab : Type :=
  { extension : option entry;
    mimeExtension : option entry }.

(** An entry of [info['extensions']]. *)
Record t : Type :=
  { path : string;
    version : string;
    jupyterlab : jlab;
    dependencies : Dict.t string }.

(** [jlab_data.get(item, False)] *)
Definition get (item : ext_type) (j : jlab) : entry :=
  let found :=
    match item with
    | Extension => extension j
    | MimeExtension => mimeExtension j
    end in
  match found with
  | Some e => e
  | None => Flag false
  end.

Definition truthy (e : entry) : bool :=
  match e with
  | Flag b => b
  | ModulePath s => str_truthy s
  end.
End Ext.

Module Linked.
(** An entry of [info['linked_packages']]. *)
Record t : Type :=
  { source : string;
    filename : string }.
End Linked.

(** The part of [self.info] the build check reads. *)
Record Info : Type :=
  { core_data : Pkg.t;
    extensions : Dict.t Ext.t;
    local_extensions : Dict.t string;
    linked_packages : Dict.t Linked.t;
    uninstalled_core : list string }.

(** The handler object: its cached [info] and what was sent to
    [logger.warn]. *)
Record Handler : Type :=
  { info : Info;
    log : list string }.

(** [distutils.version.LooseVersion]: a version string parsed into numeric
    and alphabetic components, compared component by component. *)
Inductive lv_component : Type :=
| LvInt (n : N)
| LvStr (s : string).

Definition lv_component_eqb (a b : lv_component) : bool :=
  match a, b with
  | LvInt n, LvInt m => N.eqb n m
  | LvStr s, LvStr u => String.eqb s u
  | _, _ => false
  end.

Fixpoint lv_eqb (a b : list lv_component) : bool :=
  match a, b with
  | [], [] => true
  | x :: a', y :: b' => lv_component_eqb x y && lv_eqb a' b'
  | _, _ => false
  end.

(** What the handler asks of the operating system and the file system. *)
Class Environment : Type :=
  { app_dir : string;
    pjoin : list string -> string;
    (** the local function [format_path] of [_get_package_template] *)
    format_path : string -> string;
    LooseVersion : string -> list lv_component;
    (** [self._check_local(name, source, dname)]: packs [source] and tells
        whether the packed file is missing from [dname] *)
    _check_local : string -> string -> string -> bool }.

(** Handler methods: state passing with exceptions.  An exception leaves the
    handler as it was when it was raised. *)
Definition M (A : Type) : Type := Handler -> result A * Handler.

Definition ret {A} (a : A) : M A := fun h => (Ok a, h).

Definition bind {A B} (m : M A) (f : A -> M B) : M B :=
  fun h =>
    match m h with
    | (Ok a, h') => f a h'
    | (Raise e, h') => (Raise e, h')
    end.

Declare Scope handler_scope.
Delimit Scope handler_scope with handler.
Notation "x <- m ;; k" := (bind m (fun x => k))
  (at level 61, m at next level, right associativity) : handler_scope.
Notation "m ;; k" := (bind m (fun _ => k))
  (at level 61, right associativity) : handler_scope.
Open Scope handler_scope.

Definition lift {A} (r : result A) : M A := fun h => (r, h).

Definition get_info : M Info := fun h => (Ok (info h), h).

Definition get_core_data : M Pkg.t := fun h => (Ok (core_data (info h)), h).

Definition put_core_data (data : Pkg.t) : M unit :=
  fun h =>
    (Ok tt,
     {| info :=
          {| core_data := data;
             extensions := extensions (info h);
             local_extensions := local_extensions (info h);
             linked_packages := linked_packages (info h);
             uninstalled_core := uninstalled_core (info h) |};
        log := log h |}).

Definition logger_warn (msg : string) : M unit :=
  fun h => (Ok tt, {| info := info h; log := (log h ++ [msg])%list |}).

Fixpoint for_each {A} (l : list A) (body : A -> M unit) : M unit :=
  match l with
  | [] => ret tt
  | x :: rest => body x ;; for_each rest body
  end.

(** Writes through [data], the alias of [self.info['core_data']] that
    [_get_package_template] works on: each one updates the cached object. *)

(** [data['dependencies'][key] = value] *)
Definition set_dependency (key value : string) : M unit :=
  data <- get_core_data ;;
  put_core_data
    (Pkg.with_dependencies (Dict.set key value (Pkg.dependencies data)) data).

(** [jlab[item + 's'][key] = ext] *)
Definition set_entry (item : ext_type) (key ext : string) : M unit :=
  data <- get_core_data ;;
  let jlab := Pkg.jupyterlab data in
  put_core_data
    (Pkg.with_jupyterlab
       (Pkg.with_field item (Dict.set key ext (Pkg.field item jlab)) jlab)
       data).

(** [jlab['linkedPackages'] = dict()] *)
Definition reset_linkedPackages : M unit :=
  data <- get_core_data ;;
  put_core_data
    (Pkg.with_jupyterlab
       (Pkg.with_linkedPackages [] (Pkg.jupyterlab data)) data).

(** [jlab['linkedPackages'][key] = source] *)
Definition set_linkedPackage (key source : string) : M unit :=
  data <- get_core_data ;;
  let jlab := Pkg.jupyterlab data in
  put_core_data
    (Pkg.with_jupyterlab
       (Pkg.with_linkedPackages
          (Dict.set key source (Pkg.linkedPackages jlab)) jlab)
       data).

(** [data['jupyterlab'][item + 's'].pop(name)] *)
Definition pop_entry (item : ext_type) (name : string) : M unit :=
  data <- get_core_data ;;
  let jlab := Pkg.jupyterlab data in
  d <- lift (Dict.pop name (Pkg.field item jlab)) ;;
  put_core_data (Pkg.with_jupyterlab (Pkg.with_field item d jlab) data).

(** [data['dependencies'].pop(name)] *)
Definition pop_dependency (name : string) : M unit :=
  data <- get_core_data ;;
  d <- lift (Dict.pop name (Pkg.dependencies data)) ;;
  put_core_data (Pkg.with_dependencies d data).

Section AppHandler.
Context {semver_module : SemverModule} {environment : Environment}.

(** The loop of [_get_extension_compat] over [info['extensions'].items()]. *)
Fixpoint compat_loop (core : Pkg.t) (items : list (string * Ext.t))
    (compat : Dict.t (list conflict)) : result (Dict.t (list conflict)) :=
  match items with
  | [] => Ok compat
  | (name, data) :: rest =>
      match _validate_compatibility name (Ext.dependencies data) core with
      | Ok errors => compat_loop core rest (Dict.set name errors compat)
      | Raise e => Raise e
      end
  end.

Definition _get_extension_compat : M (Dict.t (list conflict)) :=
  i <- get_info ;;
  lift (compat_loop (core_data i) (Dict.items (extensions i)) []).

Definition _get_package_template (silent : bool) : M Pkg.t :=
  i <- get_info ;;
  let local := local_extensions i in
  let linked := linked_packages i in
  let extensions := extensions i in
  (* Handle extensions *)
  compat_errors <- _get_extension_compat ;;
  for_each (Dict.items extensions) (fun '(key, value) =>
    errors <- lift (Dict.lookup key compat_errors) ;;
    match errors with
    | _ :: _ =>
        (* Reject incompatible extensions with a message. *)
        let msg :=
          _format_compatibility_errors key (Ext.version value) errors in
        if negb silent then logger_warn (msg ++ newline) else ret tt
    | [] =>
        set_dependency key (format_path (Ext.path value)) ;;
        let jlab_data := Ext.jupyterlab value in
        for_each [Extension; MimeExtension] (fun item =>
          let ext := Ext.get item jlab_data in
          if negb (Ext.truthy ext) then ret tt
          else
            (* if ext is True: ext = '' *)
            let ext :=
              match ext with
              | Ext.Flag _ => ""
              | Ext.ModulePath s => s
              end in
            set_entry item key ext)
    end) ;;
  reset_linkedPackages ;;
  (* Handle local extensions. *)
  for_each (Dict.items local) (fun '(key, source) =>
    set_linkedPackage key source) ;;
  (* Handle linked packages. *)
  for_each (Dict.items linked) (fun '(key, item) =>
    let path := pjoin [app_dir; "staging"; "linked_packages"] in
    let path := pjoin [path; Linked.filename item] in
    set_dependency key (format_path path) ;;
    set_linkedPackage key (Linked.source item)) ;;
  (* Handle uninstalled core extensions. *)
  for_each (uninstalled_core i) (fun item =>
    data <- get_core_data ;;
    (if Dict.mem item (Pkg.extensions (Pkg.jupyterlab data))
     then pop_entry Extension item
     else pop_entry MimeExtension item) ;;
    (* Remove from dependencies as well. *)
    pop_dependency item) ;;
  get_core_data.

(** Messages of one extension kind: first the added names, then the
    removed ones. *)
Definition ext_messages (old_jlab new_jlab : Pkg.jlab) (ty : ext_type)
  : list string :=
  let old := Pkg.field ty old_jlab in
  let new := Pkg.field ty new_jlab in
  let added :=
    map (fun ext => ext ++ " needs to be included")
      (filter (fun ext => negb (Dict.mem ext old)) (Dict.keys new)) in
  let removed :=
    map (fun ext => ext ++ " needs to be removed")
      (filter (fun ext => negb (Dict.mem ext new)) (Dict.keys old)) in
  (added ++ removed)%list.

(** Messages of the loop over [new_deps.items()]; [new_deps[pkg]] is
    [dep]. *)
Definition dep_messages (old_deps new_deps : Dict.t string)
    (local : Dict.t string) (linked : Dict.t Linked.t) : list string :=
  flat_map
    (fun '(pkg, dep) =>
       match Dict.get pkg old_deps with
       | None => []
       | Some old =>
           if Dict.mem pkg local || Dict.mem pkg linked then []
           else if negb (String.eqb old dep)
                then [pkg ++ " changed from " ++ old ++ " to " ++ dep]
                else []
       end)
    (Dict.items new_deps).

Definition local_messages (fast : bool) (local : Dict.t string)
  : list string :=
  flat_map
    (fun '(name, source) =>
       if fast then []
       else
         let dname := pjoin [app_dir; "extensions"] in
         if _check_local name source dname
         then [name ++ " content changed"] else [])
    (Dict.items local).

Definition linked_messages (fast : bool) (linked : Dict.t Linked.t)
  : list string :=
  flat_map
    (fun '(name, item) =>
       if fast then []
       else
         let dname := pjoin [app_dir; "staging"; "linked_packages"] in
         if _check_local name (Linked.source item) dname
         then [name ++ " content changed"] else [])
    (Dict.items linked).

(** [LooseVersion(a) != LooseVersion(b)].  [LooseVersion('')] is built
    without parsing and has no [version] attribute, so comparing it raises
    [AttributeError]. *)
Definition loose_version_ne (a b : string) : result bool :=
  if str_truthy a && str_truthy b
  then Ok (negb (lv_eqb (LooseVersion a) (LooseVersion b)))
  else Raise (AttributeError "version").

(** [build_check(fast)]; [static] is the content of
    [static/package.json], [None] when the file does not exist. *)
Definition build_check (fast : bool) (static : option Pkg.t)
  : M (list string) :=
  i <- get_info ;;
  let local := local_extensions i in
  let linked := linked_packages i in
  match static with
  | None => ret ["No built application"]
  | Some static_data =>
      let old_jlab := Pkg.jupyterlab static_data in
      let old_deps := Pkg.dependencies static_data in
      (* Look for mismatched version. *)
      let static_version :=
        match Pkg.version old_jlab with Some v => v | None => "" end in
      core_version <-
        lift match Pkg.version old_jlab with
             | Some v => Ok v
             | None => Raise (KeyError "version")
             end ;;
      mismatch <- lift (loose_version_ne static_version core_version) ;;
      if mismatch
      then ret ["Version mismatch: " ++ static_version ++ " (built), " ++
                core_version ++ " (current)"]
      else
        (* Look for mismatched extensions. *)
        new_package <- _get_package_template fast ;;
        let new_jlab := Pkg.jupyterlab new_package in
        let new_deps := Pkg.dependencies new_package in
        let messages :=
          flat_map (ext_messages old_jlab new_jlab)
            [Extension; MimeExtension] in
        (* Look for mismatched dependencies *)
        let messages :=
          (messages ++ dep_messages old_deps new_deps local linked)%list in
        (* Look for updated local extensions. *)
        let messages := (messages ++ local_messages fast local)%list in
        (* Look for updated linked packages. *)
        let messages := (messages ++ linked_messages fast linked)%list in
        ret messages
  end.

(** The messages [build_check] returns once the template [new_package]
    is built. *)
Definition check_messages (fast : bool) (static_data new_package : Pkg.t)
    (local : Dict.t string) (linked : Dict.t Linked.t) : list string :=
  (flat_map
     (ext_messages (Pkg.jupyterlab static_data)
        (Pkg.jupyterlab new_package))
     [Extension; MimeExtension] ++
   dep_messages (Pkg.dependencies static_data)
     (Pkg.dependencies new_package) local linked ++
   local_messages fast local ++
   linked_messages fast linked)%list.
End AppHandler.

(** The snapshot records a version, and not the empty one: the version test
    of [build_check] raises on any other snapshot. *)
Definition records_version (static_data : Pkg.t) : Prop :=
  exists v, Pkg.version (Pkg.jupyterlab static_data) = Some v /\ v <> "".

(** What a handler method leaves alone: every part of [info] but
    [core_data]. *)
Definition frame (h h' : Handler) : Prop :=
  extensions (info h') = extensions (info h) /\
  local_extensions (info h') = local_extensions (info h) /\
  linked_packages (info h') = linked_packages (info h) /\
  uninstalled_core (info h') = uninstalled_core (info h).

Definition keeps_frame {A} (m : M A) : Prop :=
  forall h, frame h (snd (m h)).

(** A method that returns the cached [core_data] object itself. *)
Definition yields_core_data (m : M Pkg.t) : Prop :=
  forall h data, fst (m h) = Ok data -> core_data (info (snd (m h))) = data.

(** ** A semver module for single-interval ranges

    [jupyterlab/semver.py] is not among the sources; this module stands for
    it on the range expressions the properties below evaluate. *)

Module SpecSemver.
(** Modelled from the spec: the versions [jupyterlab/semver.py] parses, as
    [major.minor.patch] triples; [ANY] stands for the version of an empty
    range. *)
Inductive version : Type :=
| ANY
| Version (major minor patch : N).

Definition compare (a b : version) : option comparison :=
  match a, b with
  | Version a1 a2 a3, Version b1 b2 b3 =>
      Some match N.compare a1 b1 with
           | Eq => match N.compare a2 b2 with
                   | Eq => N.compare a3 b3
                   | c => c
                   end
           | c => c
           end
  | _, _ => None
  end.

Definition eqb (a b : version) : bool :=
  match a, b with
  | ANY, ANY => true
  | Version a1 a2 a3, Version b1 b2 b3 =>
      N.eqb a1 b1 && N.eqb a2 b2 && N.eqb a3 b3
  | _, _ => false
  end.

Definition gte (a b : version) (loose : bool) : bool :=
  match compare a b with Some Gt | Some Eq => true | _ => false end.
Definition lt (a b : version) (loose : bool) : bool :=
  match compare a b with Some Lt => true | _ => false end.
Definition lte (a b : version) (loose : bool) : bool :=
  match compare a b with Some Lt | Some Eq => true | _ => false end.
Definition gt (a b : version) (loose : bool) : bool :=
  match compare a b with Some Gt => true | _ => false end.

Fixpoint split_on (sep : ascii) (s : string) : list string :=
  match s with
  | EmptyString => [EmptyString]
  | String c rest =>
      if Ascii.eqb c sep then EmptyString :: split_on sep rest
      else
        match split_on sep rest with
        | [] => [String c EmptyString]
        | part :: parts => String c part :: parts
        end
  end.

Definition parse_number (s : string) : option N :=
  option_map N.of_uint (NilZero.uint_of_string s).

Definition show_number (n : N) : string :=
  NilZero.string_of_uint (N.to_uint n).

(** ["X.Y.Z"] *)
Definition parse_version (s : string) : option version :=
  match split_on "." s with
  | [a; b; c] =>
      match parse_number a, parse_number b, parse_number c with
      | Some x, Some y, Some z => Some (Version x y z)
      | _, _, _ => None
      end
  | _ => None
  end.

Definition show_version (v : version) : string :=
  match v with
  | ANY => ""
  | Version x y z =>
      show_number x ++ "." ++ show_number y ++ "." ++ show_number z
  end.

Definition comparator (op : string) (v : version) : Comparator version :=
  {| operator := op; semver := v |}.

Definition empty_range : RangeOf version :=
  {| range := ""; set := NeList (NeList (comparator "" ANY) []) [] |}.

(** One comparator: low and high bound are the same version. *)
Definition single (op : string) (v : version) : RangeOf version :=
  {| range := op ++ show_version v;
     set := NeList (NeList (comparator op v) []) [] |}.

Definition caret_upper (v : version) : version :=
  match v with
  | ANY => ANY
  | Version 0 0 z => Version 0 0 (z + 1)
  | Version 0 y _ => Version 0 (y + 1) 0
  | Version x _ _ => Version (x + 1) 0 0
  end.

(** ["^X.Y.Z"]: at least [X.Y.Z], below the next breaking version. *)
Definition caret (v : version) : RangeOf version :=
  {| range := ">=" ++ show_version v ++ " <" ++ show_version (caret_upper v);
     set :=
       NeList (NeList (comparator ">=" v) [comparator "<" (caret_upper v)])
         [] |}.

(** ["X.Y.Z - U.V.W"]: from [X.Y.Z] to [U.V.W], both included. *)
Definition hyphen (low high : version) : RangeOf version :=
  {| range := ">=" ++ show_version low ++ " <=" ++ show_version high;
     set :=
       NeList (NeList (comparator ">=" low) [comparator "<=" high]) [] |}.

(** The two sides of the first [" - "] of a range expression. *)
Fixpoint split_hyphen (s : string) : option (string * string) :=
  match s with
  | EmptyString => None
  | String c rest =>
      if Ascii.eqb c " " && String.prefix "- " rest
      then Some (EmptyString, String.substring 2 (String.length rest - 2) rest)
      else
        match split_hyphen rest with
        | Some (low, high) => Some (String c low, high)
        | None => None
        end
  end.

(** The comparator token in front of a version, [=] when there is none. *)
Definition split_operator (s : string) : string * string :=
  match s with
  | String ">" (String "=" rest) => (">=", rest)
  | String "<" (String "=" rest) => ("<=", rest)
  | String ">" rest => (">", rest)
  | String "<" rest => ("<", rest)
  | String "=" rest => ("=", rest)
  | _ => ("=", s)
  end.

(** Modelled from the spec: [jupyterlab/semver.py] ([Range], [gte], [lt],
    [lte], [gt]) is not among the sources.  The spec's VersionRange
    contract is [parse(spec) -> Range | Empty], a Range being a single
    interval with a low bound, a high bound (equal when the spec pins an
    exact version) and the comparator token of the first bound, one of
    [>], [>=], [<], [<=], [=]; ["^1.0.0"] means at least 1.0.0 and below
    2.0.0; an empty or unparsable expression is the empty range.  Versions
    are [major.minor.patch] triples ordered lexicographically, and
    [x1 == x2] is equality of the two versions.  The expressions read are
    a version with or without a comparator token in front, a caret range
    and a hyphen range ["X.Y.Z - U.V.W"], the interval with both bounds
    included. *)
Definition parse_range (spec : string) (loose : bool) : RangeOf version :=
  match spec with
  | String "^" rest =>
      match parse_version rest with
      | Some v => caret v
      | None => empty_range
      end
  | _ =>
      match split_hyphen spec with
      | Some (low, high) =>
          match parse_version low, parse_version high with
          | Some v, Some w => hyphen v w
          | _, _ => empty_range
          end
      | None =>
          let (op, rest) := split_operator spec in
          match parse_version rest with
          | Some v => single op v
          | None => empty_range
          end
      end
  end.

(** Modelled from the spec: the names [commands.py] imports from
    [jupyterlab/semver.py]. *)
#[export] Instance impl : SemverModule :=
  Build_SemverModule version eqb gte lt lte gt parse_range.
End SpecSemver.

(** ** The literal fragment of regular expressions *)

Module LiteralRe.
(** Characters that stand for themselves in a pattern: letters, digits,
    [-], [_], [/] and [@]. *)
Definition ordinary (c : ascii) : bool :=
  let n := nat_of_ascii c in
  Nat.leb 48 n && Nat.leb n 57 || Nat.leb 65 n && Nat.leb n 90 ||
  Nat.leb 97 n && Nat.leb n 122 ||
  Nat.eqb n 45 || Nat.eqb n 95 || Nat.eqb n 47 || Nat.eqb n 64.

Definition literal (pattern : string) : bool :=
  forallb ordinary (list_ascii_of_string pattern).

(** An engine for patterns of ordinary characters only; it rejects every
    other pattern. *)
#[export] Instance impl : ReModule :=
  {| Pattern := string;
     re_compile := fun pattern =>
       if literal pattern then Some pattern else None;
     re_match := fun p name => String.prefix p name |}.
End LiteralRe.

(** An engine agrees with Python's on literal patterns when a pattern of
    ordinary characters compiles and matches exactly the names it is a
    prefix of. *)
Definition literal_patterns_match_prefixes (re_module : ReModule) : Prop :=
  forall pattern,
    LiteralRe.literal pattern = true ->
    exists p,
      re_compile pattern = Some p /\
      forall name, re_match p name = String.prefix pattern name.

(** ** A sample environment *)

Module SampleEnv.
Definition loose_component (s : string) : lv_component :=
  match SpecSemver.parse_number s with
  | Some n => LvInt n
  | None => LvStr s
  end.

(** Paths are joined with [/], staged paths are [file:] references, version
    strings split at the dots, and no packed file is ever missing. *)
#[export] Instance impl : Environment :=
  {| app_dir := "/app";
     pjoin := String.concat "/";
     format_path := fun path => "file:" ++ path;
     LooseVersion := fun s =>
       map loose_component (SpecSemver.split_on "." s);
     _check_local := fun _ _ _ => false |}.
End SampleEnv.

(** ** Reading a parsed range *)

Section RangeParts.
Context {semver_module : SemverModule}.

(** The operator of the first comparator, [r.set[0][0].operator]. *)
Definition low_operator (spec : string) : string :=
  operator (ne_first (ne_first (set (Range spec true)))).

(** [not r.range]: the parsed range is empty. *)
Definition empty_spec (spec : string) : bool :=
  negb (str_truthy (range (Range spec true))).

(** The first and last comparator of the first set carry equal versions. *)
Definition pinned (spec : string) : bool :=
  let r := Range spec true in
  semver_eq (semver (ne_first (ne_first (set r))))
    (semver (ne_last (ne_first (set r)))).

(** The conflicts [_validate_compatibility] collects, dependency by
    dependency, when every singleton dependency has a core pin. *)
Definition conflicts_of (core_deps : Dict.t string)
    (singletons : list string) (items : list (string * string))
  : list conflict :=
  flat_map
    (fun '(key, value) =>
       if str_in key singletons then
         match Dict.get key core_deps with
         | Some pin =>
             match _test_overlap pin value with
             | Some false => [(key, pin, value)]
             | _ => []
             end
         | None => []
         end
       else [])
    items.
End RangeParts.

(** ** Sample data *)

Module Scenario.
Import SpecSemver SampleEnv.

Definition jlab_of (version : string) (exts : Dict.t string)
    (singletons : list string) : Pkg.jlab :=
  {| Pkg.version := Some version;
     Pkg.extensions := exts;
     Pkg.mimeExtensions := [];
     Pkg.singletonPackages := singletons;
     Pkg.linkedPackages := [] |}.

(** A core template pinning the singleton [foo] to [^2.0.0]. *)
Definition core_foo : Pkg.t :=
  {| Pkg.dependencies := [("foo", "^2.0.0")];
     Pkg.jupyterlab := jlab_of "0.2.0" [] ["foo"] |}.

(** A core template that names [foo] a singleton without pinning it. *)
Definition core_unpinned : Pkg.t :=
  {| Pkg.dependencies := [];
     Pkg.jupyterlab := jlab_of "0.2.0" [] ["foo"] |}.

Definition plain_extension (path : string) : Ext.t :=
  {| Ext.path := path;
     Ext.version := "1.0.0";
     Ext.jupyterlab :=
       {| Ext.extension := Some (Ext.Flag true);
          Ext.mimeExtension := None |};
     Ext.dependencies := [] |}.

Definition handler_of (core : Pkg.t) (exts : Dict.t Ext.t)
    (uninstalled : list string) : Handler :=
  {| info :=
       {| core_data := core;
          extensions := exts;
          local_extensions := [];
          linked_packages := [];
          uninstalled_core := uninstalled |};
     log := [] |}.

(** Core version 0.2.0, nothing installed. *)
Definition handler_bare : Handler := handler_of core_foo [] [].

(** A snapshot built by version 0.1.0 of the same template. *)
Definition static_old_version : Pkg.t :=
  {| Pkg.dependencies := [("foo", "^2.0.0")];
     Pkg.jupyterlab := jlab_of "0.1.0" [] ["foo"] |}.

(** Extensions [A] and [C] are installed. *)
Definition handler_AC : Handler :=
  handler_of core_foo
    [("A", plain_extension "/ext/A.tgz"); ("C", plain_extension "/ext/C.tgz")]
    [].

(** The snapshot was built with extensions [A] and [B]. *)
Definition static_AB : Pkg.t :=
  {| Pkg.dependencies :=
       [("foo", "^2.0.0"); ("A", "file:/ext/A.tgz"); ("B", "file:/ext/B.tgz")];
     Pkg.jupyterlab := jlab_of "0.2.0" [("A", ""); ("B", "")] ["foo"] |}.

(** A core template with the core extension [core-ext], which the build
    configuration lists as uninstalled. *)
Definition core_with_ext : Pkg.t :=
  {| Pkg.dependencies := [("core-ext", "^0.2.0")];
     Pkg.jupyterlab := jlab_of "0.2.0" [("core-ext", "")] [] |}.

Definition handler_uninstalled : Handler :=
  handler_of core_with_ext [] ["core-ext"].

(** The template built for [handler_AC], and the handler afterwards. *)
Definition template_AC : Pkg.t * Handler :=
  let data :=
    {| Pkg.dependencies :=
         [("foo", "^2.0.0"); ("A", "file:/ext/A.tgz");
          ("C", "file:/ext/C.tgz")];
       Pkg.jupyterlab := jlab_of "0.2.0" [("A", ""); ("C", "")] ["foo"] |} in
  (data,
   {| info :=
        {| core_data := data;
           extensions := extensions (info handler_AC);
           local_extensions := [];
           linked_packages := [];
           uninstalled_core := [] |};
      log := [] |}).
End Scenario.


(** ** The bounds of a parsed range *)

Section RangeBounds.
Context {semver_module : SemverModule}.

(** [r.set[0][0].semver], the low bound. *)
Definition low_version (spec : string) : SemVer :=
  semver (ne_first (ne_first (set (Range spec true)))).

(** [r.set[0][-1].semver], the high bound. *)
Definition high_version (spec : string) : SemVer :=
  semver (ne_last (ne_first (set (Range spec true)))).

(** The first comparator set holds one comparator only. *)
Definition single_comparator (spec : string) : Prop :=
  ne_rest (ne_first (set (Range spec true))) = [].

(** On the versions of [vs], [lt], [lte], [gt] and [gte] are the comparisons
    of one linear order (up to versions the order does not tell apart). *)
Definition linear_on (vs : list SemVer) : Prop :=
  (forall a b, In a vs -> In b vs ->
     gte a b true = negb (lt a b true) /\
     gt a b true = lt b a true /\
     lte a b true = negb (lt b a true)) /\
  (forall a, In a vs -> lt a a true = false) /\
  (forall a b c, In a vs -> In b vs -> In c vs ->
     lt a b true = true -> lt b c true = true -> lt a c true = true) /\
  (forall a b c, In a vs -> In b vs -> In c vs ->
     lt a c true = true -> lt a b true = true \/ lt b c true = true).

(** The spec parses to a non-empty range that is not an upper bound. *)
Definition handled (spec : string) : Prop :=
  empty_spec spec = false /\ startswith (low_operator spec) "<" = false.
End RangeBounds.

(** ** Vocabulary for handler methods *)

(** The method keeps [P] true of the handler, whether it returns or
    raises. *)
Definition preserves {A} (P : Handler -> Prop) (m : M A) : Prop :=
  forall h, P h -> P (snd (m h)).

(** Two methods that differ at most in what they log. *)
Definition same_but_log {A} (m1 m2 : M A) : Prop :=
  forall h1 h2,
    info h1 = info h2 ->
    fst (m1 h1) = fst (m2 h2) /\ info (snd (m1 h1)) = info (snd (m2 h2)).

Section TemplateVocabulary.
Context {semver_module : SemverModule}.


(** One warning per installed extension with conflicts, in order. *)
Definition incompatibility_warnings (i : Info) : list string :=
  flat_map
    (fun '(key, value) =>
       match
         _validate_compatibility key (Ext.dependencies value) (core_data i)
       with
       | Ok (e :: es) =>
           [_format_compatibility_errors key (Ext.version value) (e :: es)
              ++ newline]
       | _ => []
       end)
    (extensions i).
End TemplateVocabulary.

(** A property of the cached core data, as a property of the handler. *)
Definition on_core (Q : Pkg.t -> Prop) : Handler -> Prop :=
  fun h => Q (core_data (info h)).

Section TemplateContents.
Context {semver_module : SemverModule}.



End TemplateContents.

Module MoreScenarios.
Import SpecSemver SampleEnv Scenario.

(** An extension requiring the singleton [foo] at [^3.0.0]. *)
Definition needs_foo_3 : Ext.t :=
  {| Ext.path := "/ext/E.tgz";
     Ext.version := "1.0.0";
     Ext.jupyterlab :=
       {| Ext.extension := Some (Ext.Flag true);
          Ext.mimeExtension := None |};
     Ext.dependencies := [("foo", "^3.0.0")] |}.

(** [A] is compatible with [core_foo], [E] is not. *)
Definition handler_conflict : Handler :=
  handler_of core_foo
    [("A", plain_extension "/ext/A.tgz"); ("E", needs_foo_3)] [].

(** A local extension [A] and a linked package [lib]. *)
Definition handler_linked : Handler :=
  {| info :=
       {| core_data := core_foo;
          extensions := [("A", plain_extension "/ext/A.tgz")];
          local_extensions := [("A", "/src/A")];
          linked_packages :=
            [("lib", {| Linked.source := "/src/lib";
                        Linked.filename := "lib-1.0.0.tgz" |})];
          uninstalled_core := [] |};
     log := [] |}.

(** The build configuration lists [gone] as uninstalled, which the core
    template does not know. *)
Definition handler_stale : Handler := handler_of core_with_ext [] ["gone"].

(** What [_get_package_template] returns for a handler, with the handler
    it leaves; the core data as they are if it raises. *)
Definition built (h : Handler) : Pkg.t * Handler :=
  match @_get_package_template SpecSemver.impl SampleEnv.impl true h with
  | (Ok data, h') => (data, h')
  | (Raise _, h') => (core_data (info h), h')
  end.

Definition template_linked : Pkg.t * Handler :=
  Eval vm_compute in built handler_linked.

Definition template_uninstalled : Pkg.t * Handler :=
  Eval vm_compute in built handler_uninstalled.
End MoreScenarios.

(** [jlab['linkedPackages']] of the cached core data. *)
Definition linked_of (h : Handler) : Dict.t string :=
  Pkg.linkedPackages (Pkg.jupyterlab (core_data (info h))).

(** When the method returns from a handler satisfying [P], the handler it
    leaves satisfies [Q]. *)
Definition hoare {A} (P Q : Handler -> Prop) (m : M A) : Prop :=
  forall h a h', P h -> m h = (Ok a, h') -> Q h'.

(** [jlab['linkedPackages']] as the template method fills it: the local
    extensions first, then the linked packages. *)
Definition linked_sources (i : Info) : Dict.t string :=
  fold_left (fun d '(key, item) => Dict.set key (Linked.source item) d)
    (linked_packages i)
    (fold_left (fun d '(key, source) => Dict.set key source d)
       (local_extensions i) []).

(** The body of the loop of [_get_package_template] over
    [info['uninstalled_core']]. *)
Definition uninstall_core_item (item : string) : M unit :=
  data <- get_core_data ;;
  (if Dict.mem item (Pkg.extensions (Pkg.jupyterlab data))
   then pop_entry Extension item
   else pop_entry MimeExtension item) ;;
  pop_dependency item.

(** A name the template can hold a dependency for. *)
Definition known_package (i : Info) (k : string) : Prop :=
  In k (Dict.keys (Pkg.dependencies (core_data i))) \/
  In k (Dict.keys (extensions i)) \/
  In k (Dict.keys (linked_packages i)).

(** ** Extension validation *)

(** [s.endswith(suffix)] *)
Definition endswith (s suffix : string) : bool :=
  let n := String.length s in
  let m := String.length suffix in
  Nat.leb m n && String.eqb (String.substring (n - m) m s) suffix.

Module PackageData.
(** The [jupyterlab] block of an extension's [package.json]. *)
Record jlab : Type :=
  { extension : option Ext.entry;
    mimeExtension : option Ext.entry;
    themeDir : option string;
    schemaDir : option string }.

(** The value under the ['jupyterlab'] key: a JSON object or anything
    else. *)
Inductive jlab_value : Type :=
| NotObject
| Object (j : jlab).

(** What [_read_package] returns, as far as validation reads it. *)
Record t : Type :=
  { jupyterlab : option jlab_value;
    main : option string;
    jupyterlab_extracted_files : list string }.
End PackageData.

(** [a == b] on entry values. *)
Definition entry_eqb (a b : Ext.entry) : bool :=
  match a, b with
  | Ext.Flag x, Ext.Flag y => Bool.eqb x y
  | Ext.ModulePath s, Ext.ModulePath u => String.eqb s u
  | _, _ => false
  end.

(** [d.get(key, default)] on an optional field. *)
Definition get_default {A} (field : option A) (default : A) : A :=
  match field with
  | Some a => a
  | None => default
  end.

(** The entry value after [if e is True: e = main] and
    [elif e and not e.endswith('.js'): e += '.js']. *)
Definition complete_entry (main : string) (e : Ext.entry) : Ext.entry :=
  match e with
  | Ext.Flag true => Ext.ModulePath main
  | Ext.Flag false => e
  | Ext.ModulePath s =>
      if str_truthy s && negb (endswith s ".js")
      then Ext.ModulePath (s ++ ".js") else e
  end.

(** [e not in files] *)
Definition entry_not_in (e : Ext.entry) (files : list string) : bool :=
  match e with
  | Ext.Flag _ => true
  | Ext.ModulePath s => negb (str_in s files)
  end.

(** ['%s' % e] *)
Definition entry_str (e : Ext.entry) : string :=
  match e with
  | Ext.Flag true => "True"
  | Ext.Flag false => "False"
  | Ext.ModulePath s => s
  end.

(** [messages.append(msg)] when [cond] holds. *)
Definition append_if (cond : bool) (msg : string) (messages : list string)
  : list string :=
  if cond then (messages ++ [msg])%list else messages.

Definition _validate_extension (data : PackageData.t) : list string :=
  match PackageData.jupyterlab data with
  | None => ["No `jupyterlab` key"]
  | Some PackageData.NotObject =>
      ["The `jupyterlab` key must be a JSON object"]
  | Some (PackageData.Object jlab) =>
      let extension :=
        get_default (PackageData.extension jlab) (Ext.Flag false) in
      let mime_extension :=
        get_default (PackageData.mimeExtension jlab) (Ext.Flag false) in
      let themeDir := get_default (PackageData.themeDir jlab) "" in
      let schemaDir := get_default (PackageData.schemaDir jlab) "" in
      let messages := [] in
      let messages :=
        append_if (negb (Ext.truthy extension) &&
                   negb (Ext.truthy mime_extension))
          "No `extension` or `mimeExtension` key present" messages in
      let messages :=
        append_if (entry_eqb extension mime_extension)
          "`mimeExtension` and `extension` must point to different modules"
          messages in
      let files := PackageData.jupyterlab_extracted_files data in
      let main := get_default (PackageData.main data) "index.js" in
      let main := if negb (endswith main ".js") then main ++ ".js" else main in
      let extension := complete_entry main extension in
      let mime_extension := complete_entry main mime_extension in
      let messages :=
        append_if (Ext.truthy extension && entry_not_in extension files)
          ("Missing extension module " ++ dquote ++ entry_str extension ++
           dquote) messages in
      let messages :=
        append_if (Ext.truthy mime_extension &&
                   entry_not_in mime_extension files)
          ("Missing mimeExtension module " ++ dquote ++
           entry_str mime_extension ++ dquote) messages in
      let messages :=
        append_if (str_truthy themeDir &&
                   negb (existsb (fun f => startswith f themeDir) files))
          ("themeDir is empty: " ++ dquote ++ themeDir ++ dquote) messages in
      let messages :=
        append_if (str_truthy schemaDir &&
                   negb (existsb (fun f => startswith f schemaDir) files))
          ("schemaDir is empty: " ++ dquote ++ schemaDir ++ dquote)
          messages in
      messages
  end.

(** The module file an entry value asks for, if it declares one. *)
Definition entry_module (data : PackageData.t) (e : option Ext.entry)
  : option string :=
  let main := get_default (PackageData.main data) "index.js" in
  let main := if negb (endswith main ".js") then main ++ ".js" else main in
  match complete_entry main (get_default e (Ext.Flag false)) with
  | Ext.ModulePath s => if str_truthy s then Some s else None
  | Ext.Flag _ => None
  end.

(** Some packed file lies under the directory, or no directory is
    declared. *)
Definition dir_populated (dir : option string) (files : list string) : Prop :=
  get_default dir "" = "" \/
  exists f, In f files /\ startswith f (get_default dir "") = true.

(** ** Persisted configuration *)

Module Config.
(** [page_config.json], as far as the handler reads it. *)
Record page : Type := { disabledExtensions : option (list string) }.

(** [build_config.json]. *)
Record build : Type :=
  { uninstalled_core_extensions : option (list string);
    local_extensions : option (Dict.t string);
    linked_packages : option (Dict.t string) }.

(** The two files of the [settings] directory; [None] when a file does
    not exist. *)
Record files : Type :=
  { page_config : option page;
    build_config : option build }.
End Config.

(** [_read_page_config]: [{}] when the file does not exist. *)
Definition _read_page_config (s : Config.files) : Config.page :=
  match Config.page_config s with
  | Some config => config
  | None => {| Config.disabledExtensions := None |}
  end.

Definition _write_page_config (config : Config.page) (s : Config.files)
  : Config.files :=
  {| Config.page_config := Some config;
     Config.build_config := Config.build_config s |}.

(** [_read_build_config]: [{}] when the file does not exist. *)
Definition _read_build_config (s : Config.files) : Config.build :=
  match Config.build_config s with
  | Some config => config
  | None =>
      {| Config.uninstalled_core_extensions := None;
         Config.local_extensions := None;
         Config.linked_packages := None |}
  end.

Definition _write_build_config (config : Config.build) (s : Config.files)
  : Config.files :=
  {| Config.page_config := Config.page_config s;
     Config.build_config := Some config |}.

(** [l.remove(x)] for an [x] that is in [l]: the first occurrence goes. *)
Fixpoint list_remove (x : string) (l : list string) : list string :=
  match l with
  | [] => []
  | y :: rest => if String.eqb x y then rest else y :: list_remove x rest
  end.

(** [toggle_extension(extension, value)]: [value] true disables. *)
Definition toggle_extension (extension : string) (value : bool)
    (s : Config.files) : Config.files :=
  let config := _read_page_config s in
  let disabled := get_default (Config.disabledExtensions config) [] in
  let disabled :=
    if value && negb (str_in extension disabled)
    then (disabled ++ [extension])%list else disabled in
  let disabled :=
    if negb value && str_in extension disabled
    then list_remove extension disabled else disabled in
  _write_page_config {| Config.disabledExtensions := Some disabled |} s.

(** [info['disabled']] as [_get_app_info] reads it. *)
Definition disabled_of (s : Config.files) : list string :=
  get_default (Config.disabledExtensions (_read_page_config s)) [].

(** [_get_uninstalled_core_extensions] *)
Definition _get_uninstalled_core_extensions (s : Config.files)
  : list string :=
  get_default (Config.uninstalled_core_extensions (_read_build_config s)) [].

(** ** Commands that change the application directory *)

(** What the commands ask of the file system beyond [Environment]. *)
Class FileSystem : Type :=
  { sys_dir : string;
    (** [osp.exists(path)] *)
    path_exists : string -> bool;
    (** [osp.dirname(path)] *)
    dirname : string -> string;
    (** [self._get_extensions_in_dir(dname, core_data)]: the packed
        extensions found under [dname]; the method does not read its
        [core_data] argument *)
    _get_extensions_in_dir : string -> Dict.t Ext.t }.

(** A handler together with what its commands act on: the core extension
    names cached in [info['core_extensions']], the settings files, the
    paths given to [os.remove] and the messages sent to [logger.info]. *)
Record App : Type :=
  { handler : Handler;
    core_extensions : list string;
    settings : Config.files;
    removed_files : list string;
    info_log : list string }.

Definition logger_info (msg : string) (a : App) : App :=
  {| handler := handler a;
     core_extensions := core_extensions a;
     settings := settings a;
     removed_files := removed_files a;
     info_log := (info_log a ++ [msg])%list |}.

Definition app_warn (msg : string) (a : App) : App :=
  {| handler :=
       {| info := info (handler a);
          log := (log (handler a) ++ [msg])%list |};
     core_extensions := core_extensions a;
     settings := settings a;
     removed_files := removed_files a;
     info_log := info_log a |}.

Definition os_remove (path : string) (a : App) : App :=
  {| handler := handler a;
     core_extensions := core_extensions a;
     settings := settings a;
     removed_files := (removed_files a ++ [path])%list;
     info_log := info_log a |}.

Definition with_settings (s : Config.files) (a : App) : App :=
  {| handler := handler a;
     core_extensions := core_extensions a;
     settings := s;
     removed_files := removed_files a;
     info_log := info_log a |}.

Section Uninstall.
Context {file_system : FileSystem}.

(** The loop of [uninstall_extension] over [info['extensions'].items()],
    followed by the warning for an unknown name. *)
Fixpoint uninstall_installed (name : string) (local : Dict.t string)
    (items : list (string * Ext.t)) (a : App) : result bool * App :=
  match items with
  | [] =>
      (Ok false,
       app_warn ("No labextension named " ++ dquote ++ name ++ dquote ++
                 " installed") a)
  | (extname, data) :: rest =>
      let path := Ext.path data in
      if String.eqb extname name then
        let msg := "Uninstalling " ++ name ++ " from " ++ dirname path in
        let a := logger_info msg a in
        let a := os_remove path a in
        (* Handle local extensions. *)
        if Dict.mem extname local then
          let config := _read_build_config (settings a) in
          let data := get_default (Config.local_extensions config) [] in
          match Dict.pop extname data with
          | Raise e => (Raise e, a)
          | Ok data =>
              (Ok true,
               with_settings
                 (_write_build_config
                    {| Config.uninstalled_core_extensions :=
                         Config.uninstalled_core_extensions config;
                       Config.local_extensions := Some data;
                       Config.linked_packages :=
                         Config.linked_packages config |}
                    (settings a)) a)
          end
        else (Ok true, a)
      else uninstall_installed name local rest a
  end.

Definition uninstall_extension (name : string) (a : App)
  : result bool * App :=
  (* Allow for uninstalled core extensions. *)
  if str_in name (core_extensions a) then
    let a := logger_info ("Uninstalling core extension " ++ name) a in
    let config := _read_build_config (settings a) in
    let uninstalled :=
      get_default (Config.uninstalled_core_extensions config) [] in
    if negb (str_in name uninstalled) then
      let uninstalled := (uninstalled ++ [name])%list in
      (Ok true,
       with_settings
         (_write_build_config
            {| Config.uninstalled_core_extensions := Some uninstalled;
               Config.local_extensions := Config.local_extensions config;
               Config.linked_packages := Config.linked_packages config |}
            (settings a)) a)
    else (Ok true, a)
  else
    let local := local_extensions (info (handler a)) in
    uninstall_installed name local
      (Dict.items (extensions (info (handler a)))) a.
End Uninstall.

(** The two keys [_get_local_data] is called with. *)
Inductive local_source : Type := LocalExtensions | LinkedPackages.

Definition source_key (source : local_source) : string :=
  match source with
  | LocalExtensions => "local_extensions"
  | LinkedPackages => "linked_packages"
  end.

Definition config_get (source : local_source) (config : Config.build)
  : option (Dict.t string) :=
  match source with
  | LocalExtensions => Config.local_extensions config
  | LinkedPackages => Config.linked_packages config
  end.

Definition config_set (source : local_source) (data : Dict.t string)
    (config : Config.build) : Config.build :=
  match source with
  | LocalExtensions =>
      {| Config.uninstalled_core_extensions :=
           Config.uninstalled_core_extensions config;
         Config.local_extensions := Some data;
         Config.linked_packages := Config.linked_packages config |}
  | LinkedPackages =>
      {| Config.uninstalled_core_extensions :=
           Config.uninstalled_core_extensions config;
         Config.local_extensions := Config.local_extensions config;
         Config.linked_packages := Some data |}
  end.

(** [s.replace('_', ' ')] *)
Fixpoint replace_underscores (s : string) : string :=
  match s with
  | EmptyString => EmptyString
  | String c rest =>
      String (if Ascii.eqb c "_" then " "%char else c)
        (replace_underscores rest)
  end.

Section LocalData.
Context {file_system : FileSystem}.

(** The source path of the entry exists. *)
Definition alive (entry : string * string) : bool := path_exists (snd entry).

(** [_get_local_data(source)], on the settings files and the warnings
    logged so far.  The loop over [data.items()] rebinds the name
    [source], so the warnings are built from the path of the last
    entry. *)
Definition _get_local_data (source : local_source) (s : Config.files)
    (warnings : list string) : Dict.t string * Config.files * list string :=
  let config := _read_build_config s in
  let data := get_default (config_get source config) [] in
  let dead :=
    map fst (filter (fun '(name, src) => negb (path_exists src)) data) in
  let source_after_loop :=
    last (map snd data) (source_key source) in
  let link_type := replace_underscores source_after_loop in
  let notes :=
    map (fun name =>
           "**Note: Removing dead " ++ link_type ++ " " ++ dquote ++ name ++
           dquote) dead in
  let warnings := (warnings ++ notes)%list in
  let data := fold_left (fun d name => Dict.remove name d) dead data in
  let s :=
    match dead with
    | [] => s
    | _ :: _ => _write_build_config (config_set source data config) s
    end in
  (data, s, warnings).
End LocalData.

(** [d.update(other)] *)
Definition dict_update {V} (d other : Dict.t V) : Dict.t V :=
  fold_left (fun acc '(k, v) => Dict.set k v acc) other d.

Section Catalog.
Context {environment : Environment} {file_system : FileSystem}.

(** [_get_extensions(core_data)]: the extensions of the system directory,
    overridden by those of the application directory. *)
Definition _get_extensions (core_data : Pkg.t) : Dict.t Ext.t :=
  let sys_path := pjoin [sys_dir; "extensions"] in
  let app_path := pjoin [app_dir; "extensions"] in
  let extensions := _get_extensions_in_dir sys_dir in
  if String.eqb app_path sys_path || negb (path_exists app_path)
  then extensions
  else dict_update extensions (_get_extensions_in_dir app_dir).
End Catalog.

Module MoreEnvs.
(** The sample environment, every content check failing. *)
Definition all_changed : Environment :=
  {| app_dir := "/app";
     pjoin := String.concat "/";
     format_path := fun path => "file:" ++ path;
     LooseVersion := fun s =>
       map SampleEnv.loose_component (SpecSemver.split_on "." s);
     _check_local := fun _ _ _ => true |}.

(** A file system where only paths under [/src] exist, with one packed
    extension in the system directory and two in the application
    directory. *)
Definition sample_fs : FileSystem :=
  {| sys_dir := "/sys";
     path_exists := fun path => String.prefix "/src" path ||
                                String.prefix "/app" path;
     dirname := fun path => "/app/extensions";
     _get_extensions_in_dir := fun dname =>
       if String.eqb dname "/sys"
       then [("A", Scenario.plain_extension "/sys/extensions/A.tgz");
             ("S", Scenario.plain_extension "/sys/extensions/S.tgz")]
       else [("A", Scenario.plain_extension "/app/extensions/A.tgz")] |}.

Definition sample_settings : Config.files :=
  {| Config.page_config :=
       Some {| Config.disabledExtensions := Some ["foo"] |};
     Config.build_config :=
       Some {| Config.uninstalled_core_extensions := None;
               Config.local_extensions :=
                 Some [("A", "/src/A"); ("dead", "/gone/dead")];
               Config.linked_packages := None |} |}.

Definition sample_app : App :=
  {| handler := MoreScenarios.handler_linked;
     core_extensions := ["core-ext"];
     settings := sample_settings;
     removed_files := [];
     info_log := [] |}.
End MoreEnvs.

Module MorePackages.
(** A package whose [jupyterlab] object declares no entry point. *)
Definition no_entry_point : PackageData.t :=
  {| PackageData.jupyterlab :=
       Some (PackageData.Object
               {| PackageData.extension := None;
                  PackageData.mimeExtension := None;
                  PackageData.themeDir := None;
                  PackageData.schemaDir := None |});
     PackageData.main := None;
     PackageData.jupyterlab_extracted_files := ["package.json"; "index.js"] |}.
End MorePackages.
(** * Properties *)

(** ** Strings and dictionaries *)

Lemma str_in_In (x : string) (l : list string) :
  str_in x l = true <-> In x l.
Proof.
  unfold str_in. rewrite existsb_exists. split.
  - intros [y [Hy He]]. apply String.eqb_eq in He. now subst.
  - intros H. exists x. split; [assumption | apply String.eqb_refl].
Qed.

Lemma str_truthy_false (s : string) : str_truthy s = false <-> s = "".
Proof. destruct s; simpl; split; congruence. Qed.

Lemma dict_mem_get {V} (k : string) (d : Dict.t V) :
  Dict.mem k d = true <-> exists v, Dict.get k d = Some v.
Proof.
  unfold Dict.mem, Dict.keys. induction d as [| [k' v'] d IH]; simpl.
  - split; [discriminate | intros [v H]; discriminate].
  - destruct (String.eqb k k'); simpl.
    + split; [intros _; now exists v' | reflexivity].
    + exact IH.
Qed.

Lemma dict_mem_keys {V} (k : string) (d : Dict.t V) :
  Dict.mem k d = true <-> In k (Dict.keys d).
Proof. apply str_in_In. Qed.

(** ** The overlap test *)

Section OverlapFacts.
Context {semver_module : SemverModule}.

Lemma test_overlap_empty (spec1 spec2 : string) :
  empty_spec spec1 = true \/ empty_spec spec2 = true ->
  _test_overlap spec1 spec2 = None.
Proof.
  unfold empty_spec, _test_overlap. intros [H | H]; rewrite H.
  - reflexivity.
  - now rewrite orb_true_r.
Qed.

Lemma test_overlap_upper (spec1 spec2 : string) :
  startswith (low_operator spec1) "<" = true \/
  startswith (low_operator spec2) "<" = true ->
  _test_overlap spec1 spec2 = None.
Proof.
  unfold low_operator, _test_overlap. intros H.
  destruct (negb (str_truthy (range (Range spec1 true))) ||
            negb (str_truthy (range (Range spec2 true)))); [reflexivity |].
  destruct H as [H | H]; rewrite H.
  - reflexivity.
  - now rewrite orb_true_r.
Qed.

Lemma test_overlap_boolean (spec1 spec2 : string) :
  empty_spec spec1 = false -> empty_spec spec2 = false ->
  startswith (low_operator spec1) "<" = false ->
  startswith (low_operator spec2) "<" = false ->
  exists b, _test_overlap spec1 spec2 = Some b.
Proof.
  unfold empty_spec, low_operator, _test_overlap.
  intros E1 E2 L1 L2. rewrite E1, E2, L1, L2. simpl. eexists. reflexivity.
Qed.

(** Swapping the arguments changes nothing when both specs are pins or
    both are proper ranges: the two directions differ only through [gy],
    which reads the shape of the first spec. *)
Lemma test_overlap_sym_same_shape (spec1 spec2 : string) :
  pinned spec1 = pinned spec2 ->
  _test_overlap spec1 spec2 = _test_overlap spec2 spec1.
Proof.
  unfold pinned, _test_overlap. intros Hp.
  rewrite (orb_comm (negb (str_truthy (range (Range spec2 true))))).
  destruct (negb (str_truthy (range (Range spec1 true))) ||
            negb (str_truthy (range (Range spec2 true)))); [reflexivity |].
  rewrite (orb_comm (startswith (operator (ne_first (ne_first
             (set (Range spec2 true))))) "<")).
  destruct (startswith (operator (ne_first (ne_first
              (set (Range spec1 true))))) "<" ||
            startswith (operator (ne_first (ne_first
              (set (Range spec2 true))))) "<"); [reflexivity |].
  rewrite <- Hp. f_equal.
  set (a := _ && _). set (b := _ && _). set (c := _ && _). set (d := _ && _).
  destruct a, b, c, d; reflexivity.
Qed.
End OverlapFacts.

(** C1: the overlap test is not symmetric.  With the exact pin ["2.0.0"]
    first and the range ["1.0.0 - 2.0.0"], that is [>=1.0.0 <=2.0.0],
    second the test answers true, with the same two specs swapped it
    answers false: [gy] is chosen from the shape of the first spec
    ([x1 == x2]) where [ly] beside it reads the second. *)
Theorem test_overlap_asymmetric_pin_range :
  SpecSemver.parse_range "1.0.0 - 2.0.0" true =
    {| range := ">=1.0.0 <=2.0.0";
       set :=
         NeList
           (NeList (SpecSemver.comparator ">=" (SpecSemver.Version 1 0 0))
              [SpecSemver.comparator "<=" (SpecSemver.Version 2 0 0)]) [] |} /\
  @pinned SpecSemver.impl "2.0.0" = true /\
  @pinned SpecSemver.impl "1.0.0 - 2.0.0" = false /\
  @_test_overlap SpecSemver.impl "2.0.0" "1.0.0 - 2.0.0" = Some true /\
  @_test_overlap SpecSemver.impl "1.0.0 - 2.0.0" "2.0.0" = Some false.
Proof. repeat split; reflexivity. Qed.

(** C5 as stated fails: paired with the exact pin ["0.5.0"], the
    lower-bound-only spec [">1.0.0"] gives a definite answer, false, on
    either side, and the compatibility check records the conflict. *)
Lemma test_overlap_lower_bound_only_decided :
  @_test_overlap SpecSemver.impl ">1.0.0" "0.5.0" = Some false /\
  @_test_overlap SpecSemver.impl "0.5.0" ">1.0.0" = Some false /\
  @_validate_compatibility SpecSemver.impl "E" [("foo", ">1.0.0")]
    {| Pkg.dependencies := [("foo", "0.5.0")];
       Pkg.jupyterlab := Scenario.jlab_of "0.2.0" [] ["foo"] |} =
  Ok [("foo", "0.5.0", ">1.0.0")].
Proof. repeat split; reflexivity. Qed.

(** C6: the overlap test is indeterminate whenever one of the two parsed
    ranges is empty and whenever the first comparator of one of them starts
    with [<]; in every other case it answers with a boolean. *)
Theorem test_overlap_indeterminate_cases :
  forall (semver_module : SemverModule) (spec1 spec2 : string),
    (range (Range spec1 true) = "" \/ range (Range spec2 true) = "" ->
     _test_overlap spec1 spec2 = None) /\
    (startswith (low_operator spec1) "<" = true \/
     startswith (low_operator spec2) "<" = true ->
     _test_overlap spec1 spec2 = None) /\
    (range (Range spec1 true) <> "" -> range (Range spec2 true) <> "" ->
     startswith (low_operator spec1) "<" = false ->
     startswith (low_operator spec2) "<" = false ->
     exists b : bool, _test_overlap spec1 spec2 = Some b).
Proof.
  intros S spec1 spec2. split; [| split].
  - intros H. apply test_overlap_empty. unfold empty_spec.
    destruct H as [H | H]; rewrite H; auto.
  - apply test_overlap_upper.
  - intros N1 N2 L1 L2. apply test_overlap_boolean; trivial;
      unfold empty_spec; apply negb_false_iff;
      match goal with
      | |- str_truthy ?s = true =>
          destruct (str_truthy s) eqn:E;
          [reflexivity | apply str_truthy_false in E; contradiction]
      end.
Qed.

Lemma test_overlap_indeterminate_cases_witness :
  @_test_overlap SpecSemver.impl "" "1.0.0" = None /\
  @_test_overlap SpecSemver.impl "^2.0.0" "<1.0.0" = None /\
  exists b : bool, @_test_overlap SpecSemver.impl ">=1.0.0" "^1.0.0" = Some b.
Proof.
  pose proof (test_overlap_indeterminate_cases SpecSemver.impl "" "1.0.0")
    as [H1 _].
  pose proof (test_overlap_indeterminate_cases SpecSemver.impl
                "^2.0.0" "<1.0.0") as [_ [H2 _]].
  pose proof (test_overlap_indeterminate_cases SpecSemver.impl
                ">=1.0.0" "^1.0.0") as [_ [_ H3]].
  split; [| split].
  - apply H1. left. reflexivity.
  - apply H2. right. reflexivity.
  - apply H3; solve [discriminate | reflexivity].
Defined.

(** C7: the exact host pin ["1.2.3"] overlaps the extension requirement
    ["^1.0.0"], that is [>=1.0.0 <2.0.0]. *)
Theorem test_overlap_pin_in_caret_range :
  SpecSemver.parse_range "^1.0.0" true =
    {| range := ">=1.0.0 <2.0.0";
       set :=
         NeList
           (NeList (SpecSemver.comparator ">=" (SpecSemver.Version 1 0 0))
              [SpecSemver.comparator "<" (SpecSemver.Version 2 0 0)]) [] |} /\
  @pinned SpecSemver.impl "1.2.3" = true /\
  @pinned SpecSemver.impl "^1.0.0" = false /\
  @_test_overlap SpecSemver.impl "1.2.3" "^1.0.0" = Some true.
Proof. repeat split; reflexivity. Qed.

(** ** The compatibility check *)

Section CompatibilityFacts.
Context {semver_module : SemverModule}.

(** The loop either returns what it was given followed by the conflicts
    of the remaining dependencies, or stops at a singleton dependency the
    core template does not pin. *)
Lemma validate_loop_outcome (core_deps : Dict.t string)
    (singletons : list string) (items : list (string * string)) :
  forall errors,
    match validate_loop core_deps singletons items errors with
    | Ok out =>
        out = (errors ++ conflicts_of core_deps singletons items)%list /\
        forall key, In key (map fst items) ->
                    str_in key singletons = true ->
                    Dict.get key core_deps <> None
    | Raise e =>
        exists key, e = KeyError key /\ In key (map fst items) /\
                    str_in key singletons = true /\
                    Dict.get key core_deps = None
    end.
Proof.
  induction items as [| [key value] rest IH]; intros errors; simpl.
  - split; [now rewrite app_nil_r | intros key []].
  - destruct (str_in key singletons) eqn:Hs.
    + destruct (Dict.get key core_deps) as [pin |] eqn:Hg.
      * assert (Hstep : forall errors',
          match validate_loop core_deps singletons rest errors' with
          | Ok out =>
              out = (errors' ++ conflicts_of core_deps singletons rest)%list
              /\ forall key0, key = key0 \/ In key0 (map fst rest) ->
                              str_in key0 singletons = true ->
                              Dict.get key0 core_deps <> None
          | Raise e =>
              exists key0, e = KeyError key0 /\
                           (key = key0 \/ In key0 (map fst rest)) /\
                           str_in key0 singletons = true /\
                           Dict.get key0 core_deps = None
          end).
        { intros errors'. specialize (IH errors').
          destruct (validate_loop core_deps singletons rest errors').
          - destruct IH as [IH1 IH2]. split; [exact IH1 |].
            intros key0 [<- | Hin] Hk; [congruence | now apply IH2].
          - destruct IH as [key0 [He [Hin [Hk Hn]]]].
            exists key0. auto. }
        destruct (_test_overlap pin value) as [[|] |].
        -- apply Hstep.
        -- specialize (Hstep (errors ++ [(key, pin, value)])%list).
           destruct (validate_loop core_deps singletons rest
                       (errors ++ [(key, pin, value)])%list);
             [| exact Hstep].
           destruct Hstep as [-> H2]. split; [| exact H2].
           now rewrite <- app_assoc.
        -- apply Hstep.
      * exists key. auto.
    + specialize (IH errors).
      destruct (validate_loop core_deps singletons rest errors).
      * destruct IH as [IH1 IH2]. split; [exact IH1 |].
        intros key0 [<- | Hin] Hk; [congruence | now apply IH2].
      * destruct IH as [key0 [He [Hin [Hk Hn]]]]. exists key0. auto.
Qed.

Lemma in_conflicts_of (core_deps : Dict.t string) (singletons : list string)
    (items : list (string * string)) (key pin value : string) :
  In (key, pin, value) (conflicts_of core_deps singletons items) <->
  In (key, value) items /\ str_in key singletons = true /\
  Dict.get key core_deps = Some pin /\
  _test_overlap pin value = Some false.
Proof.
  unfold conflicts_of. rewrite in_flat_map. split.
  - intros [[k v] [Hin Hc]].
    destruct (str_in k singletons) eqn:Hs; [| destruct Hc].
    destruct (Dict.get k core_deps) as [p |] eqn:Hg; [| destruct Hc].
    destruct (_test_overlap p v) as [[|] |] eqn:Ho;
      try solve [destruct Hc].
    destruct Hc as [Hc | []]. inversion Hc; subst. auto.
  - intros [Hin [Hs [Hg Ho]]]. exists (key, value). split; [exact Hin |].
    rewrite Hs, Hg, Ho. now left.
Qed.

Lemma validate_compatibility_total (extension : string)
    (deps : Dict.t string) (core : Pkg.t) :
  (forall key, In key (Dict.keys deps) ->
               In key (Pkg.singletonPackages (Pkg.jupyterlab core)) ->
               In key (Dict.keys (Pkg.dependencies core))) ->
  _validate_compatibility extension deps core =
  Ok (conflicts_of (Pkg.dependencies core)
        (Pkg.singletonPackages (Pkg.jupyterlab core)) (Dict.items deps)).
Proof.
  intros Hpre. unfold _validate_compatibility.
  pose proof (validate_loop_outcome (Pkg.dependencies core)
                (Pkg.singletonPackages (Pkg.jupyterlab core))
                (Dict.items deps) []) as H.
  destruct (validate_loop _ _ _ _) as [out | e].
  - destruct H as [-> _]. reflexivity.
  - destruct H as [key [_ [Hin [Hs Hn]]]]. exfalso.
    apply str_in_In in Hs. specialize (Hpre key Hin Hs).
    apply dict_mem_keys, dict_mem_get in Hpre. destruct Hpre as [v Hv].
    congruence.
Qed.
End CompatibilityFacts.

(** C4: whatever the dependency map and the core data, the conflicts
    [_validate_compatibility] returns are exactly the triples
    [(key, pin, value)] of a dependency [key: value] whose name is a
    singleton package, [pin] being the core pin, for which the overlap test
    answers false; an indeterminate answer adds nothing.  It raises only at
    a singleton dependency without a core pin.  Host pin ["^2.0.0"] against
    the requirement ["^3.0.0"] gives exactly one conflict. *)
Theorem validate_compatibility_conflicts :
  (forall (semver_module : SemverModule) (extension : string)
          (deps : Dict.t string) (core : Pkg.t),
      let core_deps := Pkg.dependencies core in
      let singletons := Pkg.singletonPackages (Pkg.jupyterlab core) in
      match _validate_compatibility extension deps core with
      | Ok errors =>
          errors = conflicts_of core_deps singletons (Dict.items deps) /\
          forall key pin value,
            In (key, pin, value) errors <->
            In (key, value) (Dict.items deps) /\
            In key singletons /\
            Dict.get key core_deps = Some pin /\
            _test_overlap pin value = Some false
      | Raise e =>
          exists key, e = KeyError key /\ In key (Dict.keys deps) /\
                      In key singletons /\ Dict.get key core_deps = None
      end) /\
  @_test_overlap SpecSemver.impl "^2.0.0" "^3.0.0" = Some false /\
  @_validate_compatibility SpecSemver.impl "E" [("foo", "^3.0.0")]
    Scenario.core_foo = Ok [("foo", "^2.0.0", "^3.0.0")].
Proof.
  split; [| split; reflexivity].
  intros S extension deps core core_deps singletons.
  unfold _validate_compatibility. fold core_deps singletons.
  pose proof (validate_loop_outcome core_deps singletons (Dict.items deps) [])
    as H.
  destruct (validate_loop core_deps singletons (Dict.items deps) [])
    as [out | e].
  - destruct H as [-> _]. simpl. split; [reflexivity |].
    intros key pin value. rewrite in_conflicts_of, str_in_In. reflexivity.
  - destruct H as [key [He [Hin [Hs Hn]]]]. exists key.
    apply str_in_In in Hs. auto.
Qed.

(** C10: [_validate_compatibility] returns a conflict list whenever every
    dependency named in [singletonPackages] is a key of the core
    dependencies, and raises [KeyError] on a singleton dependency the core
    dependencies lack. *)
Theorem validate_compatibility_total_iff_pinned :
  (forall (semver_module : SemverModule) (extension : string)
          (deps : Dict.t string) (core : Pkg.t),
      (forall key,
          In key (Dict.keys deps) ->
          In key (Pkg.singletonPackages (Pkg.jupyterlab core)) ->
          In key (Dict.keys (Pkg.dependencies core))) ->
      exists errors, _validate_compatibility extension deps core = Ok errors)
  /\
  (forall semver_module : SemverModule,
      _validate_compatibility "E" [("foo", "^3.0.0")] Scenario.core_unpinned
      = Raise (KeyError "foo")).
Proof.
  split.
  - intros S extension deps core Hpre. eexists.
    apply validate_compatibility_total. exact Hpre.
  - intros S. reflexivity.
Qed.

Lemma validate_compatibility_total_iff_pinned_witness :
  exists errors,
    @_validate_compatibility SpecSemver.impl "E" [("foo", "^3.0.0")]
      Scenario.core_foo = Ok errors.
Proof.
  apply (proj1 validate_compatibility_total_iff_pinned SpecSemver.impl "E"
           [("foo", "^3.0.0")] Scenario.core_foo).
  simpl. intros key Hk _. exact Hk.
Defined.

Lemma lower_bound_not_upper (op : string) :
  startswith op ">" = true -> startswith op "<" = false.
Proof.
  unfold startswith. destruct op as [| c rest]; [discriminate |].
  cbn [String.prefix].
  destruct (ascii_dec ">" c) as [<- | _]; [reflexivity | discriminate].
Qed.

(** C5, amended: paired with a spec whose first comparator starts with [<]
    (an upper-bound-only spec such as ["<1.0.0"]), on either side, the
    overlap test is indeterminate, and no conflict the compatibility check
    reports has such a spec on either side.  A non-empty spec whose first
    comparator starts with [>] (a lower-bound-only spec such as
    [">1.0.0"]) is not indeterminate by itself: paired, on either side,
    with a non-empty spec whose first comparator does not start with [<],
    the overlap test answers with a boolean. *)
Theorem test_overlap_upper_bound_only :
  forall (semver_module : SemverModule),
    (forall bound other : string,
        startswith (low_operator bound) "<" = true ->
        _test_overlap bound other = None /\
        _test_overlap other bound = None) /\
    (forall extension deps core errors key pin value,
        _validate_compatibility extension deps core = Ok errors ->
        In (key, pin, value) errors ->
        startswith (low_operator pin) "<" = false /\
        startswith (low_operator value) "<" = false) /\
    (forall bound other : string,
        startswith (low_operator bound) ">" = true ->
        empty_spec bound = false ->
        empty_spec other = false ->
        startswith (low_operator other) "<" = false ->
        (exists b : bool, _test_overlap bound other = Some b) /\
        (exists b : bool, _test_overlap other bound = Some b)).
Proof.
  intros S. split; [| split].
  - intros bound other H. split; apply test_overlap_upper; auto.
  - intros extension deps core errors key pin value Hok Hin.
    unfold _validate_compatibility in Hok.
    pose proof (validate_loop_outcome (Pkg.dependencies core)
                  (Pkg.singletonPackages (Pkg.jupyterlab core))
                  (Dict.items deps) []) as H.
    rewrite Hok in H. destruct H as [-> _]. simpl in Hin.
    apply in_conflicts_of in Hin. destruct Hin as [_ [_ [_ Ho]]].
    split.
    + destruct (startswith (low_operator pin) "<") eqn:E; [| reflexivity].
      rewrite test_overlap_upper in Ho by (left; exact E). discriminate.
    + destruct (startswith (low_operator value) "<") eqn:E; [| reflexivity].
      rewrite test_overlap_upper in Ho by (right; exact E). discriminate.
  - intros bound other Hlow Eb Eo Ho.
    pose proof (lower_bound_not_upper _ Hlow) as Hb.
    split; apply test_overlap_boolean; assumption.
Qed.

Lemma test_overlap_upper_bound_only_witness :
  (@_test_overlap SpecSemver.impl "<1.0.0" "^2.0.0" = None /\
   @_test_overlap SpecSemver.impl "^2.0.0" "<1.0.0" = None) /\
  (startswith (@low_operator SpecSemver.impl "^2.0.0") "<" = false /\
   startswith (@low_operator SpecSemver.impl "^3.0.0") "<" = false) /\
  ((exists b : bool,
       @_test_overlap SpecSemver.impl ">1.0.0" "0.5.0" = Some b) /\
   (exists b : bool,
       @_test_overlap SpecSemver.impl "0.5.0" ">1.0.0" = Some b)).
Proof.
  split; [| split].
  - apply (proj1 (test_overlap_upper_bound_only SpecSemver.impl)
             "<1.0.0" "^2.0.0").
    reflexivity.
  - apply (proj1 (proj2 (test_overlap_upper_bound_only SpecSemver.impl))
             "E" [("foo", "^3.0.0")] Scenario.core_foo
             [("foo", "^2.0.0", "^3.0.0")] "foo" "^2.0.0" "^3.0.0").
    + reflexivity.
    + simpl. left. reflexivity.
  - apply (proj2 (proj2 (test_overlap_upper_bound_only SpecSemver.impl))
             ">1.0.0" "0.5.0"); reflexivity.
Defined.

(** ** The disabled matcher *)

Section DisabledFacts.
Context {re_module : ReModule}.

Lemma is_disabled_true (name : string) (disabled : list string) :
  _is_disabled name disabled = Ok true ->
  exists pattern, In pattern disabled /\ disables pattern name.
Proof.
  induction disabled as [| pattern rest IH]; simpl; [discriminate |].
  destruct (String.eqb name pattern) eqn:He.
  - intros _. exists pattern. split; [now left |].
    left. now apply String.eqb_eq.
  - destruct (re_compile pattern) as [p |] eqn:Hc; [| discriminate].
    destruct (re_match p name) eqn:Hm.
    + intros _. exists pattern. split; [now left |]. right. now exists p.
    + intros H. destruct (IH H) as [q [Hin Hq]]. exists q.
      split; [now right | exact Hq].
Qed.

Lemma is_disabled_false (name : string) (disabled : list string) :
  _is_disabled name disabled = Ok false ->
  forall pattern, In pattern disabled -> ~ disables pattern name.
Proof.
  induction disabled as [| pattern rest IH]; simpl; [intros _ q [] |].
  destruct (String.eqb name pattern) eqn:He; [discriminate |].
  destruct (re_compile pattern) as [p |] eqn:Hc; [| discriminate].
  destruct (re_match p name) eqn:Hm; [discriminate |].
  intros H q [<- | Hin].
  - intros [Heq | [p' [Hc' Hm']]].
    + apply String.eqb_neq in He. contradiction.
    + congruence.
  - now apply IH.
Qed.

Lemma is_disabled_returns (name : string) (disabled : list string) :
  (forall pattern, In pattern disabled -> re_compile pattern <> None) ->
  exists b, _is_disabled name disabled = Ok b.
Proof.
  induction disabled as [| pattern rest IH]; simpl; intros Hv.
  - now exists false.
  - destruct (String.eqb name pattern); [now exists true |].
    destruct (re_compile pattern) as [p |] eqn:Hc.
    + destruct (re_match p name); [now exists true |].
      apply IH. intros q Hq. apply Hv. now right.
    + exfalso. apply (Hv pattern); [now left | exact Hc].
Qed.
End DisabledFacts.

Lemma literal_re_matches_prefixes :
  literal_patterns_match_prefixes LiteralRe.impl.
Proof.
  intros pattern Hl. exists pattern. simpl. rewrite Hl. split; reflexivity.
Qed.

(** C8 as stated fails: [re.compile] raises on a malformed pattern, so
    with the pattern ["("] in front of ["foo"] the matcher does not return
    for the name ["foo"], although a pattern of the list equals the
    name. *)
Lemma is_disabled_raises_before_match :
  @_is_disabled LiteralRe.impl "foo" ["("; "foo"] = Raise (ReError "(") /\
  (exists pattern,
      In pattern ["("; "foo"] /\ @disables LiteralRe.impl pattern "foo").
Proof.
  split; [reflexivity |].
  exists "foo". split; [simpl; auto | left; reflexivity].
Qed.

(** C8, amended: when [_is_disabled] returns, it returns true exactly if
    some pattern of the list equals the name or, compiled as a regular
    expression, matches at the beginning of the name; it returns whenever
    the patterns compile.  With a pattern of ordinary characters matching
    the names it is a prefix of, ["foo"] disables ["foobar"] and ["foo"]
    but not ["bar"]. *)
Theorem is_disabled_exact_or_prefix_match :
  forall (re_module : ReModule),
    (forall name disabled b,
        _is_disabled name disabled = Ok b ->
        (b = true <->
         exists pattern,
           In pattern disabled /\
           (name = pattern \/
            exists p, re_compile pattern = Some p /\ re_match p name = true)))
    /\
    (forall name disabled,
        (forall pattern, In pattern disabled -> re_compile pattern <> None) ->
        exists b, _is_disabled name disabled = Ok b) /\
    (literal_patterns_match_prefixes re_module ->
     _is_disabled "foobar" ["foo"] = Ok true /\
     _is_disabled "bar" ["foo"] = Ok false /\
     _is_disabled "foo" ["foo"] = Ok true).
Proof.
  intros R. split; [| split].
  - intros name disabled b Hb. destruct b.
    + split; [intros _ | reflexivity].
      exact (is_disabled_true name disabled Hb).
    + split; [discriminate |].
      intros [pattern [Hin Hd]]. exfalso.
      exact (is_disabled_false name disabled Hb pattern Hin Hd).
  - intros name disabled. apply is_disabled_returns.
  - intros Hlit. destruct (Hlit "foo" eq_refl) as [p [Hc Hm]].
    simpl. rewrite Hc, !Hm. repeat split; reflexivity.
Qed.

Lemma is_disabled_exact_or_prefix_match_witness :
  (exists b, @_is_disabled LiteralRe.impl "foobar" ["bar"; "foo"] = Ok b) /\
  (@_is_disabled LiteralRe.impl "foobar" ["foo"] = Ok true /\
   @_is_disabled LiteralRe.impl "bar" ["foo"] = Ok false /\
   @_is_disabled LiteralRe.impl "foo" ["foo"] = Ok true).
Proof.
  split.
  - apply (proj1 (proj2 (is_disabled_exact_or_prefix_match LiteralRe.impl))).
    intros pattern [<- | [<- | []]]; discriminate.
  - apply (proj2 (proj2 (is_disabled_exact_or_prefix_match LiteralRe.impl))).
    exact literal_re_matches_prefixes.
Defined.

(** ** Handler methods and the cached [info] *)

Lemma frame_refl (h : Handler) : frame h h.
Proof. repeat split. Qed.

Lemma frame_trans (h1 h2 h3 : Handler) :
  frame h1 h2 -> frame h2 h3 -> frame h1 h3.
Proof.
  unfold frame. intros [A1 [A2 [A3 A4]]] [B1 [B2 [B3 B4]]].
  repeat split; congruence.
Qed.

Lemma keeps_ret {A} (a : A) : keeps_frame (ret a).
Proof. intros h. apply frame_refl. Qed.

Lemma keeps_lift {A} (r : result A) : keeps_frame (lift r).
Proof. intros h. apply frame_refl. Qed.

Lemma keeps_get_info : keeps_frame get_info.
Proof. intros h. apply frame_refl. Qed.

Lemma keeps_get_core_data : keeps_frame get_core_data.
Proof. intros h. apply frame_refl. Qed.

Lemma keeps_put_core_data (data : Pkg.t) : keeps_frame (put_core_data data).
Proof. intros h. repeat split. Qed.

Lemma keeps_logger_warn (msg : string) : keeps_frame (logger_warn msg).
Proof. intros h. repeat split. Qed.

Lemma keeps_bind {A B} (m : M A) (f : A -> M B) :
  keeps_frame m -> (forall a, keeps_frame (f a)) -> keeps_frame (bind m f).
Proof.
  intros Hm Hf h. unfold bind. specialize (Hm h).
  destruct (m h) as [[a | e] h1]; simpl in *.
  - eapply frame_trans; [exact Hm | apply Hf].
  - exact Hm.
Qed.

Lemma keeps_for_each {A} (l : list A) (body : A -> M unit) :
  (forall x, keeps_frame (body x)) -> keeps_frame (for_each l body).
Proof.
  intros Hb. induction l as [| x rest IH]; simpl.
  - apply keeps_ret.
  - apply keeps_bind; [apply Hb | intros _; exact IH].
Qed.

Create HintDb frame_db.
#[local] Hint Resolve keeps_ret keeps_lift keeps_get_info keeps_get_core_data
  keeps_put_core_data keeps_logger_warn : frame_db.

Ltac keeps :=
  repeat first
    [ apply keeps_bind; [| intros ? ]
    | apply keeps_for_each; intros ?
    | solve [ auto with frame_db ]
    | match goal with
      | |- keeps_frame (let '(_, _) := ?p in _) => destruct p
      | |- keeps_frame (match ?x with _ => _ end) => destruct x
      | |- keeps_frame (if ?b then _ else _) => destruct b
      end ].

Lemma keeps_set_dependency (key value : string) :
  keeps_frame (set_dependency key value).
Proof. unfold set_dependency. keeps. Qed.

Lemma keeps_set_entry (item : ext_type) (key ext : string) :
  keeps_frame (set_entry item key ext).
Proof. unfold set_entry. keeps. Qed.

Lemma keeps_reset_linkedPackages : keeps_frame reset_linkedPackages.
Proof. unfold reset_linkedPackages. keeps. Qed.

Lemma keeps_set_linkedPackage (key source : string) :
  keeps_frame (set_linkedPackage key source).
Proof. unfold set_linkedPackage. keeps. Qed.

Lemma keeps_pop_entry (item : ext_type) (name : string) :
  keeps_frame (pop_entry item name).
Proof. unfold pop_entry. keeps. Qed.

Lemma keeps_pop_dependency (name : string) :
  keeps_frame (pop_dependency name).
Proof. unfold pop_dependency. keeps. Qed.

#[local] Hint Resolve keeps_set_dependency keeps_set_entry
  keeps_reset_linkedPackages keeps_set_linkedPackage keeps_pop_entry
  keeps_pop_dependency : frame_db.

Lemma yields_get_core_data : yields_core_data get_core_data.
Proof. intros h data H. simpl in *. congruence. Qed.

Lemma yields_bind {A} (m : M A) (f : A -> M Pkg.t) :
  (forall a, yields_core_data (f a)) -> yields_core_data (bind m f).
Proof.
  intros Hf h data. unfold bind.
  destruct (m h) as [[a | e] h1]; simpl.
  - apply Hf.
  - discriminate.
Qed.

Lemma lv_eqb_refl (v : list lv_component) : lv_eqb v v = true.
Proof.
  induction v as [| c v IH]; simpl; [reflexivity |].
  rewrite IH, andb_true_r.
  destruct c; simpl; [apply N.eqb_refl | apply String.eqb_refl].
Qed.

Section AppHandlerFacts.
Context {semver_module : SemverModule} {environment : Environment}.

Lemma keeps_get_extension_compat : keeps_frame _get_extension_compat.
Proof. unfold _get_extension_compat. keeps. Qed.

Lemma keeps_get_package_template (silent : bool) :
  keeps_frame (_get_package_template silent).
Proof.
  pose proof keeps_get_extension_compat.
  unfold _get_package_template. keeps.
Qed.

Lemma yields_get_package_template (silent : bool) :
  yields_core_data (_get_package_template silent).
Proof.
  unfold _get_package_template.
  repeat (apply yields_bind; intros ?).
  apply yields_get_core_data.
Qed.

Lemma str_truthy_true (s : string) : s <> "" -> str_truthy s = true.
Proof. destruct s; [congruence | reflexivity]. Qed.

(** The version test of [build_check] compares the snapshot's version with
    itself, so a snapshot that records a version is always diffed against
    the template. *)
Lemma build_check_with_snapshot (fast : bool) (static_data : Pkg.t)
    (h : Handler) :
  records_version static_data ->
  build_check fast (Some static_data) h =
  match _get_package_template fast h with
  | (Ok new_package, h') =>
      (Ok (check_messages fast static_data new_package
             (local_extensions (info h)) (linked_packages (info h))), h')
  | (Raise e, h') => (Raise e, h')
  end.
Proof.
  intros [v [Hv Hne]].
  unfold build_check, check_messages.
  unfold bind at 1, get_info. rewrite Hv. unfold bind at 1, lift.
  unfold bind at 1. unfold loose_version_ne.
  rewrite (str_truthy_true v Hne), lv_eqb_refl. cbn [andb negb].
  unfold bind at 1.
  destruct (_get_package_template fast h) as [[new_package | e] h'];
    [| reflexivity].
  unfold ret. now rewrite <- !app_assoc.
Qed.

(** Without a recorded version the check raises before it builds the
    template: [KeyError] when the snapshot has no [version] key,
    [AttributeError] when the version is the empty string. *)
Lemma build_check_without_version (fast : bool) (static_data : Pkg.t)
    (h : Handler) :
  (Pkg.version (Pkg.jupyterlab static_data) = None ->
   build_check fast (Some static_data) h = (Raise (KeyError "version"), h)) /\
  (Pkg.version (Pkg.jupyterlab static_data) = Some "" ->
   build_check fast (Some static_data) h =
   (Raise (AttributeError "version"), h)).
Proof.
  unfold build_check, loose_version_ne, bind at 1, get_info.
  split; intros ->; reflexivity.
Qed.

Lemma build_check_ok_records_version (fast : bool) (static_data : Pkg.t)
    (h h' : Handler) (messages : list string) :
  build_check fast (Some static_data) h = (Ok messages, h') ->
  records_version static_data.
Proof.
  intros Hrun.
  destruct (build_check_without_version fast static_data h) as [Hn He].
  destruct (Pkg.version (Pkg.jupyterlab static_data)) as [v |] eqn:Hv.
  - exists v. split; [exact Hv |]. intros ->.
    rewrite (He eq_refl) in Hrun. discriminate.
  - rewrite (Hn eq_refl) in Hrun. discriminate.
Qed.
End AppHandlerFacts.

(** ** The build check *)

(** C2: a snapshot built by version 0.1.0, checked against a core template
    of version 0.2.0, yields no message at all: [core_version] is read from
    the snapshot ([old_jlab['version']]) like [static_version], so the two
    never differ and the check goes on to diff the snapshot. *)
Theorem build_check_version_skew_unreported :
  Pkg.version (Pkg.jupyterlab Scenario.static_old_version) = Some "0.1.0" /\
  Pkg.version (Pkg.jupyterlab (core_data (info Scenario.handler_bare)))
  = Some "0.2.0" /\
  fst (@build_check SpecSemver.impl SampleEnv.impl false
         (Some Scenario.static_old_version) Scenario.handler_bare) = Ok [].
Proof. repeat split; reflexivity. Qed.

Section BuildCheckFacts.
Context {semver_module : SemverModule} {environment : Environment}.

Lemma filter_none {A} (f : A -> bool) (l : list A) :
  (forall x, In x l -> f x = false) -> filter f l = [].
Proof.
  induction l as [| x l IH]; simpl; intros H; [reflexivity |].
  rewrite (H x) by now left. apply IH. intros y Hy. apply H. now right.
Qed.

Lemma flat_map_none {A B} (f : A -> list B) (l : list A) :
  (forall x, In x l -> f x = []) -> flat_map f l = [].
Proof.
  induction l as [| x l IH]; simpl; intros H; [reflexivity |].
  rewrite (H x) by now left. simpl. apply IH. intros y Hy. apply H.
  now right.
Qed.

Lemma dict_mem_perm {V} (k : string) (d : Dict.t V) (l : list string) :
  Permutation (Dict.keys d) l -> (Dict.mem k d = true <-> In k l).
Proof.
  intros Hp. rewrite dict_mem_keys. split; apply Permutation_in;
    [exact Hp | now apply Permutation_sym].
Qed.

(** One name gone, one name new: the new one is reported first. *)
Lemma ext_messages_swap (old_jlab new_jlab : Pkg.jlab) (ty : ext_type)
    (A B C : string) :
  A <> B -> A <> C -> B <> C ->
  Permutation (Dict.keys (Pkg.field ty old_jlab)) [A; B] ->
  Permutation (Dict.keys (Pkg.field ty new_jlab)) [A; C] ->
  ext_messages old_jlab new_jlab ty =
  [C ++ " needs to be included"; B ++ " needs to be removed"].
Proof.
  intros AB AC BC Hold Hnew. unfold ext_messages.
  assert (HA_old : Dict.mem A (Pkg.field ty old_jlab) = true)
    by (apply (dict_mem_perm _ _ _ Hold); simpl; auto).
  assert (HC_old : Dict.mem C (Pkg.field ty old_jlab) = false).
  { apply not_true_is_false. intros H.
    apply (dict_mem_perm _ _ _ Hold) in H. simpl in H.
    destruct H as [H | [H | []]]; congruence. }
  assert (HA_new : Dict.mem A (Pkg.field ty new_jlab) = true)
    by (apply (dict_mem_perm _ _ _ Hnew); simpl; auto).
  assert (HB_new : Dict.mem B (Pkg.field ty new_jlab) = false).
  { apply not_true_is_false. intros H.
    apply (dict_mem_perm _ _ _ Hnew) in H. simpl in H.
    destruct H as [H | [H | []]]; congruence. }
  apply Permutation_sym, Permutation_length_2_inv in Hold, Hnew.
  destruct Hold as [-> | ->], Hnew as [-> | ->]; simpl;
    rewrite HA_old, HC_old, HA_new, HB_new; reflexivity.
Qed.

(** Same names on both sides: nothing to report. *)
Lemma ext_messages_same (old_jlab new_jlab : Pkg.jlab) (ty : ext_type) :
  (forall k, Dict.mem k (Pkg.field ty old_jlab) =
             Dict.mem k (Pkg.field ty new_jlab)) ->
  ext_messages old_jlab new_jlab ty = [].
Proof.
  intros Hsame. unfold ext_messages.
  rewrite !filter_none; [reflexivity | |].
  - intros k Hk. apply negb_false_iff. rewrite <- Hsame.
    now apply dict_mem_keys.
  - intros k Hk. apply negb_false_iff. rewrite Hsame.
    now apply dict_mem_keys.
Qed.

Lemma dep_messages_unchanged (old_deps new_deps local : Dict.t string)
    (linked : Dict.t Linked.t) :
  (forall pkg old dep,
      Dict.get pkg old_deps = Some old -> In (pkg, dep) new_deps ->
      old = dep) ->
  dep_messages old_deps new_deps local linked = [].
Proof.
  intros Hsame. unfold dep_messages. apply flat_map_none.
  intros [pkg dep] Hin.
  destruct (Dict.get pkg old_deps) as [old |] eqn:Hg; [| reflexivity].
  destruct (Dict.mem pkg local || Dict.mem pkg linked); [reflexivity |].
  rewrite (Hsame pkg old dep Hg Hin), String.eqb_refl. reflexivity.
Qed.

Lemma content_messages_none (fast : bool) (local : Dict.t string)
    (linked : Dict.t Linked.t) :
  fast = true \/
  (forall name source dname, _check_local name source dname = false) ->
  local_messages fast local = [] /\ linked_messages fast linked = [].
Proof.
  intros H. unfold local_messages, linked_messages.
  split; apply flat_map_none; intros [name x] _;
    destruct H as [-> | H]; try reflexivity;
    destruct fast; try reflexivity; now rewrite H.
Qed.
End BuildCheckFacts.

(** C3 as stated fails: with the snapshot's extensions [A] and [B] and the
    current ones [A] and [C], the check reports the addition first. *)
Lemma build_check_not_removed_first :
  fst (@build_check SpecSemver.impl SampleEnv.impl true
         (Some Scenario.static_AB) Scenario.handler_AC)
  <> Ok ["B needs to be removed"; "C needs to be included"].
Proof. vm_compute. discriminate. Qed.

(** C3, amended: when the snapshot records a version (not the empty
    one), its extensions are [A] and [B], the template built now has [A]
    and [C], and nothing else differs (same mimeExtensions, no dependency
    pin changed, no content check failing), [build_check] returns exactly
    ["C needs to be included"] followed by ["B needs to be removed"]. *)
Theorem build_check_added_then_removed :
  forall (semver_module : SemverModule) (environment : Environment)
         (fast : bool) (static_data new_package : Pkg.t) (h h' : Handler)
         (A B C : string),
    A <> B -> A <> C -> B <> C ->
    records_version static_data ->
    _get_package_template fast h = (Ok new_package, h') ->
    Permutation
      (Dict.keys (Pkg.extensions (Pkg.jupyterlab static_data))) [A; B] ->
    Permutation
      (Dict.keys (Pkg.extensions (Pkg.jupyterlab new_package))) [A; C] ->
    (forall k,
        Dict.mem k (Pkg.mimeExtensions (Pkg.jupyterlab static_data)) =
        Dict.mem k (Pkg.mimeExtensions (Pkg.jupyterlab new_package))) ->
    (forall pkg old dep,
        Dict.get pkg (Pkg.dependencies static_data) = Some old ->
        In (pkg, dep) (Pkg.dependencies new_package) -> old = dep) ->
    (fast = true \/
     forall name source dname, _check_local name source dname = false) ->
    build_check fast (Some static_data) h =
    (Ok [C ++ " needs to be included"; B ++ " needs to be removed"], h').
Proof.
  intros S E fast static_data new_package h h' A B C AB AC BC Hver Htpl Hold
    Hnew Hmime Hdeps Hcontent.
  rewrite (build_check_with_snapshot fast static_data h Hver), Htpl.
  unfold check_messages. simpl.
  rewrite (ext_messages_swap _ _ Extension A B C AB AC BC Hold Hnew).
  rewrite (ext_messages_same _ _ MimeExtension Hmime).
  rewrite (dep_messages_unchanged _ _ _ _ Hdeps).
  destruct (content_messages_none fast (local_extensions (info h))
              (linked_packages (info h)) Hcontent) as [-> ->].
  reflexivity.
Qed.

Lemma build_check_added_then_removed_witness :
  fst (@build_check SpecSemver.impl SampleEnv.impl true
         (Some Scenario.static_AB) Scenario.handler_AC) =
  Ok ["C needs to be included"; "B needs to be removed"].
Proof.
  rewrite (build_check_added_then_removed SpecSemver.impl SampleEnv.impl true
             Scenario.static_AB
             (fst (Scenario.template_AC)) Scenario.handler_AC
             (snd (Scenario.template_AC)) "A" "B" "C").
  - reflexivity.
  - discriminate.
  - discriminate.
  - discriminate.
  - exists "0.2.0". split; [reflexivity | discriminate].
  - reflexivity.
  - apply Permutation_refl.
  - apply Permutation_refl.
  - intros k. reflexivity.
  - simpl. intros pkg old dep Hg [Hin | [Hin | [Hin | []]]];
      inversion Hin; subst; simpl in Hg; congruence.
  - left. reflexivity.
Defined.

(** ** The package template *)

(** C9 as stated fails: building the template for a handler whose core
    extension [core-ext] is uninstalled removes it from the cached
    [core_data], and a second build on the same handler then raises
    [KeyError] where the first one returned. *)
Lemma get_package_template_changes_core_data :
  let first :=
    @_get_package_template SpecSemver.impl SampleEnv.impl true
      Scenario.handler_uninstalled in
  (exists data, fst first = Ok data) /\
  core_data (info (snd first)) <> core_data (info Scenario.handler_uninstalled)
  /\
  fst (@_get_package_template SpecSemver.impl SampleEnv.impl true (snd first))
  = Raise (KeyError "core-ext").
Proof.
  split; [| split].
  - eexists. vm_compute. reflexivity.
  - vm_compute. discriminate.
  - vm_compute. reflexivity.
Qed.

(** C9, amended: [_get_package_template] leaves the handler's extensions,
    local extensions, linked packages and uninstalled core extensions as
    they were, and works on the cached [core_data] in place: when it
    returns, the cached [core_data] is the template it returned. *)
Theorem get_package_template_updates_core_data_in_place :
  forall (semver_module : SemverModule) (environment : Environment)
         (silent : bool) (h : Handler),
    let h' := snd (_get_package_template silent h) in
    extensions (info h') = extensions (info h) /\
    local_extensions (info h') = local_extensions (info h) /\
    linked_packages (info h') = linked_packages (info h) /\
    uninstalled_core (info h') = uninstalled_core (info h) /\
    forall data,
      fst (_get_package_template silent h) = Ok data ->
      core_data (info h') = data.
Proof.
  intros S E silent h h'.
  destruct (keeps_get_package_template silent h) as [H1 [H2 [H3 H4]]].
  repeat split; trivial.
  apply yields_get_package_template.
Qed.

Lemma get_package_template_updates_core_data_in_place_witness :
  core_data
    (info (snd (@_get_package_template SpecSemver.impl SampleEnv.impl true
                  Scenario.handler_AC))) =
  {| Pkg.dependencies :=
       [("foo", "^2.0.0"); ("A", "file:/ext/A.tgz"); ("C", "file:/ext/C.tgz")];
     Pkg.jupyterlab :=
       Scenario.jlab_of "0.2.0" [("A", ""); ("C", "")] ["foo"] |}.
Proof.
  apply (get_package_template_updates_core_data_in_place SpecSemver.impl
           SampleEnv.impl true Scenario.handler_AC).
  reflexivity.
Defined.

(** * Further properties *)

(** ** What the overlap test computes *)

Section OverlapSemantics.
Context {semver_module : SemverModule}.

Lemma test_overlap_handled (spec1 spec2 : string) :
  handled spec1 -> handled spec2 ->
  _test_overlap spec1 spec2 =
  let x1 := low_version spec1 in
  let x2 := high_version spec1 in
  let y1 := low_version spec2 in
  let y2 := high_version spec2 in
  let lx :=
    if pinned spec1 && startswith (low_operator spec1) ">" then noop
    else if pinned spec1 then lte else lt in
  let ly :=
    if pinned spec2 && startswith (low_operator spec2) ">" then noop
    else if pinned spec2 then lte else lt in
  let gx := if pinned spec1 then gte else gt in
  Some (gte x1 y1 true && ly x1 y2 true || gx x2 y1 true && ly x2 y2 true ||
        gte y1 x1 true && lx y1 x2 true || gx y2 x1 true && lx y2 x2 true).
Proof.
  intros [E1 L1] [E2 L2].
  unfold _test_overlap, empty_spec, low_operator, pinned, low_version,
    high_version in *.
  rewrite E1, E2, L1, L2. reflexivity.
Qed.

Lemma single_comparator_high (spec : string) :
  single_comparator spec -> high_version spec = low_version spec.
Proof.
  unfold single_comparator, high_version, low_version, ne_last.
  intros ->. reflexivity.
Qed.
End OverlapSemantics.

Ltac order_cases :=
  repeat match goal with
         | |- context [lt ?a ?b true] =>
             let E := fresh "E" in destruct (lt a b true) eqn:E
         end;
  simpl; try reflexivity; exfalso;
  repeat match goal with
         | H : ?x = ?x -> _ |- _ => specialize (H eq_refl)
         | H : true = false |- _ => discriminate H
         | H : false = true |- _ => discriminate H
         | H : _ \/ _ |- _ => destruct H
         end.

(** X1: for two proper ranges, each read as the half-open interval from
    its low bound to its high bound, the overlap test answers true exactly
    when the intervals meet, that is when each low bound is below the other
    range's high bound. *)
Theorem test_overlap_ranges_meet :
  forall (semver_module : SemverModule) (spec1 spec2 : string),
    let x1 := low_version spec1 in
    let x2 := high_version spec1 in
    let y1 := low_version spec2 in
    let y2 := high_version spec2 in
    handled spec1 -> handled spec2 ->
    pinned spec1 = false -> pinned spec2 = false ->
    linear_on [x1; x2; y1; y2] ->
    lt x1 x2 true = true -> lt y1 y2 true = true ->
    _test_overlap spec1 spec2 = Some (lt x1 y2 true && lt y1 x2 true).
Proof.
  intros S spec1 spec2 x1 x2 y1 y2 H1 H2 P1 P2 [Hc [Hi [Ht Hn]]] Lx Ly.
  rewrite (test_overlap_handled spec1 spec2 H1 H2). rewrite P1, P2. simpl.
  fold x1 x2 y1 y2.
  assert (I1 : In x1 [x1; x2; y1; y2]) by (simpl; auto).
  assert (I2 : In x2 [x1; x2; y1; y2]) by (simpl; auto).
  assert (I3 : In y1 [x1; x2; y1; y2]) by (simpl; auto).
  assert (I4 : In y2 [x1; x2; y1; y2]) by (simpl; auto 6).
  destruct (Hc x1 y1 I1 I3) as [-> _]. destruct (Hc y1 x1 I3 I1) as [-> _].
  destruct (Hc x2 y1 I2 I3) as [_ [-> _]].
  destruct (Hc y2 x1 I4 I1) as [_ [-> _]].
  pose proof (Hn x1 y1 x2 I1 I3 I2) as N1.
  pose proof (Hn y1 x1 y2 I3 I1 I4) as N2.
  pose proof (Ht x1 x2 y2 I1 I2 I4) as T1.
  pose proof (Ht y1 y2 x2 I3 I4 I2) as T2.
  pose proof (Ht x1 y1 x1 I1 I3 I1) as A1.
  rewrite (Hi x1 I1) in A1.
  rewrite Lx in *. rewrite Ly in *.
  f_equal. order_cases.
Qed.

Ltac in_cases :=
  repeat match goal with
         | H : In _ (_ :: _) |- _ => destruct H as [<- | H]
         | H : In _ [] |- _ => destruct H
         end.

Ltac linear_on_by_computation :=
  repeat split; intros; in_cases; vm_compute; intros;
  first [ reflexivity | discriminate | left; reflexivity | right; reflexivity ].

Lemma test_overlap_ranges_meet_witness :
  @_test_overlap SpecSemver.impl "^1.0.0" "^1.2.0" = Some true /\
  @_test_overlap SpecSemver.impl "^1.0.0" "^2.0.0" = Some false.
Proof.
  split.
  - rewrite (test_overlap_ranges_meet SpecSemver.impl "^1.0.0" "^1.2.0");
      try reflexivity; try (split; reflexivity).
    linear_on_by_computation.
  - rewrite (test_overlap_ranges_meet SpecSemver.impl "^1.0.0" "^2.0.0");
      try reflexivity; try (split; reflexivity).
    linear_on_by_computation.
Defined.

(** X2: for two exact pins (one comparator each, not a [>] comparator),
    the overlap test answers true exactly when neither version is below
    the other. *)
Theorem test_overlap_pins_equal :
  forall (semver_module : SemverModule) (spec1 spec2 : string),
    let x := low_version spec1 in
    let y := low_version spec2 in
    handled spec1 -> handled spec2 ->
    single_comparator spec1 -> single_comparator spec2 ->
    pinned spec1 = true -> pinned spec2 = true ->
    startswith (low_operator spec1) ">" = false ->
    startswith (low_operator spec2) ">" = false ->
    linear_on [x; y] ->
    _test_overlap spec1 spec2 =
    Some (negb (lt x y true) && negb (lt y x true)).
Proof.
  intros S spec1 spec2 x y H1 H2 S1 S2 P1 P2 G1 G2 [Hc _].
  rewrite (test_overlap_handled spec1 spec2 H1 H2).
  rewrite P1, P2, G1, G2, (single_comparator_high _ S1),
    (single_comparator_high _ S2). simpl. fold x y.
  assert (I1 : In x [x; y]) by (simpl; auto).
  assert (I2 : In y [x; y]) by (simpl; auto).
  destruct (Hc x y I1 I2) as [-> [_ ->]].
  destruct (Hc y x I2 I1) as [-> [_ ->]].
  f_equal. destruct (lt x y true), (lt y x true); reflexivity.
Qed.

Lemma test_overlap_pins_equal_witness :
  @_test_overlap SpecSemver.impl "1.2.3" "1.2.3" = Some true /\
  @_test_overlap SpecSemver.impl "1.2.3" "1.2.4" = Some false.
Proof.
  split.
  - rewrite (test_overlap_pins_equal SpecSemver.impl "1.2.3" "1.2.3");
      try reflexivity; try (split; reflexivity).
    linear_on_by_computation.
  - rewrite (test_overlap_pins_equal SpecSemver.impl "1.2.3" "1.2.4");
      try reflexivity; try (split; reflexivity).
    linear_on_by_computation.
Defined.

(** X3: with a proper range first and an exact pin second, the overlap
    test answers true exactly when the pinned version is at least the low
    bound and below the high bound of the range. *)
Theorem test_overlap_range_then_pin :
  forall (semver_module : SemverModule) (spec1 spec2 : string),
    let x1 := low_version spec1 in
    let x2 := high_version spec1 in
    let y := low_version spec2 in
    handled spec1 -> handled spec2 ->
    pinned spec1 = false ->
    single_comparator spec2 -> pinned spec2 = true ->
    startswith (low_operator spec2) ">" = false ->
    linear_on [x1; x2; y] ->
    lt x1 x2 true = true ->
    _test_overlap spec1 spec2 = Some (negb (lt y x1 true) && lt y x2 true).
Proof.
  intros S spec1 spec2 x1 x2 y H1 H2 P1 S2 P2 G2 [Hc [Hi [Ht Hn]]] Lx.
  rewrite (test_overlap_handled spec1 spec2 H1 H2).
  rewrite P1, P2, G2, (single_comparator_high _ S2). simpl. fold x1 x2 y.
  assert (I1 : In x1 [x1; x2; y]) by (simpl; auto).
  assert (I2 : In x2 [x1; x2; y]) by (simpl; auto).
  assert (I3 : In y [x1; x2; y]) by (simpl; auto).
  destruct (Hc x1 y I1 I3) as [-> [_ ->]].
  destruct (Hc x2 y I2 I3) as [_ [-> ->]].
  destruct (Hc y x1 I3 I1) as [-> [-> _]].
  pose proof (Hn x1 y x2 I1 I3 I2) as N1.
  pose proof (Ht x1 y x1 I1 I3 I1) as A1.
  rewrite (Hi x1 I1) in A1.
  rewrite Lx in *.
  f_equal. order_cases.
Qed.

Lemma test_overlap_range_then_pin_witness :
  @_test_overlap SpecSemver.impl "^1.0.0" "1.0.0" = Some true /\
  @_test_overlap SpecSemver.impl "^1.0.0" "2.0.0" = Some false.
Proof.
  split.
  - rewrite (test_overlap_range_then_pin SpecSemver.impl "^1.0.0" "1.0.0");
      try reflexivity; try (split; reflexivity).
    linear_on_by_computation.
  - rewrite (test_overlap_range_then_pin SpecSemver.impl "^1.0.0" "2.0.0");
      try reflexivity; try (split; reflexivity).
    linear_on_by_computation.
Defined.

(** The other direction: with the exact pin first and the proper range
    second, the overlap test answers true exactly when the pinned version
    is at least the low bound and at most the high bound of the range.
    The high bound, excluded when the range comes first, is included when
    the pin comes first. *)
Lemma test_overlap_pin_then_range {semver_module : SemverModule}
    (spec1 spec2 : string) :
  let y := low_version spec1 in
  let x1 := low_version spec2 in
  let x2 := high_version spec2 in
  handled spec1 -> handled spec2 ->
  single_comparator spec1 -> pinned spec1 = true ->
  startswith (low_operator spec1) ">" = false ->
  pinned spec2 = false ->
  linear_on [x1; x2; y] ->
  lt x1 x2 true = true ->
  _test_overlap spec1 spec2 =
  Some (negb (lt y x1 true) && negb (lt x2 y true)).
Proof.
  intros y x1 x2 H1 H2 S1 P1 G1 P2 [Hc [Hi [Ht Hn]]] Lx.
  rewrite (test_overlap_handled spec1 spec2 H1 H2).
  rewrite P1, P2, G1, (single_comparator_high _ S1). simpl. fold x1 x2 y.
  assert (I1 : In x1 [x1; x2; y]) by (simpl; auto).
  assert (I2 : In x2 [x1; x2; y]) by (simpl; auto).
  assert (I3 : In y [x1; x2; y]) by (simpl; auto).
  destruct (Hc y x1 I3 I1) as [-> _].
  destruct (Hc x1 y I1 I3) as [-> [_ ->]].
  destruct (Hc x2 y I2 I3) as [-> [_ ->]].
  pose proof (Hn x1 y x2 I1 I3 I2) as N1.
  pose proof (Ht y x1 x2 I3 I1 I2) as T1.
  pose proof (Ht x1 x2 y I1 I2 I3) as T2.
  pose proof (Ht y x1 y I3 I1 I3) as A1.
  pose proof (Ht y x2 y I3 I2 I3) as A2.
  rewrite (Hi y I3) in A1, A2.
  rewrite Lx in *.
  f_equal. order_cases.
Qed.

(** X4: a single comparator starting with [>] is a lower bound, strict or
    not: against an exact pin, on either side, the overlap test answers
    true exactly when the pinned version is not below the bound. *)
Theorem test_overlap_lower_bound_and_pin :
  forall (semver_module : SemverModule) (bound pin : string),
    let v := low_version bound in
    let w := low_version pin in
    handled bound -> handled pin ->
    single_comparator bound -> single_comparator pin ->
    pinned bound = true -> pinned pin = true ->
    startswith (low_operator bound) ">" = true ->
    startswith (low_operator pin) ">" = false ->
    linear_on [v; w] ->
    _test_overlap bound pin = Some (negb (lt w v true)) /\
    _test_overlap pin bound = Some (negb (lt w v true)).
Proof.
  intros S bound pin v w H1 H2 S1 S2 P1 P2 G1 G2 [Hc _].
  assert (I1 : In v [v; w]) by (simpl; auto).
  assert (I2 : In w [v; w]) by (simpl; auto).
  assert (Hb : _test_overlap bound pin = Some (negb (lt w v true))).
  { rewrite (test_overlap_handled bound pin H1 H2).
    rewrite P1, P2, G1, G2, (single_comparator_high _ S1),
      (single_comparator_high _ S2). simpl. fold v w.
    destruct (Hc v w I1 I2) as [-> [_ ->]].
    destruct (Hc w v I2 I1) as [-> _].
    unfold noop. f_equal.
    destruct (lt v w true), (lt w v true); reflexivity. }
  split; [exact Hb |].
  rewrite <- Hb. apply test_overlap_sym_same_shape. congruence.
Qed.

Lemma test_overlap_lower_bound_and_pin_witness :
  (@_test_overlap SpecSemver.impl ">1.0.0" "1.0.0" = Some true /\
   @_test_overlap SpecSemver.impl "1.0.0" ">1.0.0" = Some true) /\
  (@_test_overlap SpecSemver.impl ">=1.0.0" "0.9.9" = Some false /\
   @_test_overlap SpecSemver.impl "0.9.9" ">=1.0.0" = Some false).
Proof.
  split.
  - apply (test_overlap_lower_bound_and_pin SpecSemver.impl ">1.0.0" "1.0.0");
      try reflexivity; try (split; reflexivity).
    linear_on_by_computation.
  - apply (test_overlap_lower_bound_and_pin SpecSemver.impl
             ">=1.0.0" "0.9.9");
      try reflexivity; try (split; reflexivity).
    linear_on_by_computation.
Defined.

(** X5: swapping the two specs does not change the answer of the overlap
    test when both are exact pins or both are proper ranges. *)
Theorem test_overlap_symmetric_same_shape :
  forall (semver_module : SemverModule) (spec1 spec2 : string),
    pinned spec1 = pinned spec2 ->
    _test_overlap spec1 spec2 = _test_overlap spec2 spec1.
Proof.
  intros S spec1 spec2 Hp. apply test_overlap_sym_same_shape. exact Hp.
Qed.

Lemma test_overlap_symmetric_same_shape_witness :
  @_test_overlap SpecSemver.impl "^1.0.0" "^1.2.0" =
  @_test_overlap SpecSemver.impl "^1.2.0" "^1.0.0".
Proof.
  apply (test_overlap_symmetric_same_shape SpecSemver.impl).
  reflexivity.
Defined.

(** ** Dictionaries *)

Lemma dict_get_set_eq {V} (k : string) (v : V) (d : Dict.t V) :
  Dict.get k (Dict.set k v d) = Some v.
Proof.
  induction d as [| [k' v'] d IH]; simpl.
  - now rewrite String.eqb_refl.
  - destruct (String.eqb k k') eqn:E; simpl; rewrite E; [reflexivity | exact IH].
Qed.

Lemma dict_get_set_neq {V} (k k' : string) (v : V) (d : Dict.t V) :
  k <> k' -> Dict.get k' (Dict.set k v d) = Dict.get k' d.
Proof.
  intros Hne. induction d as [| [k0 v0] d IH]; simpl.
  - destruct (String.eqb k' k) eqn:E; [| reflexivity].
    apply String.eqb_eq in E. congruence.
  - destruct (String.eqb k k0) eqn:E; simpl.
    + apply String.eqb_eq in E. subst k0.
      destruct (String.eqb k' k) eqn:E'; [| reflexivity].
      apply String.eqb_eq in E'. congruence.
    + now rewrite IH.
Qed.

Lemma dict_in_keys_set {V} (k k' : string) (v : V) (d : Dict.t V) :
  In k' (Dict.keys (Dict.set k v d)) <-> k' = k \/ In k' (Dict.keys d).
Proof.
  unfold Dict.keys. induction d as [| [k0 v0] d IH]; simpl.
  - intuition.
  - destruct (String.eqb k k0) eqn:E; simpl.
    + apply String.eqb_eq in E. subst k0. intuition.
    + rewrite IH. intuition.
Qed.

Lemma dict_keys_set_fresh {V} (k : string) (v : V) (d : Dict.t V) :
  ~ In k (Dict.keys d) -> Dict.keys (Dict.set k v d) = (Dict.keys d ++ [k])%list.
Proof.
  unfold Dict.keys. induction d as [| [k0 v0] d IH]; simpl; intros Hn.
  - reflexivity.
  - destruct (String.eqb k k0) eqn:E.
    + apply String.eqb_eq in E. subst k0. exfalso. auto.
    + simpl. rewrite IH; [reflexivity | auto].
Qed.

Lemma dict_keys_set_mem {V} (k : string) (v : V) (d : Dict.t V) :
  In k (Dict.keys d) -> Dict.keys (Dict.set k v d) = Dict.keys d.
Proof.
  unfold Dict.keys. induction d as [| [k0 v0] d IH]; simpl; intros Hin.
  - destruct Hin.
  - destruct (String.eqb k k0) eqn:E; simpl; [reflexivity |].
    rewrite IH; [reflexivity |]. destruct Hin as [-> | H]; [| exact H].
    now rewrite String.eqb_refl in E.
Qed.

Lemma dict_nodup_set {V} (k : string) (v : V) (d : Dict.t V) :
  NoDup (Dict.keys d) -> NoDup (Dict.keys (Dict.set k v d)).
Proof.
  intros Hn. destruct (in_dec string_dec k (Dict.keys d)) as [Hin | Hnin].
  - now rewrite dict_keys_set_mem.
  - rewrite dict_keys_set_fresh by exact Hnin.
    apply NoDup_app; [exact Hn | constructor; [intros [] | constructor] |].
    intros x Hx [<- | []]. contradiction.
Qed.

Lemma dict_in_keys_remove {V} (k k' : string) (d : Dict.t V) :
  In k' (Dict.keys (Dict.remove k d)) -> In k' (Dict.keys d).
Proof.
  unfold Dict.keys. induction d as [| [k0 v0] d IH]; simpl; [auto |].
  destruct (String.eqb k k0); simpl; intuition.
Qed.

Lemma dict_nodup_remove {V} (k : string) (d : Dict.t V) :
  NoDup (Dict.keys d) -> NoDup (Dict.keys (Dict.remove k d)).
Proof.
  unfold Dict.keys. induction d as [| [k0 v0] d IH]; simpl; intros Hn.
  - constructor.
  - inversion Hn; subst. destruct (String.eqb k k0); simpl; [assumption |].
    constructor; [| auto]. intros Hin. apply H1.
    exact (dict_in_keys_remove k k0 d Hin).
Qed.

Lemma dict_not_in_keys_remove {V} (k : string) (d : Dict.t V) :
  NoDup (Dict.keys d) -> ~ In k (Dict.keys (Dict.remove k d)).
Proof.
  unfold Dict.keys. induction d as [| [k0 v0] d IH]; simpl; intros Hn.
  - auto.
  - inversion Hn; subst. destruct (String.eqb k k0) eqn:E; simpl.
    + apply String.eqb_eq in E. now subst k0.
    + intros [-> | Hin]; [now rewrite String.eqb_refl in E | now apply IH].
Qed.

Lemma dict_get_in {V} (k : string) (v : V) (d : Dict.t V) :
  Dict.get k d = Some v -> In (k, v) d.
Proof.
  induction d as [| [k0 v0] d IH]; simpl; [discriminate |].
  destruct (String.eqb k k0) eqn:E.
  - apply String.eqb_eq in E. subst k0. intros [= ->]. now left.
  - intros H. right. now apply IH.
Qed.

Lemma dict_in_get {V} (k : string) (v : V) (d : Dict.t V) :
  NoDup (Dict.keys d) -> In (k, v) d -> Dict.get k d = Some v.
Proof.
  unfold Dict.keys. induction d as [| [k0 v0] d IH]; simpl; intros Hn Hin.
  - destruct Hin.
  - inversion Hn; subst. destruct Hin as [[= -> ->] | Hin].
    + now rewrite String.eqb_refl.
    + destruct (String.eqb k k0) eqn:E; [| now apply IH].
      apply String.eqb_eq in E. subst k0. exfalso. apply H1.
      change k with (fst (k, v)). now apply in_map.
Qed.

Lemma dict_in_keys {V} (k : string) (v : V) (d : Dict.t V) :
  In (k, v) d -> In k (Dict.keys d).
Proof. intros H. change k with (fst (k, v)). now apply in_map. Qed.

Lemma dict_mem_false {V} (k : string) (d : Dict.t V) :
  Dict.mem k d = false <-> ~ In k (Dict.keys d).
Proof.
  rewrite <- dict_mem_keys. destruct (Dict.mem k d); split; congruence.
Qed.

(** ** More on the compatibility check *)

(** X6: an extension none of whose dependencies is a singleton package is
    compatible, whatever the core template pins. *)
Theorem validate_compatibility_no_singleton :
  forall (semver_module : SemverModule) (extension : string)
         (deps : Dict.t string) (core : Pkg.t),
    (forall key, In key (Dict.keys deps) ->
                 ~ In key (Pkg.singletonPackages (Pkg.jupyterlab core))) ->
    _validate_compatibility extension deps core = Ok [].
Proof.
  intros S extension deps core Hns.
  rewrite validate_compatibility_total.
  - f_equal. unfold conflicts_of. apply flat_map_none.
    intros [key value] Hin.
    destruct (str_in key _) eqn:E; [| reflexivity].
    apply str_in_In in E. exfalso.
    exact (Hns key (dict_in_keys key value deps Hin) E).
  - intros key Hk Hs. exfalso. exact (Hns key Hk Hs).
Qed.

Lemma validate_compatibility_no_singleton_witness :
  @_validate_compatibility SpecSemver.impl "E" [("bar", "^9.0.0")]
    Scenario.core_unpinned = Ok [].
Proof.
  apply (validate_compatibility_no_singleton SpecSemver.impl).
  simpl. intros key [<- | []] [H | []]. discriminate H.
Defined.

Section CompatFacts.
Context {semver_module : SemverModule}.

(** What [compat_loop] returns: the given entries, then one entry per
    extension, holding its conflicts. *)
Lemma compat_loop_ok (core : Pkg.t) (items : list (string * Ext.t)) :
  forall acc compat,
    NoDup (Dict.keys items) ->
    (forall k, In k (Dict.keys items) -> ~ In k (Dict.keys acc)) ->
    compat_loop core items acc = Ok compat ->
    Dict.keys compat = (Dict.keys acc ++ Dict.keys items)%list /\
    (forall name data,
        In (name, data) items ->
        exists errors,
          _validate_compatibility name (Ext.dependencies data) core = Ok errors
          /\ Dict.get name compat = Some errors) /\
    (forall k, ~ In k (Dict.keys items) -> Dict.get k compat = Dict.get k acc).
Proof.
  induction items as [| [name data] rest IH]; simpl; intros acc compat Hnd Hfr.
  - intros [= <-]. rewrite app_nil_r.
    split; [reflexivity | split; [intros ? ? [] | reflexivity]].
  - inversion Hnd as [| ? ? Hnin Hnd']; subst.
    destruct (_validate_compatibility name (Ext.dependencies data) core)
      as [errors |] eqn:Hv; [| discriminate].
    intros Hloop. apply IH in Hloop; [| exact Hnd' |].
    + destruct Hloop as [Hk [Hall Hother]].
      assert (Hname : Dict.get name compat = Some errors).
      { rewrite (Hother name Hnin). apply dict_get_set_eq. }
      split; [| split].
      * rewrite Hk, dict_keys_set_fresh by (apply Hfr; now left).
        now rewrite <- app_assoc.
      * intros n d [[= <- <-] | Hin]; [now exists errors | now apply Hall].
      * intros k Hk'. rewrite Hother by tauto.
        apply dict_get_set_neq. intros ->. apply Hk'. now left.
    + intros k Hk Hin. apply dict_in_keys_set in Hin.
      destruct Hin as [-> | Hin]; [contradiction |].
      exact (Hfr k (or_intror Hk) Hin).
Qed.

Lemma compat_loop_raise (core : Pkg.t) (items : list (string * Ext.t)) :
  forall acc e,
    compat_loop core items acc = Raise e ->
    exists name data,
      In (name, data) items /\
      _validate_compatibility name (Ext.dependencies data) core = Raise e.
Proof.
  induction items as [| [name data] rest IH]; simpl; intros acc e;
    [discriminate |].
  destruct (_validate_compatibility name (Ext.dependencies data) core)
    as [errors |] eqn:Hv.
  - intros H. destruct (IH _ _ H) as [n [d [Hin Hr]]]. exists n, d. auto.
  - intros [= <-]. exists name, data. auto.
Qed.
End CompatFacts.

(** X7: [_get_extension_compat] leaves the handler as it is.  When it
    returns, the result has one entry per installed extension, in order,
    holding the conflicts of that extension against the cached core data;
    it raises exactly what the check of some extension raises. *)
Theorem get_extension_compat_entries :
  forall (semver_module : SemverModule) (h : Handler),
    NoDup (Dict.keys (extensions (info h))) ->
    snd (_get_extension_compat h) = h /\
    match fst (_get_extension_compat h) with
    | Ok compat =>
        Dict.keys compat = Dict.keys (extensions (info h)) /\
        forall name data,
          In (name, data) (extensions (info h)) ->
          exists errors,
            _validate_compatibility name (Ext.dependencies data)
              (core_data (info h)) = Ok errors /\
            Dict.get name compat = Some errors
    | Raise e =>
        exists name data,
          In (name, data) (extensions (info h)) /\
          _validate_compatibility name (Ext.dependencies data)
            (core_data (info h)) = Raise e
    end.
Proof.
  intros S h Hnd. unfold _get_extension_compat, bind, get_info, lift. simpl.
  split; [reflexivity |].
  destruct (compat_loop (core_data (info h))
              (Dict.items (extensions (info h))) []) as [compat | e] eqn:Hl.
  - apply compat_loop_ok in Hl; [| exact Hnd | intros k _ []].
    destruct Hl as [Hk [Hall _]]. split; [exact Hk | exact Hall].
  - exact (compat_loop_raise _ _ _ _ Hl).
Qed.

Lemma get_extension_compat_entries_witness :
  snd (@_get_extension_compat SpecSemver.impl Scenario.handler_AC) =
  Scenario.handler_AC /\
  match fst (@_get_extension_compat SpecSemver.impl Scenario.handler_AC) with
  | Ok compat =>
      Dict.keys compat = ["A"; "C"] /\
      forall name data,
        In (name, data) (extensions (info Scenario.handler_AC)) ->
        exists errors,
          @_validate_compatibility SpecSemver.impl name
            (Ext.dependencies data) Scenario.core_foo = Ok errors /\
          Dict.get name compat = Some errors
  | Raise e =>
      exists name data,
        In (name, data) (extensions (info Scenario.handler_AC)) /\
        @_validate_compatibility SpecSemver.impl name
          (Ext.dependencies data) Scenario.core_foo = Raise e
  end.
Proof.
  apply (get_extension_compat_entries SpecSemver.impl Scenario.handler_AC).
  simpl. repeat constructor; simpl; intuition discriminate.
Defined.

(** ** Reasoning about handler methods *)

Lemma preserves_ret {A} (P : Handler -> Prop) (a : A) : preserves P (ret a).
Proof. intros h H. exact H. Qed.

Lemma preserves_lift {A} (P : Handler -> Prop) (r : result A) :
  preserves P (lift r).
Proof. intros h H. exact H. Qed.

Lemma preserves_get_info (P : Handler -> Prop) : preserves P get_info.
Proof. intros h H. exact H. Qed.

Lemma preserves_get_core_data (P : Handler -> Prop) :
  preserves P get_core_data.
Proof. intros h H. exact H. Qed.

Lemma preserves_bind {A B} (P : Handler -> Prop) (m : M A) (f : A -> M B) :
  preserves P m -> (forall a, preserves P (f a)) -> preserves P (bind m f).
Proof.
  intros Hm Hf h H. unfold bind. specialize (Hm h H).
  destruct (m h) as [[a | e] h1]; simpl in *; [now apply Hf | exact Hm].
Qed.

Lemma preserves_for_each {A} (P : Handler -> Prop) (l : list A)
    (body : A -> M unit) :
  (forall x, In x l -> preserves P (body x)) -> preserves P (for_each l body).
Proof.
  induction l as [| x rest IH]; simpl; intros Hb.
  - apply preserves_ret.
  - apply preserves_bind; [apply Hb; now left |].
    intros _. apply IH. intros y Hy. apply Hb. now right.
Qed.

Lemma bind_ok {A B} (m : M A) (f : A -> M B) (h h' : Handler) (b : B) :
  bind m f h = (Ok b, h') ->
  exists a h1, m h = (Ok a, h1) /\ f a h1 = (Ok b, h').
Proof.
  unfold bind. destruct (m h) as [[a | e] h1]; [| discriminate].
  intros H. now exists a, h1.
Qed.

Create HintDb pres_db.
#[local] Hint Resolve preserves_ret preserves_lift preserves_get_info
  preserves_get_core_data : pres_db.

Ltac pres :=
  repeat first
    [ apply preserves_bind; [| intros ? ]
    | apply preserves_for_each; intros ? ?
    | solve [ auto with pres_db ]
    | match goal with
      | |- preserves _ (let '(_, _) := ?p in _) => destruct p
      | |- preserves _ (match ?x with _ => _ end) => destruct x
      | |- preserves _ (if ?b then _ else _) => destruct b
      end ].

Ltac unfold_writes :=
  unfold set_dependency, set_entry, reset_linkedPackages, set_linkedPackage,
    pop_entry, pop_dependency.

(** *** What is logged *)

Lemma preserves_log_put (L : list string) (data : Pkg.t) :
  preserves (fun h => log h = L) (put_core_data data).
Proof. intros h H. exact H. Qed.

#[local] Hint Resolve preserves_log_put : pres_db.

Section TemplateLog.
Context {semver_module : SemverModule} {environment : Environment}.

Lemma get_extension_compat_run (h : Handler) :
  _get_extension_compat h =
  (compat_loop (core_data (info h)) (Dict.items (extensions (info h))) [], h).
Proof. reflexivity. Qed.

(** The body of the loop over the installed extensions, as a method. *)
Lemma template_silent_log (L : list string) :
  preserves (fun h => log h = L) (_get_package_template true).
Proof.
  unfold _get_package_template, _get_extension_compat. unfold_writes.
  simpl negb. cbv iota. pres.
Qed.

Lemma for_each_log {A} (l : list A) (body : A -> M unit)
    (w : A -> list string) :
  (forall x h, In x l ->
     fst (body x h) = Ok tt /\ log (snd (body x h)) = (log h ++ w x)%list) ->
  forall h,
    fst (for_each l body h) = Ok tt /\
    log (snd (for_each l body h)) = (log h ++ flat_map w l)%list.
Proof.
  induction l as [| x rest IH]; simpl; intros Hb h.
  - now rewrite app_nil_r.
  - unfold bind. destruct (Hb x h (or_introl eq_refl)) as [Hf Hl].
    destruct (body x h) as [[[] | e] h1]; simpl in *; [| discriminate].
    destruct (IH (fun y h' Hy => Hb y h' (or_intror Hy)) h1) as [Hf' Hl'].
    split; [exact Hf' |]. now rewrite Hl', Hl, <- app_assoc.
Qed.
End TemplateLog.

(** X8: in silent mode [_get_package_template] logs nothing, whether it
    returns or raises. *)
Theorem get_package_template_silent_logs_nothing :
  forall (semver_module : SemverModule) (environment : Environment)
         (h : Handler),
    log (snd (_get_package_template true h)) = log h.
Proof.
  intros S E h. now apply (template_silent_log (log h)).
Qed.

Section TemplateWarnings.
Context {semver_module : SemverModule} {environment : Environment}.

Lemma compat_loop_returns (core : Pkg.t) (items : list (string * Ext.t))
    (acc : Dict.t (list conflict)) :
  (forall name data,
      In (name, data) items ->
      exists errors,
        _validate_compatibility name (Ext.dependencies data) core = Ok errors)
  -> exists compat, compat_loop core items acc = Ok compat.
Proof.
  intros Hall. destruct (compat_loop core items acc) as [compat | e] eqn:Hl.
  - now exists compat.
  - apply compat_loop_raise in Hl. destruct Hl as [n [d [Hin Hr]]].
    destruct (Hall n d Hin) as [errors He]. congruence.
Qed.

Lemma template_warnings_log (h : Handler) :
  NoDup (Dict.keys (extensions (info h))) ->
  (forall name data,
      In (name, data) (extensions (info h)) ->
      exists errors,
        _validate_compatibility name (Ext.dependencies data)
          (core_data (info h)) = Ok errors) ->
  log (snd (_get_package_template false h)) =
  (log h ++ incompatibility_warnings (info h))%list.
Proof.
  intros Hnd Hall.
  destruct (compat_loop_returns (core_data (info h))
              (Dict.items (extensions (info h))) [] Hall) as [compat Hc].
  pose proof (compat_loop_ok _ _ [] _ Hnd (fun k _ (H : In k []) => H) Hc)
    as [_ [Hget _]].
  unfold _get_package_template.
  unfold bind at 1, get_info at 1. cbv iota beta.
  unfold bind at 1. rewrite get_extension_compat_run, Hc.
  unfold bind at 1.
  match goal with
  | |- context [for_each ?l ?b h] =>
      pose proof (for_each_log l b
        (fun '(key, value) =>
           match
             _validate_compatibility key (Ext.dependencies value)
               (core_data (info h))
           with
           | Ok (e :: es) =>
               [_format_compatibility_errors key (Ext.version value) (e :: es)
                  ++ newline]
           | _ => []
           end)) as Hlog
  end.
  match type of Hlog with
  | ?prem -> _ => assert (Hprem : prem)
  end.
  { intros [key value] h0 Hin.
    destruct (Hget key value Hin) as [errors [Hv Hg]].
    rewrite Hv. unfold bind at 1 2, lift, Dict.lookup. rewrite Hg.
    destruct errors as [| e es].
    - unfold bind, set_dependency, set_entry, get_core_data, put_core_data,
        ret. simpl.
      destruct (Ext.truthy (Ext.get Extension (Ext.jupyterlab value)));
        destruct (Ext.truthy (Ext.get MimeExtension (Ext.jupyterlab value)));
        simpl; rewrite app_nil_r; split; reflexivity.
    - simpl. split; reflexivity. }
  destruct (Hlog Hprem h) as [Hf Hl].
  clear Hlog.
  match type of Hf with
  | fst ?r = _ => destruct r as [[[] | e] h1]
  end; simpl in Hf, Hl; [| discriminate].
  transitivity (log h1); [| exact Hl].
  match goal with
  | |- log (snd (?m h1)) = _ =>
      assert (Hrest : preserves (fun h' => log h' = log h1) m)
        by (unfold_writes; pres)
  end.
  now apply Hrest.
Qed.
End TemplateWarnings.

(** X9: when the compatibility of every installed extension can be
    computed, [_get_package_template(silent=False)] logs exactly one
    warning per extension with conflicts, in the order of the installed
    extensions, and nothing else. *)
Theorem get_package_template_warns_per_conflict :
  forall (semver_module : SemverModule) (environment : Environment)
         (h : Handler),
    NoDup (Dict.keys (extensions (info h))) ->
    (forall name data,
        In (name, data) (extensions (info h)) ->
        exists errors,
          _validate_compatibility name (Ext.dependencies data)
            (core_data (info h)) = Ok errors) ->
    log (snd (_get_package_template false h)) =
    (log h ++ incompatibility_warnings (info h))%list.
Proof. intros S E h. apply template_warnings_log. Qed.

Lemma get_package_template_warns_per_conflict_witness :
  log (snd (@_get_package_template SpecSemver.impl SampleEnv.impl false
              MoreScenarios.handler_conflict)) =
  (log MoreScenarios.handler_conflict ++
   @incompatibility_warnings SpecSemver.impl
     (info MoreScenarios.handler_conflict))%list.
Proof.
  apply (get_package_template_warns_per_conflict SpecSemver.impl
           SampleEnv.impl MoreScenarios.handler_conflict).
  - simpl. repeat constructor; simpl; intuition discriminate.
  - simpl. intros name data [[= <- <-] | [[= <- <-] | []]];
      eexists; reflexivity.
Defined.

(** *** Writes to the cached core data *)

Lemma field_with_field (ty ty' : ext_type) (d : Dict.t string) (j : Pkg.jlab) :
  Pkg.field ty' (Pkg.with_field ty d j) =
  match ty, ty' with
  | Extension, Extension | MimeExtension, MimeExtension => d
  | _, _ => Pkg.field ty' j
  end.
Proof. destruct ty, ty'; reflexivity. Qed.

Section CoreWrites.
Variable Q : Pkg.t -> Prop.

Lemma on_core_set_dependency (key value : string) :
  (forall d, Q d ->
     Q (Pkg.with_dependencies (Dict.set key value (Pkg.dependencies d)) d)) ->
  preserves (on_core Q) (set_dependency key value).
Proof. intros H h Hq. apply H. exact Hq. Qed.

Lemma on_core_set_entry (item : ext_type) (key ext : string) :
  (forall d, Q d ->
     Q (Pkg.with_jupyterlab
          (Pkg.with_field item
             (Dict.set key ext (Pkg.field item (Pkg.jupyterlab d)))
             (Pkg.jupyterlab d)) d)) ->
  preserves (on_core Q) (set_entry item key ext).
Proof. intros H h Hq. apply H. exact Hq. Qed.

Lemma on_core_reset_linkedPackages :
  (forall d, Q d ->
     Q (Pkg.with_jupyterlab
          (Pkg.with_linkedPackages [] (Pkg.jupyterlab d)) d)) ->
  preserves (on_core Q) reset_linkedPackages.
Proof. intros H h Hq. apply H. exact Hq. Qed.

Lemma on_core_set_linkedPackage (key source : string) :
  (forall d, Q d ->
     Q (Pkg.with_jupyterlab
          (Pkg.with_linkedPackages
             (Dict.set key source (Pkg.linkedPackages (Pkg.jupyterlab d)))
             (Pkg.jupyterlab d)) d)) ->
  preserves (on_core Q) (set_linkedPackage key source).
Proof. intros H h Hq. apply H. exact Hq. Qed.

Lemma on_core_pop_entry (item : ext_type) (name : string) :
  (forall d, Q d ->
     Dict.mem name (Pkg.field item (Pkg.jupyterlab d)) = true ->
     Q (Pkg.with_jupyterlab
          (Pkg.with_field item
             (Dict.remove name (Pkg.field item (Pkg.jupyterlab d)))
             (Pkg.jupyterlab d)) d)) ->
  preserves (on_core Q) (pop_entry item name).
Proof.
  intros H h Hq. unfold pop_entry, bind, get_core_data, lift, Dict.pop.
  simpl.
  destruct (Dict.mem name (Pkg.field item (Pkg.jupyterlab (core_data (info h)))))
    eqn:E; simpl; [| exact Hq].
  apply H; assumption.
Qed.

Lemma on_core_pop_dependency (name : string) :
  (forall d, Q d ->
     Dict.mem name (Pkg.dependencies d) = true ->
     Q (Pkg.with_dependencies (Dict.remove name (Pkg.dependencies d)) d)) ->
  preserves (on_core Q) (pop_dependency name).
Proof.
  intros H h Hq. unfold pop_dependency, bind, get_core_data, lift, Dict.pop.
  simpl.
  destruct (Dict.mem name (Pkg.dependencies (core_data (info h)))) eqn:E;
    simpl; [| exact Hq].
  apply H; assumption.
Qed.
End CoreWrites.


(** The part of the template method after the compatibility table is
    built keeps [on_core Q] when each kind of write does. *)
Ltac core_writes :=
  repeat first
    [ apply preserves_bind; [| intros ? ]
    | apply preserves_for_each; intros ? ?
    | solve [ auto with pres_db ]
    | match goal with
      | |- preserves _ (let '(_, _) := ?p in _) => destruct p
      | |- preserves _ (if ?b then _ else _) => destruct b eqn:?
      end ].

Section TemplateOrigins.
Context {semver_module : SemverModule} {environment : Environment}.


End TemplateOrigins.



(** *** Runs that return *)

Lemma hoare_ret {A} (P : Handler -> Prop) (a : A) : hoare P P (ret a).
Proof. intros h a' h' HP [= _ <-]. exact HP. Qed.

Lemma hoare_conseq {A} (P P' Q Q' : Handler -> Prop) (m : M A) :
  (forall h, P' h -> P h) -> (forall h, Q h -> Q' h) ->
  hoare P Q m -> hoare P' Q' m.
Proof. intros HP HQ Hm h a h' H Hr. eapply HQ, Hm; eauto. Qed.

Lemma hoare_bind {A B} (P R Q : Handler -> Prop) (m : M A) (f : A -> M B) :
  hoare P R m -> (forall a, hoare R Q (f a)) -> hoare P Q (bind m f).
Proof.
  intros Hm Hf h b h' HP Hr. apply bind_ok in Hr.
  destruct Hr as [a [h1 [H1 H2]]].
  exact (Hf a h1 b h' (Hm h a h1 HP H1) H2).
Qed.

Lemma hoare_of_preserves {A} (P : Handler -> Prop) (m : M A) :
  preserves P m -> hoare P P m.
Proof. intros Hp h a h' HP Hr. specialize (Hp h HP). now rewrite Hr in Hp. Qed.

Lemma hoare_for_each_fold {A S} (I : S -> Handler -> Prop) (step : S -> A -> S)
    (l : list A) (body : A -> M unit) :
  (forall x acc, In x l -> hoare (I acc) (I (step acc x)) (body x)) ->
  forall acc, hoare (I acc) (I (fold_left step l acc)) (for_each l body).
Proof.
  induction l as [| x rest IH]; simpl; intros Hb acc.
  - apply hoare_ret.
  - eapply hoare_bind; [apply Hb; now left |].
    intros _. apply IH. intros y acc' Hy. apply Hb. now right.
Qed.

Lemma hoare_for_each_collect_from {A} (I : Handler -> Prop)
    (R : A -> Handler -> Prop) (l : list A) (body : A -> M unit) :
  (forall x, In x l -> hoare I (fun h => I h /\ R x h) (body x)) ->
  (forall x y, In y l -> hoare (fun h => I h /\ R x h) (R x) (body y)) ->
  forall D : A -> Prop,
    hoare (fun h => I h /\ forall x, D x -> R x h)
      (fun h => I h /\ (forall x, D x -> R x h) /\
                forall x, In x l -> R x h)
      (for_each l body).
Proof.
  induction l as [| y rest IH]; simpl; intros Hb Hs D.
  - intros h a h' [HI HD] [= _ <-]. repeat split; [exact HI | exact HD |].
    intros ? [].
  - intros h a h' [HI HD] Hr. apply bind_ok in Hr.
    destruct Hr as [[] [h1 [H1 H2]]].
    destruct (Hb y (or_introl eq_refl) h tt h1 HI H1) as [HI1 HR1].
    assert (HD1 : forall x, D x \/ x = y -> R x h1).
    { intros x [Hx | ->]; [| exact HR1].
      exact (Hs x y (or_introl eq_refl) h tt h1 (conj HI (HD x Hx)) H1). }
    destruct (IH (fun x Hx => Hb x (or_intror Hx))
                 (fun x z Hz => Hs x z (or_intror Hz))
                 (fun x => D x \/ x = y) h1 a h' (conj HI1 HD1) H2)
      as [HI' [HD' HR']].
    repeat split; [exact HI' | intros x Hx; apply HD'; now left |].
    intros x [<- | Hx]; [apply HD'; now right | now apply HR'].
Qed.

Lemma hoare_for_each_collect {A} (I : Handler -> Prop)
    (R : A -> Handler -> Prop) (l : list A) (body : A -> M unit) :
  (forall x, In x l -> hoare I (fun h => I h /\ R x h) (body x)) ->
  (forall x y, In y l -> hoare (fun h => I h /\ R x h) (R x) (body y)) ->
  hoare I (fun h => I h /\ forall x, In x l -> R x h) (for_each l body).
Proof.
  intros Hb Hs h a h' HI Hr.
  destruct (hoare_for_each_collect_from I R l body Hb Hs (fun _ => False)
              h a h' (conj HI (fun x (F : False) => match F with end)) Hr)
    as [HI' [_ HR']].
  split; assumption.
Qed.

Lemma hoare_true {A} (P : Handler -> Prop) (m : M A) :
  hoare P (fun _ => True) m.
Proof. intros h a h' _ _. exact I. Qed.

Lemma dict_get_fold_set {V W} (g : V -> W) (l : Dict.t V) :
  NoDup (Dict.keys l) ->
  forall (d0 : Dict.t W) (k : string),
    Dict.get k (fold_left (fun d '(key, v) => Dict.set key (g v) d) l d0) =
    match Dict.get k l with
    | Some v => Some (g v)
    | None => Dict.get k d0
    end.
Proof.
  unfold Dict.keys. induction l as [| [k1 v1] rest IH]; simpl; intros Hnd d0 k.
  - reflexivity.
  - inversion Hnd as [| ? ? Hnin Hnd']; subst. rewrite (IH Hnd').
    destruct (String.eqb k k1) eqn:E.
    + apply String.eqb_eq in E. subst k1.
      destruct (Dict.get k rest) as [v |] eqn:Hg.
      * exfalso. apply Hnin. exact (dict_in_keys _ _ _ (dict_get_in _ _ _ Hg)).
      * apply dict_get_set_eq.
    + destruct (Dict.get k rest); [reflexivity |].
      apply dict_get_set_neq. intros ->. now rewrite String.eqb_refl in E.
Qed.

Section TemplateLinked.
Context {semver_module : SemverModule} {environment : Environment}.

Lemma template_linked_sources (silent : bool) (h h' : Handler) (data : Pkg.t) :
  _get_package_template silent h = (Ok data, h') ->
  Pkg.linkedPackages (Pkg.jupyterlab data) = linked_sources (info h).
Proof.
  intros Hrun.
  assert (Hdata : core_data (info h') = data).
  { pose proof (yields_get_package_template silent h data) as Hy.
    rewrite Hrun in Hy. now apply Hy. }
  rewrite <- Hdata. change (linked_of h' = linked_sources (info h)).
  revert Hrun. unfold _get_package_template.
  unfold bind at 1, get_info at 1. cbv iota beta.
  match goal with
  | |- ?m h = _ -> _ =>
      cut (hoare (fun _ => True)
             (fun h0 => linked_of h0 = linked_sources (info h)) m);
        [intros Hh Hr; exact (Hh h data h' I Hr) |]
  end.
  eapply hoare_bind; [apply hoare_true | intros compat].
  eapply hoare_bind; [apply hoare_true | intros _].
  eapply hoare_bind with (R := fun h0 => linked_of h0 = []).
  { intros h0 a h0' _ [= _ <-]. reflexivity. }
  intros _. eapply hoare_bind.
  { apply (hoare_for_each_fold (fun acc h0 => linked_of h0 = acc)
             (fun d '(key, source) => Dict.set key source d)).
    intros [key source] acc _ h0 a h0' HP [= _ <-].
    unfold linked_of in *. simpl. now rewrite HP. }
  intros _. eapply hoare_bind.
  { apply (hoare_for_each_fold (fun acc h0 => linked_of h0 = acc)
             (fun d '(key, item) => Dict.set key (Linked.source item) d)).
    intros [key item] acc _ h0 a h0' HP [= _ <-].
    unfold linked_of in *. simpl. now rewrite HP. }
  intros _. fold (linked_sources (info h)).
  apply hoare_of_preserves.
  change (fun h0 => linked_of h0 = linked_sources (info h))
    with (on_core (fun d => Pkg.linkedPackages (Pkg.jupyterlab d) =
                            linked_sources (info h))).
  apply preserves_bind; [| intros _; apply preserves_get_core_data].
  apply preserves_for_each. intros item _.
  apply preserves_bind; [apply preserves_get_core_data | intros d0].
  apply preserves_bind; [| intros _ ].
  - destruct (Dict.mem item _); apply on_core_pop_entry;
      intros d Hd _; exact Hd.
  - apply on_core_pop_dependency. intros d Hd _. exact Hd.
Qed.
End TemplateLinked.

(** X11: in the template [_get_package_template] returns,
    [linkedPackages] maps each linked package to its source path and each
    local extension that is not also a linked package to its source
    directory, and has no other entry. *)
Theorem get_package_template_linked_packages :
  forall (semver_module : SemverModule) (environment : Environment)
         (silent : bool) (h h' : Handler) (data : Pkg.t),
    NoDup (Dict.keys (local_extensions (info h))) ->
    NoDup (Dict.keys (linked_packages (info h))) ->
    _get_package_template silent h = (Ok data, h') ->
    forall k,
      Dict.get k (Pkg.linkedPackages (Pkg.jupyterlab data)) =
      match Dict.get k (linked_packages (info h)) with
      | Some item => Some (Linked.source item)
      | None => Dict.get k (local_extensions (info h))
      end.
Proof.
  intros S E silent h h' data Hlocal Hlinked Hrun k.
  rewrite (template_linked_sources silent h h' data Hrun).
  unfold linked_sources.
  rewrite (dict_get_fold_set Linked.source _ Hlinked).
  destruct (Dict.get k (linked_packages (info h))); [reflexivity |].
  rewrite (dict_get_fold_set (fun s : string => s) _ Hlocal).
  simpl. destruct (Dict.get k (local_extensions (info h))); reflexivity.
Qed.

Lemma get_package_template_linked_packages_witness :
  Dict.get "lib"
    (Pkg.linkedPackages (Pkg.jupyterlab (fst MoreScenarios.template_linked)))
  = Some "/src/lib"
  /\ Dict.get "A"
       (Pkg.linkedPackages (Pkg.jupyterlab (fst MoreScenarios.template_linked)))
     = Some "/src/A".
Proof.
  assert (Hlocal :
    NoDup (Dict.keys (local_extensions (info MoreScenarios.handler_linked)))).
  { simpl. repeat constructor; simpl; intuition discriminate. }
  assert (Hlinked :
    NoDup (Dict.keys (linked_packages (info MoreScenarios.handler_linked)))).
  { simpl. repeat constructor; simpl; intuition discriminate. }
  split.
  - exact (get_package_template_linked_packages SpecSemver.impl SampleEnv.impl
             true MoreScenarios.handler_linked
             (snd MoreScenarios.template_linked)
             (fst MoreScenarios.template_linked)
             Hlocal Hlinked eq_refl "lib").
  - exact (get_package_template_linked_packages SpecSemver.impl SampleEnv.impl
             true MoreScenarios.handler_linked
             (snd MoreScenarios.template_linked)
             (fst MoreScenarios.template_linked)
             Hlocal Hlinked eq_refl "A").
Defined.

(** *** Invariants of the cached core data *)

Lemma on_core_logger_warn (Q : Pkg.t -> Prop) (msg : string) :
  preserves (on_core Q) (logger_warn msg).
Proof. intros h H. exact H. Qed.

#[local] Hint Resolve on_core_logger_warn : pres_db.

Ltac on_core_auto :=
  repeat first
    [ apply on_core_set_dependency; solve [ auto ]
    | apply on_core_set_entry; solve [ auto ]
    | apply on_core_reset_linkedPackages; solve [ auto ]
    | apply on_core_set_linkedPackage; solve [ auto ]
    | apply on_core_pop_entry; solve [ auto ]
    | apply on_core_pop_dependency; solve [ auto ]
    | solve [ auto with pres_db ]
    | apply preserves_for_each; intros ? ?
    | apply preserves_bind; [| intros ? ]
    | match goal with
      | |- preserves _ (let '(_, _) := ?p in _) => destruct p
      | |- preserves _ (match ?x with _ => _ end) => destruct x
      | |- preserves _ (if ?b then _ else _) => destruct b
      end ].

Section TemplateInvariant.
Context {semver_module : SemverModule} {environment : Environment}.
Variable Q : Pkg.t -> Prop.

Hypothesis Q_set_dependency :
  forall k v d,
    Q d -> Q (Pkg.with_dependencies (Dict.set k v (Pkg.dependencies d)) d).
Hypothesis Q_set_entry :
  forall item k v d,
    Q d ->
    Q (Pkg.with_jupyterlab
         (Pkg.with_field item
            (Dict.set k v (Pkg.field item (Pkg.jupyterlab d)))
            (Pkg.jupyterlab d)) d).
Hypothesis Q_linkedPackages :
  forall L d,
    Q d ->
    Q (Pkg.with_jupyterlab (Pkg.with_linkedPackages L (Pkg.jupyterlab d)) d).
Hypothesis Q_pop_entry :
  forall item k d,
    Q d ->
    Q (Pkg.with_jupyterlab
         (Pkg.with_field item
            (Dict.remove k (Pkg.field item (Pkg.jupyterlab d)))
            (Pkg.jupyterlab d)) d).
Hypothesis Q_pop_dependency :
  forall k d,
    Q d -> Q (Pkg.with_dependencies (Dict.remove k (Pkg.dependencies d)) d).

Lemma template_preserves_on_core (silent : bool) :
  preserves (on_core Q) (_get_package_template silent).
Proof.
  unfold _get_package_template, _get_extension_compat. on_core_auto.
Qed.
End TemplateInvariant.

(** Unique keys in the dictionaries of a package document. *)
Lemma nodup_template {semver_module : SemverModule}
    {environment : Environment} (silent : bool) (h : Handler) :
  let Q := fun d =>
    NoDup (Dict.keys (Pkg.dependencies d)) /\
    forall ty, NoDup (Dict.keys (Pkg.field ty (Pkg.jupyterlab d))) in
  Q (core_data (info h)) ->
  Q (core_data (info (snd (_get_package_template silent h)))).
Proof.
  intros Q. apply (template_preserves_on_core Q); unfold Q; clear Q.
  - intros k v d [Hd He]. split; [now apply dict_nodup_set | exact He].
  - intros item k v d [Hd He]. split; [exact Hd |]. intros ty. simpl.
    rewrite field_with_field.
    destruct item, ty; try apply He; apply dict_nodup_set, He.
  - intros L d [Hd He]. split; [exact Hd |]. intros ty.
    destruct ty; [exact (He Extension) | exact (He MimeExtension)].
  - intros item k d [Hd He]. split; [exact Hd |]. intros ty. simpl.
    rewrite field_with_field.
    destruct item, ty; try apply He; apply dict_nodup_remove, He.
  - intros k d [Hd He]. split; [now apply dict_nodup_remove | exact He].
Qed.

(** *** The loop over the uninstalled core extensions *)

Lemma uninstall_core_item_ok (item : string) (h h1 : Handler) :
  uninstall_core_item item h = (Ok tt, h1) ->
  let d := core_data (info h) in
  let ty :=
    if Dict.mem item (Pkg.extensions (Pkg.jupyterlab d))
    then Extension else MimeExtension in
  Dict.mem item (Pkg.field ty (Pkg.jupyterlab d)) = true /\
  Dict.mem item (Pkg.dependencies d) = true /\
  core_data (info h1) =
  Pkg.with_dependencies (Dict.remove item (Pkg.dependencies d))
    (Pkg.with_jupyterlab
       (Pkg.with_field ty
          (Dict.remove item (Pkg.field ty (Pkg.jupyterlab d)))
          (Pkg.jupyterlab d)) d).
Proof.
  cbv beta iota zeta delta
    [uninstall_core_item bind get_core_data pop_entry pop_dependency lift
     Dict.pop put_core_data].
  destruct (Dict.mem item (Pkg.extensions (Pkg.jupyterlab (core_data (info h)))))
    eqn:Ee; cbn [Pkg.field]; [rewrite Ee |].
  - cbn [Pkg.field Pkg.dependencies Pkg.with_jupyterlab info core_data].
    destruct (Dict.mem item (Pkg.dependencies (core_data (info h)))) eqn:Ed;
      [| intros H; discriminate H].
    intros [= <-]. auto.
  - destruct (Dict.mem item
                (Pkg.mimeExtensions (Pkg.jupyterlab (core_data (info h)))))
      eqn:Em; [| intros H; discriminate H].
    cbn [Pkg.field Pkg.dependencies Pkg.with_jupyterlab info core_data].
    destruct (Dict.mem item (Pkg.dependencies (core_data (info h)))) eqn:Ed;
      [| intros H; discriminate H].
    intros [= <-]. auto.
Qed.

Section TemplateStages.
Context {semver_module : SemverModule} {environment : Environment}.
Variable Q : Pkg.t -> Prop.
Variable ok_key : string -> Prop.
Variable h : Handler.

Hypothesis ok_extensions :
  forall k v, In (k, v) (extensions (info h)) -> ok_key k.
Hypothesis ok_linked :
  forall k item, In (k, item) (linked_packages (info h)) -> ok_key k.
Hypothesis Q_set_dependency :
  forall k v d,
    ok_key k ->
    Q d -> Q (Pkg.with_dependencies (Dict.set k v (Pkg.dependencies d)) d).
Hypothesis Q_set_entry :
  forall item k v d,
    Q d ->
    Q (Pkg.with_jupyterlab
         (Pkg.with_field item
            (Dict.set k v (Pkg.field item (Pkg.jupyterlab d)))
            (Pkg.jupyterlab d)) d).
Hypothesis Q_linkedPackages :
  forall L d,
    Q d ->
    Q (Pkg.with_jupyterlab (Pkg.with_linkedPackages L (Pkg.jupyterlab d)) d).

(** A run that returns reaches the loop over the uninstalled core
    extensions with [Q] true of the core data, and that loop returns. *)
Lemma template_before_uninstall (silent : bool) (h' : Handler)
    (data : Pkg.t) :
  Q (core_data (info h)) ->
  _get_package_template silent h = (Ok data, h') ->
  exists h3,
    on_core Q h3 /\
    for_each (uninstalled_core (info h)) uninstall_core_item h3 = (Ok tt, h')
    /\ core_data (info h') = data.
Proof.
  intros Hq Hrun. unfold _get_package_template in Hrun.
  apply bind_ok in Hrun. destruct Hrun as [i [h0 [Hi Hrun]]].
  injection Hi as <- <-.
  apply bind_ok in Hrun. destruct Hrun as [compat [h1 [Hc Hrun]]].
  rewrite get_extension_compat_run in Hc. injection Hc as _ <-.
  apply bind_ok in Hrun. destruct Hrun as [[] [h2 [H1 Hrun]]].
  assert (Q2 : on_core Q h2).
  { match type of H1 with
    | ?m h = _ =>
        assert (Hp : preserves (on_core Q) m);
          [| specialize (Hp h Hq); now rewrite H1 in Hp]
    end.
    apply preserves_for_each. intros [key value] Hin.
    apply preserves_bind; [apply preserves_lift | intros errors].
    destruct errors; [| destruct (negb silent); auto with pres_db].
    apply preserves_bind; [| intros _ ].
    - apply on_core_set_dependency. intros d. apply Q_set_dependency.
      exact (ok_extensions key value Hin).
    - on_core_auto. }
  apply bind_ok in Hrun. destruct Hrun as [[] [h2' [H2 Hrun]]].
  assert (Q2' : on_core Q h2').
  { injection H2 as <-. apply Q_linkedPackages. exact Q2. }
  apply bind_ok in Hrun. destruct Hrun as [[] [h2'' [H3 Hrun]]].
  assert (Q2'' : on_core Q h2'').
  { match type of H3 with
    | ?m h2' = _ =>
        assert (Hp : preserves (on_core Q) m) by on_core_auto;
          specialize (Hp h2' Q2'); now rewrite H3 in Hp
    end. }
  apply bind_ok in Hrun. destruct Hrun as [[] [h3 [H4 Hrun]]].
  assert (Q3 : on_core Q h3).
  { match type of H4 with
    | ?m h2'' = _ =>
        assert (Hp : preserves (on_core Q) m);
          [| specialize (Hp h2'' Q2''); now rewrite H4 in Hp]
    end.
    apply preserves_for_each. intros [key item] Hin.
    apply preserves_bind; [| intros _ ].
    - apply on_core_set_dependency. intros d. apply Q_set_dependency.
      exact (ok_linked key item Hin).
    - on_core_auto. }
  apply bind_ok in Hrun. destruct Hrun as [[] [h4 [H5 Hrun]]].
  injection Hrun as <- <-.
  exists h3. repeat split; [exact Q3 | exact H5].
Qed.
End TemplateStages.

Section UninstalledCore.
Context {semver_module : SemverModule} {environment : Environment}.

Lemma uninstalled_core_dropped (silent : bool) (h h' : Handler)
    (data : Pkg.t) :
  NoDup (Dict.keys (Pkg.dependencies (core_data (info h)))) ->
  NoDup (Dict.keys (Pkg.extensions (Pkg.jupyterlab (core_data (info h))))) ->
  _get_package_template silent h = (Ok data, h') ->
  forall item,
    In item (uninstalled_core (info h)) ->
    ~ In item (Dict.keys (Pkg.extensions (Pkg.jupyterlab data))) /\
    ~ In item (Dict.keys (Pkg.dependencies data)).
Proof.
  intros Hd He Hrun.
  set (Q := fun d : Pkg.t =>
              NoDup (Dict.keys (Pkg.dependencies d)) /\
              NoDup (Dict.keys (Pkg.extensions (Pkg.jupyterlab d)))).
  assert (C1 : forall k v d, True -> Q d ->
            Q (Pkg.with_dependencies (Dict.set k v (Pkg.dependencies d)) d)).
  { intros k v d _ [H1 H2]. split; [now apply dict_nodup_set | exact H2]. }
  assert (C2 : forall item k v d, Q d ->
            Q (Pkg.with_jupyterlab
                 (Pkg.with_field item
                    (Dict.set k v (Pkg.field item (Pkg.jupyterlab d)))
                    (Pkg.jupyterlab d)) d)).
  { intros item k v d [H1 H2]. split; [exact H1 |].
    destruct item; simpl; [now apply dict_nodup_set | exact H2]. }
  assert (C3 : forall L d, Q d ->
            Q (Pkg.with_jupyterlab
                 (Pkg.with_linkedPackages L (Pkg.jupyterlab d)) d)).
  { intros L d [H1 H2]. split; assumption. }
  destruct (template_before_uninstall Q (fun _ => True) h
              (fun _ _ _ => I) (fun _ _ _ => I) C1 C2 C3 silent h' data
              (conj Hd He) Hrun) as [h3 [Q3 [Hloop <-]]].
  clear C1 C2 C3.
  pose proof (hoare_for_each_collect (on_core Q)
      (fun x h0 =>
         ~ In x (Dict.keys
                   (Pkg.extensions (Pkg.jupyterlab (core_data (info h0)))))
         /\ ~ In x (Dict.keys (Pkg.dependencies (core_data (info h0)))))
      (uninstalled_core (info h)) uninstall_core_item) as Hcollect.
  apply Hcollect with (h := h3) (a := tt) (h' := h');
    [| | exact Q3 | exact Hloop].
  - intros x _ h0 [] h1 [H1 H2] Hr.
    apply uninstall_core_item_ok in Hr. destruct Hr as [Hm [Hmd Hcore]].
    unfold on_core, Q. rewrite Hcore. simpl.
    destruct (Dict.mem x (Pkg.extensions (Pkg.jupyterlab (core_data (info h0)))))
      eqn:Ee; simpl.
    + repeat split;
        auto using dict_nodup_remove, dict_not_in_keys_remove.
    + apply dict_mem_false in Ee.
      repeat split;
        auto using dict_nodup_remove, dict_not_in_keys_remove.
  - intros x y _ h0 [] h1 [_ [Hx1 Hx2]] Hr.
    apply uninstall_core_item_ok in Hr. destruct Hr as [_ [_ Hcore]].
    rewrite Hcore. simpl. split.
    + intros Hin. apply Hx1.
      destruct (Dict.mem y _); simpl in Hin;
        [exact (dict_in_keys_remove _ _ _ Hin) | exact Hin].
    + intros Hin. apply Hx2. exact (dict_in_keys_remove _ _ _ Hin).
Qed.

Lemma uninstalled_core_known (silent : bool) (h h' : Handler) (data : Pkg.t) :
  _get_package_template silent h = (Ok data, h') ->
  forall item,
    In item (uninstalled_core (info h)) -> known_package (info h) item.
Proof.
  intros Hrun.
  set (Q := fun d : Pkg.t =>
              forall k, In k (Dict.keys (Pkg.dependencies d)) ->
                        known_package (info h) k).
  assert (C1 : forall k v d, known_package (info h) k -> Q d ->
            Q (Pkg.with_dependencies (Dict.set k v (Pkg.dependencies d)) d)).
  { intros k v d Hk Hq k' Hin. simpl in Hin. apply dict_in_keys_set in Hin.
    destruct Hin as [-> | Hin]; [exact Hk | now apply Hq]. }
  assert (Hinit : Q (core_data (info h))) by (intros k Hin; left; exact Hin).
  destruct (template_before_uninstall Q (known_package (info h)) h
              (fun k v Hin => or_intror (or_introl (dict_in_keys _ _ _ Hin)))
              (fun k v Hin => or_intror (or_intror (dict_in_keys _ _ _ Hin)))
              C1 (fun _ _ _ _ Hq => Hq) (fun _ _ Hq => Hq) silent h' data
              Hinit Hrun) as [h3 [Q3 [Hloop _]]].
  clear C1 Hinit.
  pose proof (hoare_for_each_collect (on_core Q)
      (fun x _ => known_package (info h) x)
      (uninstalled_core (info h)) uninstall_core_item) as Hcollect.
  apply Hcollect with (h := h3) (a := tt) (h' := h');
    [| | exact Q3 | exact Hloop].
  - intros x _ h0 [] h1 H0 Hr.
    apply uninstall_core_item_ok in Hr. destruct Hr as [_ [Hmd Hcore]].
    split.
    + unfold on_core, Q. rewrite Hcore. simpl. intros k Hin. apply H0.
      exact (dict_in_keys_remove _ _ _ Hin).
    + apply H0. now apply dict_mem_keys.
  - intros x y _ h0 [] h1 [_ Hx] _. exact Hx.
Qed.
End UninstalledCore.

(** X12: in the template [_get_package_template] returns, no uninstalled
    core extension is left among [extensions] or among the dependencies. *)
Theorem get_package_template_drops_uninstalled_core :
  forall (semver_module : SemverModule) (environment : Environment)
         (silent : bool) (h h' : Handler) (data : Pkg.t),
    NoDup (Dict.keys (Pkg.dependencies (core_data (info h)))) ->
    NoDup (Dict.keys (Pkg.extensions (Pkg.jupyterlab (core_data (info h)))))
    ->
    _get_package_template silent h = (Ok data, h') ->
    forall item,
      In item (uninstalled_core (info h)) ->
      ~ In item (Dict.keys (Pkg.extensions (Pkg.jupyterlab data))) /\
      ~ In item (Dict.keys (Pkg.dependencies data)).
Proof. intros S E. exact uninstalled_core_dropped. Qed.

Lemma get_package_template_drops_uninstalled_core_witness :
  ~ In "core-ext"
      (Dict.keys
         (Pkg.extensions
            (Pkg.jupyterlab (fst MoreScenarios.template_uninstalled)))) /\
  ~ In "core-ext"
      (Dict.keys (Pkg.dependencies (fst MoreScenarios.template_uninstalled))).
Proof.
  apply (get_package_template_drops_uninstalled_core SpecSemver.impl
           SampleEnv.impl true Scenario.handler_uninstalled
           (snd MoreScenarios.template_uninstalled)
           (fst MoreScenarios.template_uninstalled)).
  - simpl. repeat constructor; simpl; intuition discriminate.
  - simpl. repeat constructor; simpl; intuition discriminate.
  - reflexivity.
  - simpl. left. reflexivity.
Defined.

(** X13: [_get_package_template] does not return when the uninstalled
    core extensions name a package that is neither a dependency of the core
    template, nor an installed extension, nor a linked package: popping it
    raises. *)
Theorem get_package_template_stale_uninstalled_core :
  forall (semver_module : SemverModule) (environment : Environment)
         (silent : bool) (h : Handler) (item : string),
    In item (uninstalled_core (info h)) ->
    ~ known_package (info h) item ->
    exists e, fst (_get_package_template silent h) = Raise e.
Proof.
  intros S E silent h item Hin Hunknown.
  destruct (_get_package_template silent h) as [r h'] eqn:Hrun.
  destruct r as [data | e].
  - exfalso. apply Hunknown.
    exact (uninstalled_core_known silent h h' data Hrun item Hin).
  - exists e. reflexivity.
Qed.

Lemma get_package_template_stale_uninstalled_core_witness :
  exists e,
    fst (@_get_package_template SpecSemver.impl SampleEnv.impl true
           MoreScenarios.handler_stale) = Raise e.
Proof.
  apply (get_package_template_stale_uninstalled_core SpecSemver.impl
           SampleEnv.impl true MoreScenarios.handler_stale "gone").
  - simpl. left. reflexivity.
  - unfold known_package. simpl. intuition discriminate.
Defined.

(** *** The silent flag *)

Lemma sbl_ret {A} (a : A) : same_but_log (ret a) (ret a).
Proof. intros h1 h2 H. split; [reflexivity | exact H]. Qed.

Lemma sbl_lift {A} (r : result A) : same_but_log (lift r) (lift r).
Proof. intros h1 h2 H. split; [reflexivity | exact H]. Qed.

Lemma sbl_get_info : same_but_log get_info get_info.
Proof. intros h1 h2 H. simpl. split; [now rewrite H | exact H]. Qed.

Lemma sbl_get_core_data : same_but_log get_core_data get_core_data.
Proof. intros h1 h2 H. simpl. split; [now rewrite H | exact H]. Qed.

Lemma sbl_put_core_data (data : Pkg.t) :
  same_but_log (put_core_data data) (put_core_data data).
Proof. intros h1 h2 H. simpl. split; [reflexivity | now rewrite H]. Qed.

Lemma sbl_warn_any (msg : string) (silent1 silent2 : bool) :
  same_but_log (if negb silent1 then logger_warn msg else ret tt)
    (if negb silent2 then logger_warn msg else ret tt).
Proof.
  intros h1 h2 H. destruct silent1, silent2; simpl; split;
    solve [reflexivity | exact H].
Qed.

Lemma sbl_bind {A B} (m1 m2 : M A) (f1 f2 : A -> M B) :
  same_but_log m1 m2 -> (forall a, same_but_log (f1 a) (f2 a)) ->
  same_but_log (bind m1 f1) (bind m2 f2).
Proof.
  intros Hm Hf h1 h2 H. unfold bind. destruct (Hm h1 h2 H) as [Hr Hi].
  destruct (m1 h1) as [[a1 | e1] h1'], (m2 h2) as [[a2 | e2] h2'];
    simpl in *; try discriminate.
  - injection Hr as <-. now apply Hf.
  - injection Hr as <-. split; [reflexivity | assumption].
Qed.

Lemma sbl_for_each {A} (l : list A) (b1 b2 : A -> M unit) :
  (forall x, same_but_log (b1 x) (b2 x)) ->
  same_but_log (for_each l b1) (for_each l b2).
Proof.
  intros Hb. induction l as [| x rest IH]; simpl.
  - apply sbl_ret.
  - apply sbl_bind; [apply Hb | intros _; exact IH].
Qed.

Create HintDb sbl_db.
#[local] Hint Resolve sbl_ret sbl_lift sbl_get_info sbl_get_core_data
  sbl_put_core_data sbl_warn_any : sbl_db.

Ltac sbl :=
  repeat first
    [ solve [ auto with sbl_db ]
    | apply sbl_for_each; intros ?
    | apply sbl_bind; [| intros ? ]
    | match goal with
      | |- same_but_log (let '(_, _) := ?p in _) _ => destruct p
      | |- same_but_log (match ?x with _ => _ end) _ => destruct x
      | |- same_but_log (if ?b then _ else _) _ => destruct b
      end ].

Section SilentFlag.
Context {semver_module : SemverModule} {environment : Environment}.

Lemma template_same_but_log (silent1 silent2 : bool) :
  same_but_log (_get_package_template silent1)
    (_get_package_template silent2).
Proof.
  unfold _get_package_template, _get_extension_compat. unfold_writes. sbl.
Qed.
End SilentFlag.

(** X14: the [silent] flag of [_get_package_template] changes nothing but
    the log: with or without it the method returns the same template or
    raises the same exception, and leaves the same [info]. *)
Theorem get_package_template_silent_only_logging :
  forall (semver_module : SemverModule) (environment : Environment)
         (h : Handler),
    fst (_get_package_template true h) = fst (_get_package_template false h)
    /\
    info (snd (_get_package_template true h)) =
    info (snd (_get_package_template false h)).
Proof. intros S E h. now apply template_same_but_log. Qed.

(** ** When the build check has nothing to report *)

Lemma filter_nil_iff {A} (f : A -> bool) (l : list A) :
  filter f l = [] <-> forall x, In x l -> f x = false.
Proof.
  split; [| apply filter_none].
  induction l as [| x l IH]; simpl; [intros _ y [] |].
  destruct (f x) eqn:E; [discriminate |].
  intros H y [<- | Hy]; [exact E | now apply IH].
Qed.

Lemma flat_map_nil_iff {A B} (f : A -> list B) (l : list A) :
  flat_map f l = [] <-> forall x, In x l -> f x = [].
Proof.
  split; [| apply flat_map_none].
  induction l as [| x l IH]; simpl; [intros _ y [] |].
  intros H. apply app_eq_nil in H. destruct H as [H1 H2].
  intros y [<- | Hy]; [exact H1 | now apply IH].
Qed.

Lemma map_nil_iff {A B} (f : A -> B) (l : list A) : map f l = [] <-> l = [].
Proof. destruct l; simpl; split; congruence. Qed.

Section UpToDate.
Context {semver_module : SemverModule} {environment : Environment}.

Lemma ext_messages_nil_iff (old_jlab new_jlab : Pkg.jlab) (ty : ext_type) :
  ext_messages old_jlab new_jlab ty = [] <->
  forall k, Dict.mem k (Pkg.field ty old_jlab) =
            Dict.mem k (Pkg.field ty new_jlab).
Proof.
  split; [| apply ext_messages_same].
  unfold ext_messages. intros H. apply app_eq_nil in H.
  destruct H as [Ha Hr]. apply map_nil_iff in Ha, Hr.
  rewrite filter_nil_iff in Ha, Hr. intros k.
  destruct (Dict.mem k (Pkg.field ty old_jlab)) eqn:Eo.
  - apply dict_mem_keys in Eo. specialize (Hr k Eo).
    apply negb_false_iff in Hr. now rewrite Hr.
  - destruct (Dict.mem k (Pkg.field ty new_jlab)) eqn:En; [| reflexivity].
    apply dict_mem_keys in En. specialize (Ha k En).
    apply negb_false_iff in Ha. congruence.
Qed.

Lemma dep_messages_nil_iff (old_deps new_deps local : Dict.t string)
    (linked : Dict.t Linked.t) :
  dep_messages old_deps new_deps local linked = [] <->
  forall pkg old dep,
    Dict.get pkg old_deps = Some old -> In (pkg, dep) new_deps ->
    Dict.mem pkg local = false -> Dict.mem pkg linked = false -> old = dep.
Proof.
  unfold dep_messages. rewrite flat_map_nil_iff. split.
  - intros H pkg old dep Hg Hin Hl Hk. specialize (H (pkg, dep) Hin).
    simpl in H. rewrite Hg, Hl, Hk in H. simpl in H.
    destruct (String.eqb old dep) eqn:E; [now apply String.eqb_eq |].
    discriminate H.
  - intros H [pkg dep] Hin.
    destruct (Dict.get pkg old_deps) as [old |] eqn:Hg; [| reflexivity].
    destruct (Dict.mem pkg local) eqn:Hl; [reflexivity |].
    destruct (Dict.mem pkg linked) eqn:Hk; [reflexivity |]. simpl.
    rewrite (H pkg old dep Hg Hin Hl Hk), String.eqb_refl. reflexivity.
Qed.

Lemma local_messages_nil_iff (fast : bool) (local : Dict.t string) :
  local_messages fast local = [] <->
  (fast = false ->
   forall name source,
     In (name, source) local ->
     _check_local name source (pjoin [app_dir; "extensions"]) = false).
Proof.
  unfold local_messages. rewrite flat_map_nil_iff. split.
  - intros H -> name source Hin. specialize (H (name, source) Hin).
    simpl in H. destruct (_check_local name source _);
      [discriminate | reflexivity].
  - intros H [name source] Hin. destruct fast; [reflexivity |].
    now rewrite (H eq_refl name source Hin).
Qed.

Lemma linked_messages_nil_iff (fast : bool) (linked : Dict.t Linked.t) :
  linked_messages fast linked = [] <->
  (fast = false ->
   forall name item,
     In (name, item) linked ->
     _check_local name (Linked.source item)
       (pjoin [app_dir; "staging"; "linked_packages"]) = false).
Proof.
  unfold linked_messages. rewrite flat_map_nil_iff. split.
  - intros H -> name item Hin. specialize (H (name, item) Hin).
    simpl in H. destruct (_check_local name (Linked.source item) _);
      [discriminate | reflexivity].
  - intros H [name item] Hin. destruct fast; [reflexivity |].
    now rewrite (H eq_refl name item Hin).
Qed.

Lemma check_messages_nil_iff (fast : bool) (static_data new_package : Pkg.t)
    (local : Dict.t string) (linked : Dict.t Linked.t) :
  check_messages fast static_data new_package local linked = [] <->
  (forall ty k,
      Dict.mem k (Pkg.field ty (Pkg.jupyterlab static_data)) =
      Dict.mem k (Pkg.field ty (Pkg.jupyterlab new_package))) /\
  (forall pkg old dep,
      Dict.get pkg (Pkg.dependencies static_data) = Some old ->
      In (pkg, dep) (Pkg.dependencies new_package) ->
      Dict.mem pkg local = false -> Dict.mem pkg linked = false ->
      old = dep) /\
  (fast = false ->
   (forall name source,
       In (name, source) local ->
       _check_local name source (pjoin [app_dir; "extensions"]) = false) /\
   (forall name item,
       In (name, item) linked ->
       _check_local name (Linked.source item)
         (pjoin [app_dir; "staging"; "linked_packages"]) = false)).
Proof.
  unfold check_messages. simpl. rewrite app_nil_r.
  split.
  - intros H. apply app_eq_nil in H. destruct H as [He H].
    apply app_eq_nil in He. destruct He as [He Hm].
    apply app_eq_nil in H. destruct H as [Hd H].
    apply app_eq_nil in H. destruct H as [Hl Hk].
    pose proof (proj1 (ext_messages_nil_iff _ _ _) He) as He'.
    pose proof (proj1 (ext_messages_nil_iff _ _ _) Hm) as Hm'.
    pose proof (proj1 (dep_messages_nil_iff _ _ _ _) Hd) as Hd'.
    pose proof (proj1 (local_messages_nil_iff _ _) Hl) as Hl'.
    pose proof (proj1 (linked_messages_nil_iff _ _) Hk) as Hk'.
    split; [intros [] ; assumption | split; [exact Hd' | auto]].
  - intros [He [Hd Hc]].
    rewrite (proj2 (ext_messages_nil_iff _ _ Extension) (He Extension)).
    rewrite (proj2 (ext_messages_nil_iff _ _ MimeExtension)
               (He MimeExtension)).
    rewrite (proj2 (dep_messages_nil_iff _ _ _ _) Hd).
    rewrite (proj2 (local_messages_nil_iff fast local)
               (fun F => proj1 (Hc F))).
    rewrite (proj2 (linked_messages_nil_iff fast linked)
               (fun F => proj2 (Hc F))).
    reflexivity.
Qed.
End UpToDate.

Lemma build_check_nil_iff :
  forall (semver_module : SemverModule) (environment : Environment)
         (fast : bool) (static_data new_package : Pkg.t) (h h' : Handler),
    _get_package_template fast h = (Ok new_package, h') ->
    (build_check fast (Some static_data) h = (Ok [], h') <->
     records_version static_data /\
     (forall ty k,
         Dict.mem k (Pkg.field ty (Pkg.jupyterlab static_data)) =
         Dict.mem k (Pkg.field ty (Pkg.jupyterlab new_package))) /\
     (forall pkg old dep,
         Dict.get pkg (Pkg.dependencies static_data) = Some old ->
         In (pkg, dep) (Pkg.dependencies new_package) ->
         Dict.mem pkg (local_extensions (info h)) = false ->
         Dict.mem pkg (linked_packages (info h)) = false ->
         old = dep) /\
     (fast = false ->
      (forall name source,
          In (name, source) (local_extensions (info h)) ->
          _check_local name source (pjoin [app_dir; "extensions"]) = false)
      /\
      (forall name item,
          In (name, item) (linked_packages (info h)) ->
          _check_local name (Linked.source item)
            (pjoin [app_dir; "staging"; "linked_packages"]) = false))).
Proof.
  intros S E fast static_data new_package h h' Hrun.
  rewrite <- check_messages_nil_iff. split.
  - intros Hcheck.
    pose proof (build_check_ok_records_version _ _ _ _ _ Hcheck) as Hver.
    split; [exact Hver |].
    rewrite (build_check_with_snapshot fast static_data h Hver), Hrun
      in Hcheck.
    injection Hcheck as ->. reflexivity.
  - intros [Hver Hnil].
    rewrite (build_check_with_snapshot fast static_data h Hver), Hrun, Hnil.
    reflexivity.
Qed.

(** X15: when the template can be built, [build_check] against a snapshot
    returns no message exactly when the snapshot records a version (not the
    empty one; the version test raises otherwise), the snapshot and the
    template name the same extensions and the same mimeExtensions, no
    dependency of the template that is neither a local extension nor a
    linked package has another version in the snapshot, and, unless
    [fast], no local extension or linked package fails its content
    check. *)
Theorem build_check_nothing_to_report :
  forall (semver_module : SemverModule) (environment : Environment)
         (fast : bool) (static_data new_package : Pkg.t) (h h' : Handler),
    _get_package_template fast h = (Ok new_package, h') ->
    (build_check fast (Some static_data) h = (Ok [], h') <->
     records_version static_data /\
     (forall ty k,
         Dict.mem k (Pkg.field ty (Pkg.jupyterlab static_data)) =
         Dict.mem k (Pkg.field ty (Pkg.jupyterlab new_package))) /\
     (forall pkg old dep,
         Dict.get pkg (Pkg.dependencies static_data) = Some old ->
         In (pkg, dep) (Pkg.dependencies new_package) ->
         Dict.mem pkg (local_extensions (info h)) = false ->
         Dict.mem pkg (linked_packages (info h)) = false ->
         old = dep) /\
     (fast = false ->
      (forall name source,
          In (name, source) (local_extensions (info h)) ->
          _check_local name source (pjoin [app_dir; "extensions"]) = false)
      /\
      (forall name item,
          In (name, item) (linked_packages (info h)) ->
          _check_local name (Linked.source item)
            (pjoin [app_dir; "staging"; "linked_packages"]) = false))).
Proof.
  intros S E fast static_data new_package h h'.
  apply build_check_nil_iff.
Qed.

Lemma build_check_nothing_to_report_witness :
  @build_check SpecSemver.impl SampleEnv.impl true
    (Some Scenario.static_AB) Scenario.handler_AC
  = (Ok [], snd Scenario.template_AC) <->
  records_version Scenario.static_AB /\
  (forall ty k,
      Dict.mem k (Pkg.field ty (Pkg.jupyterlab Scenario.static_AB)) =
      Dict.mem k
        (Pkg.field ty (Pkg.jupyterlab (fst Scenario.template_AC)))) /\
  (forall pkg old dep,
      Dict.get pkg (Pkg.dependencies Scenario.static_AB) = Some old ->
      In (pkg, dep) (Pkg.dependencies (fst Scenario.template_AC)) ->
      Dict.mem pkg (local_extensions (info Scenario.handler_AC)) = false ->
      Dict.mem pkg (linked_packages (info Scenario.handler_AC)) = false ->
      old = dep) /\
  (true = false ->
   (forall name source,
       In (name, source) (local_extensions (info Scenario.handler_AC)) ->
       @_check_local SampleEnv.impl name source
         (@pjoin SampleEnv.impl [@app_dir SampleEnv.impl; "extensions"])
       = false) /\
   (forall name item,
       In (name, item) (linked_packages (info Scenario.handler_AC)) ->
       @_check_local SampleEnv.impl name (Linked.source item)
         (@pjoin SampleEnv.impl
            [@app_dir SampleEnv.impl; "staging"; "linked_packages"])
       = false)).
Proof.
  apply (build_check_nothing_to_report SpecSemver.impl SampleEnv.impl true
           Scenario.static_AB (fst Scenario.template_AC) Scenario.handler_AC
           (snd Scenario.template_AC)).
  reflexivity.
Defined.

(** X16: take the template built from a handler state [h], and a
    snapshot that records a version (not the empty one) and carries the
    dependencies, extensions and mimeExtensions of that template.  Run from
    the same state [h], as a handler newly created over the same
    application directory is, [build_check] returns no message, provided
    the check is [fast] or no content check fails.  The statement is about
    the state the build started from, not about the handler [h1] the build
    leaves, whose cached core data the build has changed. *)
Theorem build_check_after_build :
  forall (semver_module : SemverModule) (environment : Environment)
         (silent fast : bool) (h h1 : Handler) (data static_data : Pkg.t),
    NoDup (Dict.keys (Pkg.dependencies (core_data (info h)))) ->
    _get_package_template silent h = (Ok data, h1) ->
    records_version static_data ->
    Pkg.dependencies static_data = Pkg.dependencies data ->
    (forall ty,
        Pkg.field ty (Pkg.jupyterlab static_data) =
        Pkg.field ty (Pkg.jupyterlab data)) ->
    (fast = true \/
     forall name source dname, _check_local name source dname = false) ->
    fst (build_check fast (Some static_data) h) = Ok [].
Proof.
  intros S E silent fast h h1 data static_data Hnd Hrun Hver Hdeps Hfields
    Hc.
  destruct (template_same_but_log fast silent h h eq_refl) as [Hfst _].
  rewrite Hrun in Hfst. simpl in Hfst.
  destruct (_get_package_template fast h) as [r h2] eqn:Hrun'.
  simpl in Hfst. subst r.
  assert (Hnd' : NoDup (Dict.keys (Pkg.dependencies data))).
  { pose proof (template_preserves_on_core
                  (fun d => NoDup (Dict.keys (Pkg.dependencies d)))) as Hp.
    specialize (Hp (fun k v d H => dict_nodup_set k v _ H)
                   (fun _ _ _ _ H => H) (fun _ _ H => H) (fun _ _ _ H => H)
                   (fun k d H => dict_nodup_remove k _ H) silent h Hnd).
    rewrite Hrun in Hp. unfold on_core in Hp. simpl in Hp.
    pose proof (yields_get_package_template silent h data) as Hy.
    rewrite Hrun in Hy. simpl in Hy. now rewrite (Hy eq_refl) in Hp. }
  rewrite (proj2 (build_check_nil_iff S E fast static_data data
                    h h2 Hrun')); [reflexivity |].
  split; [exact Hver |]. split; [| split].
  - intros ty k. now rewrite Hfields.
  - intros pkg old dep Hg Hin _ _. rewrite Hdeps in Hg.
    rewrite (dict_in_get pkg dep _ Hnd' Hin) in Hg. congruence.
  - intros ->. destruct Hc as [F | Hc]; [discriminate |].
    split; intros; apply Hc.
Qed.

Lemma build_check_after_build_witness :
  fst (@build_check SpecSemver.impl SampleEnv.impl false
         (Some (fst MoreScenarios.template_linked))
         MoreScenarios.handler_linked) = Ok [].
Proof.
  apply (build_check_after_build SpecSemver.impl SampleEnv.impl true false
           MoreScenarios.handler_linked (snd MoreScenarios.template_linked)
           (fst MoreScenarios.template_linked)).
  - simpl. repeat constructor; simpl; intuition discriminate.
  - reflexivity.
  - exists "0.2.0". split; [reflexivity | discriminate].
  - reflexivity.
  - intros ty. reflexivity.
  - right. reflexivity.
Defined.

(** X17: a [fast] build check never consults the packed files: its
    outcome is the same whatever [_check_local] would answer. *)
Theorem build_check_fast_skips_content :
  forall (semver_module : SemverModule) (e1 e2 : Environment)
         (static : option Pkg.t) (h : Handler),
    @app_dir e1 = @app_dir e2 ->
    @pjoin e1 = @pjoin e2 ->
    @format_path e1 = @format_path e2 ->
    @LooseVersion e1 = @LooseVersion e2 ->
    @build_check semver_module e1 true static h =
    @build_check semver_module e2 true static h.
Proof.
  intros S [a1 p1 f1 l1 c1] [a2 p2 f2 l2 c2] static h. simpl.
  intros <- <- <- <-. destruct static as [sd |]; reflexivity.
Qed.

Lemma build_check_fast_skips_content_witness :
  @build_check SpecSemver.impl SampleEnv.impl true
    (Some (fst MoreScenarios.template_linked)) MoreScenarios.handler_linked =
  @build_check SpecSemver.impl MoreEnvs.all_changed true
    (Some (fst MoreScenarios.template_linked)) MoreScenarios.handler_linked.
Proof.
  apply (build_check_fast_skips_content SpecSemver.impl SampleEnv.impl
           MoreEnvs.all_changed); reflexivity.
Defined.

(** ** Extension validation *)

Lemma append_if_nil (cond : bool) (msg : string) (messages : list string) :
  append_if cond msg messages = [] <-> cond = false /\ messages = [].
Proof.
  unfold append_if. destruct cond; split.
  - intros H. apply app_eq_nil in H. destruct H as [_ H]. discriminate H.
  - intros [H _]. discriminate H.
  - auto.
  - intros [_ H]. exact H.
Qed.

Lemma complete_entry_flag (main : string) (e : Ext.entry) (b : bool) :
  complete_entry main e = Ext.Flag b -> b = false.
Proof.
  destruct e as [[|] | s]; simpl; try congruence.
  destruct (str_truthy s && negb (endswith s ".js")); discriminate.
Qed.

Lemma entry_check_passes (data : PackageData.t) (e : option Ext.entry) :
  let main := get_default (PackageData.main data) "index.js" in
  let main := if negb (endswith main ".js") then main ++ ".js" else main in
  let completed := complete_entry main (get_default e (Ext.Flag false)) in
  Ext.truthy completed &&
  entry_not_in completed (PackageData.jupyterlab_extracted_files data) = false
  <->
  forall s, entry_module data e = Some s ->
            In s (PackageData.jupyterlab_extracted_files data).
Proof.
  intros main0 main completed. unfold entry_module. fold main0 main completed.
  destruct completed as [b | s] eqn:Ec.
  - apply complete_entry_flag in Ec. subst b. simpl.
    split; [intros _ s H; discriminate H | reflexivity].
  - simpl. destruct (str_truthy s); simpl.
    + split.
      * intros H u [= <-]. apply negb_false_iff in H. now apply str_in_In.
      * intros H. apply negb_false_iff, str_in_In, H. reflexivity.
    + split; [intros _ u H; discriminate H | reflexivity].
Qed.

Lemma dir_check_passes (dir : option string) (files : list string) :
  str_truthy (get_default dir "") &&
  negb (existsb (fun f => startswith f (get_default dir "")) files) = false
  <-> dir_populated dir files.
Proof.
  unfold dir_populated. destruct (str_truthy (get_default dir "")) eqn:Et;
    simpl.
  - rewrite negb_false_iff, existsb_exists. split.
    + intros H. right. exact H.
    + intros [H | H]; [| exact H].
      apply str_truthy_false in H. congruence.
  - apply str_truthy_false in Et. split; [now left | reflexivity].
Qed.

(** X18: [_validate_extension] returns no message exactly when the
    package has a [jupyterlab] object that declares an [extension] or a
    [mimeExtension], the two values differ, the module file each declared
    entry asks for ([main] for [True], [.js] appended where missing) is
    among the packed files, and every declared [themeDir] and [schemaDir]
    is a prefix of some packed file. *)
Theorem validate_extension_accepts :
  forall data : PackageData.t,
    _validate_extension data = [] <->
    exists jlab,
      PackageData.jupyterlab data = Some (PackageData.Object jlab) /\
      (Ext.truthy (get_default (PackageData.extension jlab) (Ext.Flag false))
       = true \/
       Ext.truthy
         (get_default (PackageData.mimeExtension jlab) (Ext.Flag false))
       = true) /\
      entry_eqb (get_default (PackageData.extension jlab) (Ext.Flag false))
        (get_default (PackageData.mimeExtension jlab) (Ext.Flag false))
      = false /\
      (forall s, entry_module data (PackageData.extension jlab) = Some s ->
                 In s (PackageData.jupyterlab_extracted_files data)) /\
      (forall s, entry_module data (PackageData.mimeExtension jlab) = Some s ->
                 In s (PackageData.jupyterlab_extracted_files data)) /\
      dir_populated (PackageData.themeDir jlab)
        (PackageData.jupyterlab_extracted_files data) /\
      dir_populated (PackageData.schemaDir jlab)
        (PackageData.jupyterlab_extracted_files data).
Proof.
  intros data. unfold _validate_extension.
  destruct (PackageData.jupyterlab data) as [[| jlab] |] eqn:Hj.
  - split; [discriminate | intros [j [H _]]; discriminate H].
  - rewrite !append_if_nil.
    rewrite (entry_check_passes data (PackageData.extension jlab)).
    rewrite (entry_check_passes data (PackageData.mimeExtension jlab)).
    rewrite !dir_check_passes.
    split.
    + intros [Hs [Ht [Hm [He [Heq [Hno _]]]]]]. exists jlab.
      repeat split; trivial.
      apply andb_false_iff in Hno. rewrite !negb_false_iff in Hno. exact Hno.
    + intros [j [[= <-] [Hany [Heq [He [Hm [Ht Hs]]]]]]].
      repeat split; trivial.
      apply andb_false_iff. rewrite !negb_false_iff. exact Hany.
  - split; [discriminate | intros [j [H _]]; discriminate H].
Qed.

(** X19: a package whose [jupyterlab] object has neither an [extension]
    nor a [mimeExtension] key is told so, and is also told that the two
    must point to different modules. *)
Theorem validate_extension_no_entry_point :
  forall (data : PackageData.t) (jlab : PackageData.jlab),
    PackageData.jupyterlab data = Some (PackageData.Object jlab) ->
    PackageData.extension jlab = None ->
    PackageData.mimeExtension jlab = None ->
    exists rest,
      _validate_extension data =
      "No `extension` or `mimeExtension` key present" ::
      "`mimeExtension` and `extension` must point to different modules" ::
      rest.
Proof.
  intros data jlab Hj He Hm. unfold _validate_extension.
  rewrite Hj, He, Hm. cbn [get_default Ext.truthy entry_eqb negb andb
                           Bool.eqb complete_entry entry_not_in].
  unfold append_if at 5 6. cbn [app].
  unfold append_if at 3 4. cbn [andb].
  unfold append_if.
  destruct (_ && _); destruct (_ && _); eexists; reflexivity.
Qed.

Lemma validate_extension_no_entry_point_witness :
  exists rest,
    _validate_extension MorePackages.no_entry_point =
    "No `extension` or `mimeExtension` key present" ::
    "`mimeExtension` and `extension` must point to different modules" ::
    rest.
Proof.
  apply (validate_extension_no_entry_point MorePackages.no_entry_point
           {| PackageData.extension := None;
              PackageData.mimeExtension := None;
              PackageData.themeDir := None;
              PackageData.schemaDir := None |}); reflexivity.
Defined.

(** ** Enabling and disabling *)

Lemma in_list_remove_other (x p : string) (l : list string) :
  p <> x -> (In p (list_remove x l) <-> In p l).
Proof.
  intros Hne. induction l as [| y l IH]; simpl; [tauto |].
  destruct (String.eqb x y) eqn:E.
  - apply String.eqb_eq in E. subst y. split; [auto |].
    intros [H | H]; [congruence | exact H].
  - simpl. rewrite IH. tauto.
Qed.

Lemma in_list_remove (x p : string) (l : list string) :
  In p (list_remove x l) -> In p l.
Proof.
  induction l as [| y l IH]; simpl; [tauto |].
  destruct (String.eqb x y); simpl; intuition.
Qed.

Lemma nodup_list_remove (x : string) (l : list string) :
  NoDup l -> NoDup (list_remove x l) /\ ~ In x (list_remove x l).
Proof.
  induction l as [| y l IH]; simpl; intros Hn.
  - split; [constructor | auto].
  - inversion Hn as [| ? ? Hy Hl]; subst.
    destruct (String.eqb x y) eqn:E.
    + apply String.eqb_eq in E. subst y. split; assumption.
    + destruct (IH Hl) as [H1 H2]. split.
      * constructor; [| exact H1]. intros H. apply Hy.
        exact (in_list_remove _ _ _ H).
      * intros [-> | H]; [now rewrite String.eqb_refl in E | now apply H2].
Qed.

Lemma list_remove_appended (x : string) (l : list string) :
  ~ In x l -> list_remove x (l ++ [x]) = l.
Proof.
  induction l as [| y l IH]; simpl; intros Hn.
  - now rewrite String.eqb_refl.
  - destruct (String.eqb x y) eqn:E.
    + apply String.eqb_eq in E. subst y. exfalso. auto.
    + rewrite IH; [reflexivity | auto].
Qed.

Lemma str_in_false (x : string) (l : list string) :
  str_in x l = false <-> ~ In x l.
Proof.
  rewrite <- str_in_In. destruct (str_in x l); split; congruence.
Qed.

Lemma disabled_of_toggle (extension : string) (value : bool)
    (s : Config.files) :
  disabled_of (toggle_extension extension value s) =
  if value then
    if str_in extension (disabled_of s) then disabled_of s
    else (disabled_of s ++ [extension])%list
  else
    if str_in extension (disabled_of s)
    then list_remove extension (disabled_of s) else disabled_of s.
Proof.
  unfold toggle_extension, disabled_of at 1. simpl.
  fold (disabled_of s).
  destruct value; simpl.
  - destruct (str_in extension (disabled_of s)) eqn:E; simpl;
      [reflexivity |].
    destruct (str_in extension (disabled_of s ++ [extension]));
      reflexivity.
  - destruct (str_in extension (disabled_of s)); reflexivity.
Qed.

(** X20: after [toggle_extension(name, True)] the name is in the disabled
    list of the page configuration, and [_is_disabled] never reports it
    enabled. *)
Theorem toggle_disable_takes_effect :
  forall (re_module : ReModule) (extension : string) (s : Config.files),
    let disabled := disabled_of (toggle_extension extension true s) in
    In extension disabled /\ _is_disabled extension disabled <> Ok false.
Proof.
  intros R extension s disabled.
  assert (Hin : In extension disabled).
  { unfold disabled. rewrite disabled_of_toggle.
    destruct (str_in extension (disabled_of s)) eqn:E.
    - now apply str_in_In.
    - apply in_or_app. right. now left. }
  split; [exact Hin |]. intros Hf.
  apply (is_disabled_false extension disabled Hf extension Hin).
  left. reflexivity.
Qed.

(** X21: enabling or disabling one name leaves every other entry of the
    disabled list and the build configuration as they were; enabling
    removes the exact name only, so a name that a remaining pattern
    matches stays disabled. *)
Theorem toggle_leaves_other_entries :
  forall (extension : string) (value : bool) (s : Config.files),
    Config.build_config (toggle_extension extension value s) =
    Config.build_config s /\
    forall pattern,
      pattern <> extension ->
      (In pattern (disabled_of (toggle_extension extension value s)) <->
       In pattern (disabled_of s)).
Proof.
  intros extension value s. split; [reflexivity |].
  intros pattern Hne. rewrite disabled_of_toggle.
  destruct value, (str_in extension (disabled_of s)); try tauto.
  - rewrite in_app_iff. simpl. intuition congruence.
  - now apply in_list_remove_other.
Qed.

Lemma toggle_leaves_other_entries_witness :
  In "foo" (disabled_of (toggle_extension "foobar" false
                           MoreEnvs.sample_settings)) <->
  In "foo" (disabled_of MoreEnvs.sample_settings).
Proof.
  apply (toggle_leaves_other_entries "foobar" false MoreEnvs.sample_settings).
  discriminate.
Defined.

(** X22: on a disabled list without repetition, enabling a name removes
    it and disabling keeps the list without repetition; disabling a name
    that was not disabled and enabling it again restores the list. *)
Theorem toggle_round_trip :
  forall (extension : string) (s : Config.files),
    NoDup (disabled_of s) ->
    (forall value,
        NoDup (disabled_of (toggle_extension extension value s))) /\
    ~ In extension (disabled_of (toggle_extension extension false s)) /\
    (~ In extension (disabled_of s) ->
     disabled_of
       (toggle_extension extension false (toggle_extension extension true s))
     = disabled_of s).
Proof.
  intros extension s Hnd. split; [| split].
  - intros value. rewrite disabled_of_toggle.
    destruct value, (str_in extension (disabled_of s)) eqn:E; trivial.
    + apply str_in_false in E. apply NoDup_app; [exact Hnd | | ].
      * constructor; [intros [] | constructor].
      * intros x Hx [<- | []]. contradiction.
    + now apply nodup_list_remove.
  - rewrite disabled_of_toggle.
    destruct (str_in extension (disabled_of s)) eqn:E.
    + now apply nodup_list_remove.
    + now apply str_in_false.
  - intros Hn. rewrite !disabled_of_toggle.
    apply str_in_false in Hn. rewrite Hn.
    assert (Hin : str_in extension (disabled_of s ++ [extension]) = true).
    { apply str_in_In, in_or_app. right. now left. }
    rewrite Hin. apply list_remove_appended. now apply str_in_false.
Qed.

Lemma toggle_round_trip_witness :
  (forall value,
      NoDup (disabled_of (toggle_extension "bar" value
                            MoreEnvs.sample_settings))) /\
  ~ In "bar" (disabled_of (toggle_extension "bar" false
                             MoreEnvs.sample_settings)) /\
  (~ In "bar" (disabled_of MoreEnvs.sample_settings) ->
   disabled_of
     (toggle_extension "bar" false
        (toggle_extension "bar" true MoreEnvs.sample_settings))
   = disabled_of MoreEnvs.sample_settings).
Proof.
  apply (toggle_round_trip "bar" MoreEnvs.sample_settings).
  simpl. repeat constructor; simpl; intuition discriminate.
Defined.

(** ** Uninstalling *)

Section UninstallFacts.
Context {file_system : FileSystem}.

Lemma uninstall_installed_unknown (name : string) (local : Dict.t string)
    (items : list (string * Ext.t)) (a : App) :
  ~ In name (Dict.keys items) ->
  uninstall_installed name local items a =
  (Ok false,
   app_warn ("No labextension named " ++ dquote ++ name ++ dquote ++
             " installed") a).
Proof.
  induction items as [| [extname data] rest IH]; simpl; intros Hn.
  - reflexivity.
  - destruct (String.eqb extname name) eqn:E.
    + apply String.eqb_eq in E. subst extname. exfalso. auto.
    + apply IH. auto.
Qed.

Lemma uninstall_installed_known (name : string) (local : Dict.t string)
    (items : list (string * Ext.t)) (a : App) :
  In name (Dict.keys items) ->
  fst (uninstall_installed name local items a) <> Ok false /\
  exists data,
    In (name, data) items /\
    removed_files (snd (uninstall_installed name local items a)) =
    (removed_files a ++ [Ext.path data])%list.
Proof.
  induction items as [| [extname data] rest IH]; simpl; intros Hin.
  - destruct Hin.
  - destruct (String.eqb extname name) eqn:E.
    + apply String.eqb_eq in E. subst extname. split.
      * destruct (Dict.mem name local); [| discriminate].
        destruct (Dict.pop name _); discriminate.
      * exists data. split; [now left |].
        destruct (Dict.mem name local); [| reflexivity].
        destruct (Dict.pop name _); reflexivity.
    + destruct Hin as [-> | Hin]; [now rewrite String.eqb_refl in E |].
      destruct (IH Hin) as [H1 [d [Hd Hr]]]. split; [exact H1 |].
      exists d. split; [now right | exact Hr].
Qed.
End UninstallFacts.

(** X23: [uninstall_extension] returns [False] exactly for a name that is
    neither a core extension nor an installed extension; it then removes
    no file and leaves the settings files alone, and only warns. *)
Theorem uninstall_unknown_extension :
  forall (file_system : FileSystem) (name : string) (a : App),
    (fst (uninstall_extension name a) = Ok false <->
     ~ In name (core_extensions a) /\
     ~ In name (Dict.keys (extensions (info (handler a))))) /\
    (fst (uninstall_extension name a) = Ok false ->
     removed_files (snd (uninstall_extension name a)) = removed_files a /\
     settings (snd (uninstall_extension name a)) = settings a /\
     info_log (snd (uninstall_extension name a)) = info_log a).
Proof.
  intros FS name a.
  assert (Hiff : fst (uninstall_extension name a) = Ok false <->
                 ~ In name (core_extensions a) /\
                 ~ In name (Dict.keys (extensions (info (handler a))))).
  { unfold uninstall_extension.
    destruct (str_in name (core_extensions a)) eqn:Ec.
    - apply str_in_In in Ec. split.
      + destruct (negb (str_in name _)); discriminate.
      + intros [H _]. contradiction.
    - apply str_in_false in Ec.
      destruct (in_dec string_dec name
                  (Dict.keys (extensions (info (handler a))))) as [Hin | Hn].
      + split; [| tauto]. intros H. exfalso.
        exact (proj1 (uninstall_installed_known name _ _ a Hin) H).
      + rewrite uninstall_installed_unknown by exact Hn. simpl. tauto. }
  split; [exact Hiff |].
  intros H. apply Hiff in H. destruct H as [Hc Hn].
  unfold uninstall_extension. apply str_in_false in Hc. rewrite Hc.
  rewrite uninstall_installed_unknown by exact Hn. simpl. auto.
Qed.

Lemma uninstall_core_run {file_system : FileSystem} (name : string)
    (a : App) :
  In name (core_extensions a) ->
  uninstall_extension name a =
  (Ok true,
   if str_in name (_get_uninstalled_core_extensions (settings a))
   then logger_info ("Uninstalling core extension " ++ name) a
   else
     with_settings
       (_write_build_config
          {| Config.uninstalled_core_extensions :=
               Some (_get_uninstalled_core_extensions (settings a) ++ [name])%list;
             Config.local_extensions :=
               Config.local_extensions (_read_build_config (settings a));
             Config.linked_packages :=
               Config.linked_packages (_read_build_config (settings a)) |}
          (settings a))
       (logger_info ("Uninstalling core extension " ++ name) a)).
Proof.
  intros Hc. unfold uninstall_extension. apply str_in_In in Hc. rewrite Hc.
  cbn [settings logger_info].
  fold (_get_uninstalled_core_extensions (settings a)).
  destruct (str_in name (_get_uninstalled_core_extensions (settings a)));
    reflexivity.
Qed.

(** X24: uninstalling a core extension returns [True], removes no file
    and records the name among the uninstalled core extensions of the
    build configuration, keeping the names already there and the local
    and linked entries; doing it again changes nothing more. *)
Theorem uninstall_core_extension :
  forall (file_system : FileSystem) (name : string) (a : App),
    In name (core_extensions a) ->
    let a' := snd (uninstall_extension name a) in
    fst (uninstall_extension name a) = Ok true /\
    removed_files a' = removed_files a /\
    In name (_get_uninstalled_core_extensions (settings a')) /\
    (forall other,
        In other (_get_uninstalled_core_extensions (settings a)) ->
        In other (_get_uninstalled_core_extensions (settings a'))) /\
    Config.local_extensions (_read_build_config (settings a')) =
    Config.local_extensions (_read_build_config (settings a)) /\
    Config.linked_packages (_read_build_config (settings a')) =
    Config.linked_packages (_read_build_config (settings a)) /\
    settings (snd (uninstall_extension name a')) = settings a'.
Proof.
  intros FS name a Hc a'. subst a'. rewrite (uninstall_core_run name a Hc).
  cbn [fst snd].
  destruct (str_in name (_get_uninstalled_core_extensions (settings a)))
    eqn:Eu.
  - repeat split; trivial.
    + cbn [settings logger_info]. now apply str_in_In.
    + rewrite uninstall_core_run by exact Hc.
      cbn [snd settings logger_info]. rewrite Eu. reflexivity.
  - assert (Hin : str_in name
                    (_get_uninstalled_core_extensions (settings a) ++ [name])
                  = true).
    { apply str_in_In, in_or_app. right. now left. }
    repeat split; trivial.
    + apply str_in_In. exact Hin.
    + intros other Ho. unfold _get_uninstalled_core_extensions at 1. simpl.
      apply in_or_app. now left.
    + rewrite uninstall_core_run by exact Hc.
      cbn [snd]. unfold _get_uninstalled_core_extensions at 1.
      cbn [settings with_settings _read_build_config _write_build_config
           Config.build_config Config.uninstalled_core_extensions
           get_default].
      rewrite Hin. reflexivity.
Qed.

Lemma uninstall_unknown_extension_witness :
  fst (@uninstall_extension MoreEnvs.sample_fs "nobody" MoreEnvs.sample_app)
  = Ok false /\
  removed_files
    (snd (@uninstall_extension MoreEnvs.sample_fs "nobody"
            MoreEnvs.sample_app)) = [].
Proof.
  pose proof (uninstall_unknown_extension MoreEnvs.sample_fs "nobody"
                MoreEnvs.sample_app) as [Hiff Hkeep].
  assert (H : fst (@uninstall_extension MoreEnvs.sample_fs "nobody"
                     MoreEnvs.sample_app) = Ok false).
  { apply Hiff. simpl. intuition discriminate. }
  split; [exact H | exact (proj1 (Hkeep H))].
Defined.

Lemma uninstall_core_extension_witness :
  fst (@uninstall_extension MoreEnvs.sample_fs "core-ext" MoreEnvs.sample_app)
  = Ok true /\
  In "core-ext"
    (_get_uninstalled_core_extensions
       (settings (snd (@uninstall_extension MoreEnvs.sample_fs "core-ext"
                         MoreEnvs.sample_app)))).
Proof.
  destruct (uninstall_core_extension MoreEnvs.sample_fs "core-ext"
              MoreEnvs.sample_app) as [H1 [_ [H3 _]]].
  - simpl. left. reflexivity.
  - split; assumption.
Defined.

Section UninstallInstalled.
Context {file_system : FileSystem}.

Lemma uninstall_installed_run (name : string) (local : Dict.t string)
    (items : list (string * Ext.t)) (data : Ext.t) (a : App) :
  NoDup (Dict.keys items) -> In (name, data) items ->
  uninstall_installed name local items a =
  let a1 :=
    os_remove (Ext.path data)
      (logger_info ("Uninstalling " ++ name ++ " from " ++
                    dirname (Ext.path data)) a) in
  if Dict.mem name local then
    let config := _read_build_config (settings a) in
    match
      Dict.pop name (get_default (Config.local_extensions config) [])
    with
    | Raise e => (Raise e, a1)
    | Ok d =>
        (Ok true,
         with_settings
           (_write_build_config
              {| Config.uninstalled_core_extensions :=
                   Config.uninstalled_core_extensions config;
                 Config.local_extensions := Some d;
                 Config.linked_packages := Config.linked_packages config |}
              (settings a)) a1)
    end
  else (Ok true, a1).
Proof.
  unfold Dict.keys.
  induction items as [| [extname d0] rest IH]; simpl; intros Hnd Hin.
  - destruct Hin.
  - inversion Hnd as [| ? ? Hfresh Hnd']; subst.
    destruct Hin as [[= -> ->] | Hin].
    + rewrite String.eqb_refl. reflexivity.
    + destruct (String.eqb extname name) eqn:E.
      * apply String.eqb_eq in E. subst extname. exfalso. apply Hfresh.
        exact (dict_in_keys _ _ _ Hin).
      * now apply IH.
Qed.
End UninstallInstalled.

(** X25: uninstalling an installed extension that is not a core
    extension removes exactly its packed file and never returns [False].
    It returns [True] unless the handler knows the extension as local
    while the build configuration has no such local entry, in which case
    it raises [KeyError] after the file is removed.  The page
    configuration and the uninstalled core extensions are left alone. *)
Theorem uninstall_installed_extension :
  forall (file_system : FileSystem) (name : string) (data : Ext.t) (a : App),
    ~ In name (core_extensions a) ->
    NoDup (Dict.keys (extensions (info (handler a)))) ->
    In (name, data) (extensions (info (handler a))) ->
    let r := uninstall_extension name a in
    let local_config :=
      get_default
        (Config.local_extensions (_read_build_config (settings a))) [] in
    removed_files (snd r) = (removed_files a ++ [Ext.path data])%list /\
    (if Dict.mem name (local_extensions (info (handler a))) &&
        negb (Dict.mem name local_config)
     then fst r = Raise (KeyError name) /\ settings (snd r) = settings a
     else fst r = Ok true) /\
    Config.page_config (settings (snd r)) = Config.page_config (settings a) /\
    _get_uninstalled_core_extensions (settings (snd r)) =
    _get_uninstalled_core_extensions (settings a).
Proof.
  intros FS name data a Hc Hnd Hin r local_config. subst r.
  unfold uninstall_extension. apply str_in_false in Hc. rewrite Hc.
  rewrite (uninstall_installed_run name _ _ data a Hnd Hin).
  cbv zeta. fold local_config.
  destruct (Dict.mem name (local_extensions (info (handler a)))); simpl.
  - unfold Dict.pop. destruct (Dict.mem name local_config); simpl;
      repeat split; reflexivity.
  - repeat split; reflexivity.
Qed.

Lemma uninstall_installed_extension_witness :
  removed_files
    (snd (@uninstall_extension MoreEnvs.sample_fs "A" MoreEnvs.sample_app))
  = ["/ext/A.tgz"] /\
  fst (@uninstall_extension MoreEnvs.sample_fs "A" MoreEnvs.sample_app)
  = Ok true.
Proof.
  destruct (uninstall_installed_extension MoreEnvs.sample_fs "A"
              (Scenario.plain_extension "/ext/A.tgz") MoreEnvs.sample_app)
    as [H1 [H2 _]].
  - simpl. intuition discriminate.
  - simpl. repeat constructor; simpl; intuition discriminate.
  - simpl. left. reflexivity.
  - split; [exact H1 | exact H2].
Defined.

(** ** Dead local extensions and linked packages *)

Section LocalDataFacts.
Context {file_system : FileSystem}.

Lemma fold_remove_cons (dead : list string) (k v : string)
    (d : Dict.t string) :
  ~ In k dead ->
  fold_left (fun acc name => Dict.remove name acc) dead ((k, v) :: d) =
  (k, v) :: fold_left (fun acc name => Dict.remove name acc) dead d.
Proof.
  revert d. induction dead as [| x dead IH]; simpl; intros d Hn.
  - reflexivity.
  - destruct (String.eqb x k) eqn:E.
    + apply String.eqb_eq in E. subst x. exfalso. auto.
    + apply IH. auto.
Qed.

Lemma fold_remove_dead (data : Dict.t string) :
  NoDup (Dict.keys data) ->
  fold_left (fun acc name => Dict.remove name acc)
    (map fst (filter (fun '(name, src) => negb (path_exists src)) data)) data
  = filter alive data.
Proof.
  unfold Dict.keys, alive.
  induction data as [| [k v] rest IH]; simpl; intros Hnd.
  - reflexivity.
  - inversion Hnd as [| ? ? Hfresh Hnd']; subst.
    destruct (path_exists v) eqn:Ev; simpl.
    + rewrite fold_remove_cons; [now rewrite IH |].
      intros Hin. apply Hfresh. apply in_map_iff in Hin.
      destruct Hin as [[k' v'] [Hk Hf]]. simpl in Hk. subst k'.
      apply filter_In in Hf. exact (dict_in_keys _ _ _ (proj1 Hf)).
    + rewrite String.eqb_refl. now apply IH.
Qed.

Lemma filter_alive_all (data : Dict.t string) :
  filter (fun '(name, src) => negb (path_exists src)) data = [] ->
  filter alive data = data.
Proof.
  unfold alive. induction data as [| [k v] rest IH]; simpl; [reflexivity |].
  destruct (path_exists v); simpl; [| discriminate].
  intros H. now rewrite IH.
Qed.

Lemma no_dead_after_filter (data : Dict.t string) :
  filter (fun '(name, src) => negb (path_exists src)) (filter alive data)
  = [].
Proof.
  unfold alive. induction data as [| [k v] rest IH]; simpl; [reflexivity |].
  destruct (path_exists v) eqn:Ev; simpl; [| exact IH].
  rewrite Ev. simpl. exact IH.
Qed.
End LocalDataFacts.

Lemma local_data_pruned :
  forall (file_system : FileSystem) (source : local_source)
         (s : Config.files) (warnings : list string),
    let data := get_default (config_get source (_read_build_config s)) [] in
    let dead := filter (fun entry => negb (alive entry)) data in
    let r := _get_local_data source s warnings in
    NoDup (Dict.keys data) ->
    fst (fst r) = filter alive data /\
    (dead = [] -> snd (fst r) = s /\ snd r = warnings) /\
    (dead <> [] ->
     config_get source (_read_build_config (snd (fst r))) =
     Some (filter alive data) /\
     List.length (snd r) = (List.length warnings + List.length dead)%nat /\
     Config.page_config (snd (fst r)) = Config.page_config s /\
     Config.uninstalled_core_extensions (_read_build_config (snd (fst r))) =
     Config.uninstalled_core_extensions (_read_build_config s) /\
     forall other,
       other <> source ->
       config_get other (_read_build_config (snd (fst r))) =
       config_get other (_read_build_config s)).
Proof.
  intros FS source s warnings data dead r Hnd. subst r.
  unfold _get_local_data. fold data.
  assert (Hdead : filter (fun '(name, src) => negb (path_exists src)) data
                  = dead).
  { unfold dead, alive. apply filter_ext. intros [k v]. reflexivity. }
  rewrite (fold_remove_dead data Hnd). rewrite Hdead. cbn [fst snd].
  split; [reflexivity |]. split.
  - intros ->. simpl. rewrite app_nil_r. split; reflexivity.
  - intros Hne. destruct dead as [| d0 dead'] eqn:Ed; [congruence |].
    cbn [map]. rewrite <- Ed. repeat split.
    + destruct source; reflexivity.
    + rewrite length_app. cbn [List.length]. rewrite !length_map.
      rewrite Ed. reflexivity.
    + destruct source; reflexivity.
    + intros other Ho. destruct source, other; try congruence; reflexivity.
Qed.

(** X26: [_get_local_data] returns the configured entries whose source
    path exists, in their order.  When none is dead it writes and logs
    nothing; otherwise it logs one warning per dead entry and rewrites the
    build configuration with the pruned entries, leaving its other keys
    and the page configuration as they were. *)
Theorem get_local_data_prunes_dead :
  forall (file_system : FileSystem) (source : local_source)
         (s : Config.files) (warnings : list string),
    let data := get_default (config_get source (_read_build_config s)) [] in
    let dead := filter (fun entry => negb (alive entry)) data in
    let r := _get_local_data source s warnings in
    NoDup (Dict.keys data) ->
    fst (fst r) = filter alive data /\
    (dead = [] -> snd (fst r) = s /\ snd r = warnings) /\
    (dead <> [] ->
     config_get source (_read_build_config (snd (fst r))) =
     Some (filter alive data) /\
     List.length (snd r) = (List.length warnings + List.length dead)%nat /\
     Config.page_config (snd (fst r)) = Config.page_config s /\
     Config.uninstalled_core_extensions (_read_build_config (snd (fst r))) =
     Config.uninstalled_core_extensions (_read_build_config s) /\
     forall other,
       other <> source ->
       config_get other (_read_build_config (snd (fst r))) =
       config_get other (_read_build_config s)).
Proof.
  intros FS source s warnings. apply local_data_pruned.
Qed.

Lemma get_local_data_prunes_dead_witness :
  fst (fst (@_get_local_data MoreEnvs.sample_fs LocalExtensions
              MoreEnvs.sample_settings [])) = [("A", "/src/A")].
Proof.
  destruct (get_local_data_prunes_dead MoreEnvs.sample_fs LocalExtensions
              MoreEnvs.sample_settings []) as [H _].
  - simpl. repeat constructor; simpl; intuition discriminate.
  - exact H.
Defined.

(** X27: pruning is persistent: calling [_get_local_data] again on the
    settings it left returns the same entries and writes and logs nothing
    more. *)
Theorem get_local_data_idempotent :
  forall (file_system : FileSystem) (source : local_source)
         (s : Config.files) (warnings : list string),
    NoDup
      (Dict.keys (get_default (config_get source (_read_build_config s)) []))
    ->
    let r := _get_local_data source s warnings in
    _get_local_data source (snd (fst r)) (snd r) = r.
Proof.
  intros FS source s warnings Hnd r.
  destruct (local_data_pruned FS source s warnings Hnd)
    as [Hdata [Hnone Hsome]].
  fold r in Hdata, Hnone, Hsome.
  set (data := get_default (config_get source (_read_build_config s)) [])
    in *.
  destruct (filter (fun entry => negb (alive entry)) data) as [| d0 dead']
    eqn:Ed.
  - destruct (Hnone eq_refl) as [Hs Hw]. rewrite Hs, Hw. reflexivity.
  - destruct Hsome as [Hcfg _]; [discriminate |].
    unfold _get_local_data at 1. rewrite Hcfg. cbn [get_default].
    assert (Hno : filter (fun '(name, src) => negb (path_exists src))
                    (filter alive data) = [])
      by apply no_dead_after_filter.
    rewrite Hno. cbn [map fold_left]. rewrite app_nil_r.
    rewrite <- Hdata. destruct r as [[d s'] w]. reflexivity.
Qed.

Lemma get_local_data_idempotent_witness :
  let r :=
    @_get_local_data MoreEnvs.sample_fs LocalExtensions
      MoreEnvs.sample_settings [] in
  @_get_local_data MoreEnvs.sample_fs LocalExtensions (snd (fst r)) (snd r)
  = r.
Proof.
  apply (get_local_data_idempotent MoreEnvs.sample_fs LocalExtensions
           MoreEnvs.sample_settings []).
  simpl. repeat constructor; simpl; intuition discriminate.
Defined.

(** ** The catalog of installed extensions *)

Lemma dict_get_update {V} (d other : Dict.t V) (k : string) :
  NoDup (Dict.keys other) ->
  Dict.get k (dict_update d other) =
  match Dict.get k other with
  | Some v => Some v
  | None => Dict.get k d
  end.
Proof.
  intros Hnd. unfold dict_update.
  exact (dict_get_fold_set (fun v : V => v) other Hnd d k).
Qed.

(** X28: in the catalog [_get_extensions] builds, an extension packed in
    the application directory replaces the one of the same name from the
    system directory, and every other system extension is kept; when the
    application directory is the system directory or has no [extensions]
    folder, the catalog is the system one. *)
Theorem get_extensions_app_overrides_sys :
  forall (environment : Environment) (file_system : FileSystem)
         (core : Pkg.t) (k : string),
    NoDup (Dict.keys (_get_extensions_in_dir app_dir)) ->
    Dict.get k (_get_extensions core) =
    if String.eqb (pjoin [app_dir; "extensions"])
         (pjoin [sys_dir; "extensions"]) ||
       negb (path_exists (pjoin [app_dir; "extensions"]))
    then Dict.get k (_get_extensions_in_dir sys_dir)
    else
      match Dict.get k (_get_extensions_in_dir app_dir) with
      | Some record => Some record
      | None => Dict.get k (_get_extensions_in_dir sys_dir)
      end.
Proof.
  intros E FS core k Hnd. unfold _get_extensions.
  destruct (String.eqb _ _ || negb _); [reflexivity |].
  now apply dict_get_update.
Qed.

Lemma get_extensions_app_overrides_sys_witness :
  Dict.get "A"
    (@_get_extensions SampleEnv.impl MoreEnvs.sample_fs Scenario.core_foo) =
  Some (Scenario.plain_extension "/app/extensions/A.tgz") /\
  Dict.get "S"
    (@_get_extensions SampleEnv.impl MoreEnvs.sample_fs Scenario.core_foo) =
  Some (Scenario.plain_extension "/sys/extensions/S.tgz").
Proof.
  assert (Hnd : NoDup (Dict.keys (@_get_extensions_in_dir MoreEnvs.sample_fs
                                    (@app_dir SampleEnv.impl)))).
  { simpl. repeat constructor; simpl; intuition discriminate. }
  split.
  - rewrite (get_extensions_app_overrides_sys SampleEnv.impl
               MoreEnvs.sample_fs Scenario.core_foo "A" Hnd). reflexivity.
  - rewrite (get_extensions_app_overrides_sys SampleEnv.impl
               MoreEnvs.sample_fs Scenario.core_foo "S" Hnd). reflexivity.
Defined.

(** ** Pattern lists *)

(** X29: [_is_disabled] reads the pattern list from the front: on a list
    followed by another it answers as on the first list, unless that
    answer is [False], in which case it answers as on the second.  So a
    name disabled by a list stays disabled when patterns are appended,
    and a malformed pattern is only met if nothing before it matches. *)
Theorem is_disabled_app :
  forall (re_module : ReModule) (name : string)
         (patterns more : list string),
    _is_disabled name (patterns ++ more) =
    match _is_disabled name patterns with
    | Ok false => _is_disabled name more
    | answer => answer
    end.
Proof.
  intros R name patterns more.
  induction patterns as [| pattern rest IH]; simpl; [reflexivity |].
  destruct (String.eqb name pattern); [reflexivity |].
  destruct (re_compile pattern) as [p |]; [| reflexivity].
  destruct (re_match p name); [reflexivity | exact IH].
Qed.

(** ** From uninstalling to the next build *)

(** X30: once a core extension is uninstalled, a handler created from the
    settings left behind builds a template that has it neither among
    [extensions] nor among the dependencies. *)
Theorem uninstalled_core_extension_left_out :
  forall (file_system : FileSystem) (semver_module : SemverModule)
         (environment : Environment) (name : string) (a : App)
         (silent : bool) (h h' : Handler) (data : Pkg.t),
    In name (core_extensions a) ->
    uninstalled_core (info h) =
    _get_uninstalled_core_extensions
      (settings (snd (uninstall_extension name a))) ->
    NoDup (Dict.keys (Pkg.dependencies (core_data (info h)))) ->
    NoDup (Dict.keys (Pkg.extensions (Pkg.jupyterlab (core_data (info h)))))
    ->
    _get_package_template silent h = (Ok data, h') ->
    ~ In name (Dict.keys (Pkg.extensions (Pkg.jupyterlab data))) /\
    ~ In name (Dict.keys (Pkg.dependencies data)).
Proof.
  intros FS S E name a silent h h' data Hc Hu Hd He Hrun.
  apply (uninstalled_core_dropped silent h h' data Hd He Hrun).
  rewrite Hu, (uninstall_core_run name a Hc). cbn [snd].
  destruct (str_in name (_get_uninstalled_core_extensions (settings a)))
    eqn:Eu.
  - cbn [settings logger_info]. now apply str_in_In.
  - unfold _get_uninstalled_core_extensions at 1. simpl.
    apply in_or_app. right. now left.
Qed.

Lemma uninstalled_core_extension_left_out_witness :
  ~ In "core-ext"
      (Dict.keys
         (Pkg.extensions
            (Pkg.jupyterlab (fst MoreScenarios.template_uninstalled)))) /\
  ~ In "core-ext"
      (Dict.keys (Pkg.dependencies (fst MoreScenarios.template_uninstalled))).
Proof.
  apply (uninstalled_core_extension_left_out MoreEnvs.sample_fs
           SpecSemver.impl SampleEnv.impl "core-ext" MoreEnvs.sample_app true
           Scenario.handler_uninstalled
           (snd MoreScenarios.template_uninstalled)
           (fst MoreScenarios.template_uninstalled)).
  - simpl. left. reflexivity.
  - reflexivity.
  - simpl. repeat constructor; simpl; intuition discriminate.
  - simpl. repeat constructor; simpl; intuition discriminate.
  - reflexivity.
Defined.
